(** * Autopilot bridge (autopilotcontroller.ino): NMEA 2000 <-> SeaTalk-1

    A shallow embedding of the protocol core of the sketch: the 29-bit
    identifier codec, the fast-packet sender, the 126208 command
    reassembler, the pilot-mode state machine and the SeaTalk datagram
    encoders, followed by the properties of the specification.

    Conventions.
    - Fixed-width unsigned integers are [Z] with the wrap-around written
      out ([u8], [u16], [u32]); bytes are [Z] in [0, 256).
    - [float] is IEEE-754 binary32, modelled with the parameterised
      [SpecFloat] operations of the standard library at precision 24 and
      maximal exponent 128 (round to nearest, ties to even).
    - Output (CAN frames handed to [twai_transmit], datagrams written to
      the SeaTalk UART) is appended to a trace carried in the state.
      Debug printing and the [delay] calls between frames are left out:
      they neither read nor write the modelled state.
    - A [while] loop over a [float] takes fuel; running out of fuel is
      [None]. *)

From Stdlib Require Import ZArith List Bool Lia.
From Stdlib Require Import Floats.SpecFloat.
From Stdlib Require Strings.Ascii Strings.String.
Import ListNotations.
Local Open Scope Z_scope.

(** ** Fixed-width integers and byte arrays *)

Definition u8 (z : Z) : Z := z mod 256.
Definition u16 (z : Z) : Z := z mod 65536.
Definition u32 (z : Z) : Z := z mod 4294967296.

(** [p[i]] on an array given as a list; a read past the end yields 0. *)
Definition byte_at (p : list Z) (i : Z) : Z := nth (Z.to_nat i) p 0.

(** [p + k] for a pointer into an array. *)
Definition ptr_add (p : list Z) (k : Z) : list Z := skipn (Z.to_nat k) p.

(** [memset(p, v, n)] on a fresh array. *)
Definition memset (v : Z) (n : Z) : list Z := repeat v (Z.to_nat n).

(** The first [c] bytes at a pointer. *)
Definition read_bytes (src : list Z) (c : nat) : list Z :=
  map (fun i => nth i src 0) (seq 0 c).

(** [memcpy(dst + off, src, cnt)]: the bytes [off .. off+cnt) of [dst] are
    replaced by the first [cnt] bytes of [src]; the array keeps its length.
    (In C++ a copy that leaves the array is undefined; the splice is cut at
    the end of [dst] so that the function is total.) *)
Definition memcpy (dst : list Z) (off : Z) (src : list Z) (cnt : Z) : list Z :=
  let o := Z.to_nat off in
  let c := Z.to_nat cnt in
  firstn (length dst) (firstn o dst ++ read_bytes src c ++ skipn (o + c) dst).

Definition put_u16le (v : Z) : list Z :=
  [Z.land v 255; Z.land (Z.shiftr v 8) 255].

Definition put_u32le (v : Z) : list Z :=
  [Z.land v 255; Z.land (Z.shiftr v 8) 255;
   Z.land (Z.shiftr v 16) 255; Z.land (Z.shiftr v 24) 255].

(** ** binary32 arithmetic *)

Module F32.

Definition prec : Z := 24.
Definition emax : Z := 128.

Definition f32 : Type := spec_float.

Definition add : f32 -> f32 -> f32 := SFadd prec emax.
Definition sub : f32 -> f32 -> f32 := SFsub prec emax.
Definition mul : f32 -> f32 -> f32 := SFmul prec emax.
Definition div : f32 -> f32 -> f32 := SFdiv prec emax.

(** Comparisons are false as soon as one operand is NaN, as in C. *)
Definition ltb : f32 -> f32 -> bool := SFltb.
Definition leb : f32 -> f32 -> bool := SFleb.
Definition gtb (x y : f32) : bool := SFltb y x.
Definition geb (x y : f32) : bool := SFleb y x.

(** Conversion of an integer, and of a decimal literal [n/d] (both below
    2^24, so the quotient is rounded once, like the literal). *)
Definition of_Z (z : Z) : f32 := binary_normalize prec emax z 0 false.
Definition of_ratio (n d : Z) : f32 := div (of_Z n) (of_Z d).

Definition NaN : f32 := S754_nan.
Definition zero : f32 := S754_zero false.

Definition isnan (x : f32) : bool :=
  match x with S754_nan => true | _ => false end.

Definition isfinite (x : f32) : bool :=
  match x with S754_nan | S754_infinity _ => false | _ => true end.

Definition fabsf : f32 -> f32 := SFabs.

(** [(float)M_PI]: the double 3.141592653589793 rounded to binary32,
    13176795 * 2^-22 (bit pattern 0x40490FDB). *)
Definition M_PI : f32 := S754_finite false 13176795 (-22).

Definition signed (s : bool) (z : Z) : Z := if s then - z else z.

(** An integer-valued result keeps the sign of its argument when it is
    zero, as [roundf] and [floorf] do. *)
Definition of_int_signed (s : bool) (z : Z) : f32 :=
  binary_normalize prec emax z 0 s.

(** [roundf]: nearest integer, halfway cases away from zero. *)
Definition roundf (x : f32) : f32 :=
  match x with
  | S754_finite s m e =>
      if 0 <=? e then x
      else
        let d := 2 ^ (- e) in
        let q := Z.pos m / d in
        let r := Z.pos m mod d in
        of_int_signed s (signed s (if d <=? 2 * r then q + 1 else q))
  | _ => x
  end.

(** [floorf]: largest integer not above the argument. *)
Definition floorf (x : f32) : f32 :=
  match x with
  | S754_finite s m e =>
      if 0 <=? e then x
      else of_int_signed s (signed s (Z.pos m) / 2 ^ (- e))
  | _ => x
  end.

(** [fmodf(x, y)]: [x - n*y] with [n] the quotient truncated toward
    zero; the result is exact and has the sign of [x]. *)
Definition fmodf (x y : f32) : f32 :=
  match x, y with
  | S754_nan, _ | _, S754_nan => S754_nan
  | S754_infinity _, _ => S754_nan
  | _, S754_zero _ => S754_nan
  | _, S754_infinity _ => x
  | S754_zero _, _ => x
  | S754_finite sx mx ex, S754_finite _ my ey =>
      let e := Z.min ex ey in
      let X := Z.pos mx * 2 ^ (ex - e) in
      let Y := Z.pos my * 2 ^ (ey - e) in
      binary_normalize prec emax (signed sx (X mod Y)) e sx
  end.

(** Conversion to an integer type truncates toward zero; the caller
    reduces the result to the width of the destination. *)
Definition to_Z (x : f32) : Z :=
  match x with
  | S754_finite s m e =>
      signed s (if 0 <=? e then Z.pos m * 2 ^ e else Z.pos m / 2 ^ (- e))
  | _ => 0
  end.

(** The float whose object representation is the 32-bit word [w]
    (a [memcpy] from four little-endian bytes). *)
Definition of_bits (w : Z) : f32 :=
  let s := Z.testbit w 31 in
  let ex := Z.land (Z.shiftr w 23) 255 in
  let fr := Z.land w 8388607 in
  if ex =? 0 then
    match fr with
    | Z.pos m => S754_finite s m (-149)
    | _ => S754_zero s
    end
  else if ex =? 255 then
    (if fr =? 0 then S754_infinity s else S754_nan)
  else
    match fr + 8388608 with
    | Z.pos m => S754_finite s m (ex - 150)
    | _ => S754_nan
    end.

End F32.

Definition f32 : Type := F32.f32.

Definition clampf (v a b : f32) : f32 :=
  if F32.ltb v a then a else if F32.gtb v b then b else v.

(** ** Modes, constants and the device state *)

Inductive PilotMode : Type := PM_STBY | PM_AUTO | PM_WIND | PM_TRACK.
Inductive HeadingRef : Type := REF_TRUE | REF_MAG.

Definition PilotMode_eqb (a b : PilotMode) : bool :=
  match a, b with
  | PM_STBY, PM_STBY | PM_AUTO, PM_AUTO
  | PM_WIND, PM_WIND | PM_TRACK, PM_TRACK => true
  | _, _ => false
  end.

Definition PGN_ADDR_CLAIM : Z := 60928.
Definition PGN_ISO_REQUEST : Z := 59904.
Definition PGN_CMD_GROUP : Z := 126208.
Definition PGN_PGN_LIST : Z := 126464.
Definition PGN_PRODUCT_INFO : Z := 126996.
Definition PGN_CONFIG_INFO : Z := 126998.
Definition PGN_AP_STATUS : Z := 127237.
Definition PGN_VESSEL_HEAD : Z := 127250.
Definition PGN_STW : Z := 128259.
Definition PGN_COGSOG : Z := 129026.
Definition PGN_XTE : Z := 129283.
Definition PGN_NAVDATA : Z := 129284.
Definition PGN_ROUTE_WP : Z := 129285.
Definition PGN_WIND : Z := 130306.
Definition PGN_RM_PILOT_MODE : Z := 65379.
Definition PGN_RM_LOCKED_HEADING : Z := 65360.
Definition PGN_RM_KEYPAD_HEART : Z := 65374.

Definition SA : Z := 33.
Definition N2K_MFG : Z := 1851.
Definition N2K_IND_GR : Z := 4.
Definition N2K_DEV_CLASS : Z := 40.
Definition N2K_FUNC : Z := 135.
Definition N2K_FUNC_INST : Z := 0.
Definition N2K_DEV_INST : Z := 0.
Definition N2K_AAC : bool := true.
Definition N2K_UNIQUE : Z := 0x37AC5.
Definition N2K_VERSION : Z := 1301.
Definition PRODUCT_CODE : Z := 20001.
Definition CERT_LEVEL : Z := 1.
Definition LEN_UNITS_50mA : Z := 3.

(** The character arrays, as ASCII codes without the terminating NUL. *)
Definition MODEL_ID : list Z := [69; 55; 48; 48; 49; 48].
Definition SW_VERSION : list Z := [118; 49; 46; 48; 46; 48].
Definition MODEL_VER : list Z :=
  [82; 97; 121; 109; 97; 114; 105; 110; 101; 32; 65; 80; 32; 40; 101; 109;
   117; 41].
Definition SERIAL_NO : list Z := [82; 77; 45; 69; 77; 85; 45; 48; 48; 49].

(** What the device puts on its two buses. *)
Inductive output : Type :=
| CanTx (id : Z) (data : list Z)   (* twai_tx: extended frame *)
| StTx (datagram : list Z).        (* st_write_datagram *)

(** A received [twai_message_t]; [data] is the 8-byte array of the
    structure, [data_length_code] the number of bytes that are valid. *)
Record twai_message : Type := mkMsg {
  identifier : Z;
  extd : bool;
  data_length_code : Z;
  data : list Z
}.

(** The fast-packet assembly buffer of the command group function. *)
Record FPBuf : Type := mkFPBuf {
  fp_active : bool;
  fp_sa : Z;
  fp_seq : Z;
  fp_total : Z;
  fp_next : Z;
  fp_filled : Z;
  fp_buf : list Z
}.

Definition FPBUF_SIZE : Z := 120.

(** [grp = {}]: the default member initialisers and a zeroed array. *)
Definition gf_reset : FPBuf :=
  mkFPBuf false 255 255 0 0 0 (memset 0 FPBUF_SIZE).

(** The global variables of the sketch that the receive path reads or
    writes, and the output trace. *)
Record World : Type := mkWorld {
  currentMode : PilotMode;
  headingRef : HeadingRef;
  hdg_deg_now : f32;
  locked_hdg_deg : f32;
  xte_nm : f32;
  dtw_nm : f32;
  cog_mag_deg : f32;
  sog_kn : f32;
  awa_deg : f32;
  aws_kn : f32;
  stw_kn : f32;
  grp : FPBuf;
  tx : list output
}.

Definition set_mode (m : PilotMode) (w : World) : World :=
  mkWorld m (headingRef w) (hdg_deg_now w) (locked_hdg_deg w) (xte_nm w)
    (dtw_nm w) (cog_mag_deg w) (sog_kn w) (awa_deg w) (aws_kn w) (stw_kn w)
    (grp w) (tx w).

Definition set_ref (r : HeadingRef) (w : World) : World :=
  mkWorld (currentMode w) r (hdg_deg_now w) (locked_hdg_deg w) (xte_nm w)
    (dtw_nm w) (cog_mag_deg w) (sog_kn w) (awa_deg w) (aws_kn w) (stw_kn w)
    (grp w) (tx w).

Definition set_hdg (h : f32) (w : World) : World :=
  mkWorld (currentMode w) (headingRef w) h (locked_hdg_deg w) (xte_nm w)
    (dtw_nm w) (cog_mag_deg w) (sog_kn w) (awa_deg w) (aws_kn w) (stw_kn w)
    (grp w) (tx w).

Definition set_locked (h : f32) (w : World) : World :=
  mkWorld (currentMode w) (headingRef w) (hdg_deg_now w) h (xte_nm w)
    (dtw_nm w) (cog_mag_deg w) (sog_kn w) (awa_deg w) (aws_kn w) (stw_kn w)
    (grp w) (tx w).

Definition set_xte (x : f32) (w : World) : World :=
  mkWorld (currentMode w) (headingRef w) (hdg_deg_now w) (locked_hdg_deg w) x
    (dtw_nm w) (cog_mag_deg w) (sog_kn w) (awa_deg w) (aws_kn w) (stw_kn w)
    (grp w) (tx w).

Definition set_cogsog (c s : f32) (w : World) : World :=
  mkWorld (currentMode w) (headingRef w) (hdg_deg_now w) (locked_hdg_deg w)
    (xte_nm w) (dtw_nm w) c s (awa_deg w) (aws_kn w) (stw_kn w)
    (grp w) (tx w).

Definition set_wind (a s : f32) (w : World) : World :=
  mkWorld (currentMode w) (headingRef w) (hdg_deg_now w) (locked_hdg_deg w)
    (xte_nm w) (dtw_nm w) (cog_mag_deg w) (sog_kn w) a s (stw_kn w)
    (grp w) (tx w).

Definition set_stw (s : f32) (w : World) : World :=
  mkWorld (currentMode w) (headingRef w) (hdg_deg_now w) (locked_hdg_deg w)
    (xte_nm w) (dtw_nm w) (cog_mag_deg w) (sog_kn w) (awa_deg w) (aws_kn w) s
    (grp w) (tx w).

Definition set_grp (g : FPBuf) (w : World) : World :=
  mkWorld (currentMode w) (headingRef w) (hdg_deg_now w) (locked_hdg_deg w)
    (xte_nm w) (dtw_nm w) (cog_mag_deg w) (sog_kn w) (awa_deg w) (aws_kn w)
    (stw_kn w) g (tx w).

Definition emit (o : output) (w : World) : World :=
  mkWorld (currentMode w) (headingRef w) (hdg_deg_now w) (locked_hdg_deg w)
    (xte_nm w) (dtw_nm w) (cog_mag_deg w) (sog_kn w) (awa_deg w) (aws_kn w)
    (stw_kn w) (grp w) (tx w ++ [o]).

Definition emit_all (os : list output) (w : World) : World :=
  fold_left (fun acc o => emit o acc) os w.

(** The state after [setup]: the initialisers of the globals and the
    assignments at the end of [setup]; the trace starts empty. *)
Definition initial_world : World :=
  mkWorld PM_STBY REF_MAG F32.zero F32.NaN F32.zero F32.zero F32.zero
    F32.zero F32.zero F32.zero F32.zero gf_reset [].

(** ** N2K helpers *)

Definition n2k_id (prio pgn src : Z) : Z :=
  let PF := Z.land (Z.shiftr pgn 8) 0xFF in
  let PDU_SPEC := if PF <? 240 then 0xFF else Z.land pgn 0xFF in
  let DP := Z.land (Z.shiftr pgn 16) 0x01 in
  Z.lor (Z.lor (Z.lor (Z.lor (u32 (Z.shiftl (Z.land prio 7) 26))
                             (u32 (Z.shiftl DP 24)))
                      (u32 (Z.shiftl PF 16)))
               (u32 (Z.shiftl PDU_SPEC 8)))
        src.

Definition extractPGN (id : Z) : Z :=
  let PF := u8 (Z.land (Z.shiftr id 16) 0xFF) in
  let DP := u8 (Z.land (Z.shiftr id 24) 0x01) in
  let PDU_SPEC := u8 (Z.land (Z.shiftr id 8) 0xFF) in
  if PF <? 240 then Z.lor (u32 (Z.shiftl DP 16)) (u32 (Z.shiftl PF 8))
  else Z.lor (Z.lor (u32 (Z.shiftl DP 16)) (u32 (Z.shiftl PF 8))) PDU_SPEC.

(** [twai_tx]: the first [len] bytes of [data] go out in an extended
    frame. *)
Definition twai_tx (id : Z) (data : list Z) (len : Z) : output :=
  CanTx id (firstn (Z.to_nat len) data).

Definition n2k_send_single (pgn : Z) (payload : list Z) (len prio : Z)
  : list output :=
  [twai_tx (n2k_id prio pgn SA) payload len].

(** The [while (sent < len)] loop of [n2k_send_fast]; every round sends at
    least one byte, so [len] rounds of fuel are enough. *)
Fixpoint n2k_send_fast_loop (fuel : nat) (id seq : Z) (payload : list Z)
  (len sent idx : Z) : list output :=
  match fuel with
  | O => []
  | S k =>
      if sent <? len then
        let f0 := u8 (Z.lor (Z.shiftl seq 5) (Z.land idx 0x1F)) in
        let t := if len - sent >? 7 then 7 else u8 (len - sent) in
        let f := memcpy (f0 :: memset 0xFF 7) 1 (ptr_add payload sent) t in
        twai_tx id f 8
          :: n2k_send_fast_loop k id seq payload len (u16 (sent + t))
               (u8 (idx + 1))
      else []
  end.

(** [ms] is the value of [millis()] when the function is entered. *)
Definition n2k_send_fast (ms : Z) (pgn : Z) (payload : list Z) (len prio : Z)
  : list output :=
  let seq := u8 (Z.land (Z.shiftr ms 5) 0x07) in
  let id := n2k_id prio pgn SA in
  let f0 := u8 (Z.lor (Z.shiftl seq 5) 0) in
  let f1 := u8 len in
  let take := if len >? 6 then 6 else len in
  let f := memcpy (f0 :: f1 :: memset 0xFF 6) 2 payload take in
  twai_tx id f 8
    :: n2k_send_fast_loop (Z.to_nat len) id seq payload len take 1.

(** ** Identity frames *)

Definition u64 (z : Z) : Z := z mod 18446744073709551616.

Definition buildNAME : Z :=
  let name := 0 in
  let name := Z.lor name (u64 (Z.shiftl (Z.land N2K_UNIQUE 0x1FFFFF) 0)) in
  let name := Z.lor name (u64 (Z.shiftl (Z.land N2K_MFG 0x07FF) 21)) in
  let name := Z.lor name (u64 (Z.shiftl (Z.land N2K_DEV_INST 0x07) 32)) in
  let name := Z.lor name (u64 (Z.shiftl (Z.land N2K_FUNC_INST 0x1F) 35)) in
  let name := Z.lor name (u64 (Z.shiftl (Z.land N2K_FUNC 0xFF) 40)) in
  let name := Z.lor name (u64 (Z.shiftl 0x1 48)) in
  let name := Z.lor name (u64 (Z.shiftl (Z.land N2K_DEV_CLASS 0x7F) 49)) in
  let name := Z.lor name (u64 (Z.shiftl 0x0 56)) in
  let name := Z.lor name (u64 (Z.shiftl (Z.land N2K_IND_GR 0x07) 60)) in
  let name := Z.lor name (u64 (Z.shiftl (if N2K_AAC then 1 else 0) 63)) in
  name.

Definition send_60928_AddressClaim : list output :=
  let nm := buildNAME in
  let p := map (fun i => u8 (Z.land (Z.shiftr nm (8 * i)) 0xFF))
             [0; 1; 2; 3; 4; 5; 6; 7] in
  n2k_send_single PGN_ADDR_CLAIM p 8 6.

(** [pad32]: 32 zero bytes overwritten by at most 32 characters. *)
Definition pad32 (src : list Z) : list Z :=
  memcpy (memset 0 32) 0 src (Z.of_nat (length (firstn 32 src))).

Definition send_126996_Product (ms : Z) : list output :=
  let p := put_u16le N2K_VERSION ++ put_u16le PRODUCT_CODE
           ++ pad32 MODEL_ID ++ pad32 SW_VERSION
           ++ pad32 MODEL_VER ++ pad32 SERIAL_NO
           ++ [CERT_LEVEL; LEN_UNITS_50mA] in
  n2k_send_fast ms PGN_PRODUCT_INFO p 134 6.

(** The two calls of [n2k_send_fast] read [millis()] at [ms1] and [ms2]. *)
Definition send_126464_PGN_List (ms1 ms2 : Z) : list output :=
  let TX := [PGN_AP_STATUS; PGN_VESSEL_HEAD; PGN_PRODUCT_INFO;
             PGN_CONFIG_INFO; PGN_RM_PILOT_MODE; PGN_RM_LOCKED_HEADING;
             PGN_RM_KEYPAD_HEART] in
  let a := flat_map put_u32le TX in
  let RX := [PGN_CMD_GROUP; PGN_WIND; PGN_STW; PGN_COGSOG; PGN_XTE;
             PGN_NAVDATA; PGN_ROUTE_WP; PGN_ISO_REQUEST; PGN_VESSEL_HEAD] in
  let b := flat_map put_u32le RX in
  n2k_send_fast ms1 PGN_PGN_LIST a 28 6
    ++ n2k_send_fast ms2 PGN_PGN_LIST b 36 6.

(** ** Raymarine proprietary frames *)

Definition rm_mfg_word_only : Z := u16 (Z.land 1851 0x07FF).

Definition rmModeField2 (m : PilotMode) : Z :=
  match m with
  | PM_STBY => 0x0000 | PM_AUTO => 0x0040
  | PM_WIND => 0x0100 | PM_TRACK => 0x0180
  end.

Definition rmModeDataByte (m : PilotMode) : Z :=
  match m with
  | PM_STBY => 0x00 | PM_AUTO => 0x40 | PM_WIND => 0x01 | PM_TRACK => 0x80
  end.

(** [while (deg<0) deg+=360.0f;] *)
Fixpoint wrap_negative (fuel : nat) (deg : f32) : option f32 :=
  match fuel with
  | O => None
  | S k =>
      if F32.ltb deg (F32.of_Z 0)
      then wrap_negative k (F32.add deg (F32.of_Z 360))
      else Some deg
  end.

(** [while (deg>=360) deg-=360.0f;] *)
Fixpoint wrap_full_turn (fuel : nat) (deg : f32) : option f32 :=
  match fuel with
  | O => None
  | S k =>
      if F32.geb deg (F32.of_Z 360)
      then wrap_full_turn k (F32.sub deg (F32.of_Z 360))
      else Some deg
  end.

(** The two loops one after the other, as the sketch writes them in
    [deg_to_rad1e4_u16] and in [handle_126208_full]. *)
Definition normalize360 (fuel : nat) (deg : f32) : option f32 :=
  match wrap_negative fuel deg with
  | Some d => wrap_full_turn fuel d
  | None => None
  end.

Definition deg_to_rad1e4_u16 (fuel : nat) (deg : f32) : option Z :=
  match normalize360 fuel deg with
  | Some d =>
      let rad := F32.div (F32.mul d F32.M_PI) (F32.of_Z 180) in
      let v := u32 (F32.to_Z (F32.roundf (F32.mul rad (F32.of_Z 10000)))) in
      let v := if v >? 0xFFFF then 0xFFFF else v in
      Some (u16 v)
  | None => None
  end.

Definition send_65360_locked_heading (fuel : nat) (hdg : f32)
  : option (list output) :=
  if F32.isnan hdg then Some []
  else
    match deg_to_rad1e4_u16 fuel hdg with
    | Some ang =>
        let comp := rm_mfg_word_only in
        let p := [u8 (Z.land comp 0xFF); u8 (Z.shiftr comp 8); 0xFF;
                  u8 (Z.land ang 0xFF); u8 (Z.shiftr ang 8);
                  u8 (Z.land ang 0xFF); u8 (Z.shiftr ang 8); 0xFF] in
        Some (n2k_send_single PGN_RM_LOCKED_HEADING p 8 3)
    | None => None
    end.

Definition send_65379_mode (m : PilotMode) : list output :=
  let comp := rm_mfg_word_only in
  let mode2 := rmModeField2 m in
  let p := [u8 (Z.land comp 0xFF); u8 (Z.shiftr comp 8);
            u8 (Z.land mode2 0xFF); u8 (Z.shiftr mode2 8);
            0xFF; 0xFF; rmModeDataByte m; 0xFF] in
  n2k_send_single PGN_RM_PILOT_MODE p 8 3.

(** ** SeaTalk transmission *)

(** The first byte leaves under odd parity (command bit), the others under
    even parity; nothing is written for an empty datagram. *)
Definition st_write_datagram (data : list Z) (len : Z) : list output :=
  if len =? 0 then [] else [StTx (firstn (Z.to_nat len) data)].

Definition ST_CODE_AUTO : Z := 0x01.
Definition ST_CODE_STANDBY : Z := 0x02.
Definition ST_CODE_PLUS1 : Z := 0x07.
Definition ST_CODE_PLUS10 : Z := 0x08.
Definition ST_CODE_MINUS1 : Z := 0x05.
Definition ST_CODE_MINUS10 : Z := 0x06.
Definition ST_SENDER_NIB : Z := 0x2.

Definition st_send_keystroke (code : Z) : list output :=
  let b0 := 0x86 in
  let b1 := u8 (Z.lor (Z.shiftl ST_SENDER_NIB 4) 0x01) in
  let b2 := code in
  let b3 := u8 (Z.lnot code) in
  st_write_datagram [b0; b1; b2; b3] 4.

Fixpoint st_press_loop (repeats : nat) (code : Z) : list output :=
  match repeats with
  | O => []
  | S k => st_send_keystroke code ++ st_press_loop k code
  end.

(** Every caller uses the default arguments: two repeats, 120 ms apart. *)
Definition st_press (code : Z) : list output := st_press_loop 2 code.

Definition st_send_nav_0x85 (xteNm bearingMagDeg distNm : f32)
  (enterTrack : bool) : list output :=
  let xabs := F32.fabsf xteNm in
  let X := u16 (F32.to_Z (F32.roundf
             (F32.mul (clampf xabs (F32.of_Z 0) (F32.of_ratio 4095 100))
                      (F32.of_Z 100)))) in
  let X_hi := Z.land (Z.shiftr X 8) 0x0F in
  let X_lo := Z.land X 0xFF in
  let brg := F32.fmodf (F32.add bearingMagDeg (F32.of_Z 360)) (F32.of_Z 360) in
  let quad := Z.land (u8 (F32.to_Z (F32.floorf (F32.div brg (F32.of_Z 90)))))
                     0x03 in
  let U := quad in
  let rem := F32.sub brg (F32.mul (F32.of_Z quad) (F32.of_Z 90)) in
  let WV := u8 (F32.to_Z (F32.roundf (F32.mul rem (F32.of_Z 2)))) in
  let V := Z.land WV 0x0F in
  let W := Z.land (Z.shiftr WV 4) 0x0F in
  let lt10 := F32.ltb distNm (F32.of_Z 10) in
  let D := u16 (F32.to_Z (F32.roundf
             (F32.mul (clampf distNm (F32.of_Z 0) (F32.of_ratio 4095 10))
                      (if lt10 then F32.of_Z 100 else F32.of_Z 10)))) in
  let Z_hi := Z.land (Z.shiftr D 8) 0x0F in
  let ZZ := Z.land (Z.shiftr D 4) 0xFF in
  let Y := Z.land D 0x0F in
  let Y := if lt10 then Z.lor Y 0x01 else Y in
  let Y := if F32.ltb xteNm (F32.of_Z 0) then Z.lor Y 0x04 else Y in
  let F := if enterTrack then 0x07 else 0x05 in
  let p := [0x85;
            u8 (Z.lor 0x60 X_hi);
            X_lo;
            u8 (Z.lor (Z.shiftl V 4) U);
            u8 (Z.lor (Z.shiftl Z_hi 4) W);
            ZZ;
            u8 (Z.lor (Z.shiftl Y 4) F);
            0x00;
            u8 (Z.lor (Z.shiftl Y 4) F)] in
  st_write_datagram p 9.

(** ** 126208 command group function *)

(** [(uint16_t)b[i] | ((uint16_t)b[i+1] << 8)] stored in a [uint16_t]. *)
Definition u16le (b : list Z) (i : Z) : Z :=
  u16 (Z.lor (byte_at b i) (Z.shiftl (byte_at b (i + 1)) 8)).

(** The raw 16-bit angle (1e-4 rad) in degrees:
    [(raw*0.0001f)*180.0f/(float)M_PI]. *)
Definition raw_to_deg (raw : Z) : f32 :=
  F32.div (F32.mul (F32.mul (F32.of_Z raw) (F32.of_ratio 1 10000))
                   (F32.of_Z 180))
          F32.M_PI.

(** The [for (i=0; i<=n-3; i++)] loop of [gf65360_extractMagHeading],
    entered at index [i] with [k] rounds left; [None] is [return false]. *)
Fixpoint gf65360_scan (k : nat) (b : list Z) (n i : Z) : option f32 :=
  match k with
  | O => None
  | S k' =>
      if i <=? n - 3 then
        if byte_at b i =? 0x06 then
          let raw := u16le b (i + 1) in
          Some (raw_to_deg raw)
        else gf65360_scan k' b n (i + 1)
      else None
  end.

Definition gf65360_extractMagHeading (b : list Z) (n : Z) : option f32 :=
  gf65360_scan (Z.to_nat (n - 2)) b n 0.

Definition selector_mode (cur : PilotMode) (sel : Z) : PilotMode :=
  if sel =? 0x00 then PM_STBY
  else if sel =? 0x40 then PM_AUTO
  else if sel =? 0x01 then PM_WIND
  else if sel =? 0x80 then PM_TRACK
  else cur.

(** Body of the selector loop at a position holding [04 04 sel]. *)
Definition apply_selector (sel : Z) (w : World) : World :=
  let nm := selector_mode (currentMode w) sel in
  if negb (PilotMode_eqb nm (currentMode w)) then
    let w := set_ref REF_MAG (set_mode nm w) in
    let w := match nm with
             | PM_AUTO =>
                 set_locked (hdg_deg_now w) (emit_all (st_press ST_CODE_AUTO) w)
             | PM_STBY =>
                 set_locked F32.NaN (emit_all (st_press ST_CODE_STANDBY) w)
             | PM_TRACK =>
                 set_locked (hdg_deg_now w) (emit_all (st_press ST_CODE_AUTO) w)
             | PM_WIND => w
             end in
    emit_all (send_65379_mode (currentMode w)) w
  else w.

(** First loop of [apply_rm_selector_or_button]. *)
Fixpoint selector_loop (k : nat) (b : list Z) (n i : Z) (w : World)
  (did : bool) : World * bool :=
  match k with
  | O => (w, did)
  | S k' =>
      if i <=? n - 3 then
        if (byte_at b i =? 0x04) && (byte_at b (i + 1) =? 0x04) then
          selector_loop k' b n (i + 1) (apply_selector (byte_at b (i + 2)) w)
            true
        else selector_loop k' b n (i + 1) w did
      else (w, did)
  end.

(** The [switch(code)] of the button loop. *)
Definition apply_button (code : Z) (w : World) : World * bool :=
  if code =? 0x00 then
    let w := set_mode PM_STBY w in
    let w := emit_all (st_press ST_CODE_STANDBY) w in
    let w := set_locked F32.NaN w in
    (emit_all (send_65379_mode (currentMode w)) w, true)
  else if code =? 0x40 then
    let w := set_mode PM_AUTO w in
    let w := emit_all (st_press ST_CODE_AUTO) w in
    let w := set_locked (hdg_deg_now w) w in
    (emit_all (send_65379_mode (currentMode w)) w, true)
  else if code =? 0x01 then
    let w := set_mode PM_WIND w in
    (emit_all (send_65379_mode (currentMode w)) w, true)
  else if code =? 0x80 then
    let w := set_mode PM_TRACK w in
    let w := emit_all (st_press ST_CODE_AUTO) w in
    let w := set_locked (hdg_deg_now w) w in
    (emit_all (send_65379_mode (currentMode w)) w, true)
  else if code =? 0x51 then (emit_all (st_press ST_CODE_PLUS1) w, true)
  else if code =? 0x7F then (emit_all (st_press ST_CODE_MINUS1) w, true)
  else if code =? 0xD1 then (emit_all (st_press ST_CODE_PLUS10) w, true)
  else if code =? 0x50 then (emit_all (st_press ST_CODE_MINUS10) w, true)
  else (w, false).

(** Second loop of [apply_rm_selector_or_button]. *)
Fixpoint button_loop (k : nat) (b : list Z) (n i : Z) (w : World)
  (did : bool) : World * bool :=
  match k with
  | O => (w, did)
  | S k' =>
      if i <=? n - 3 then
        if byte_at b i =? 0x06 then
          let '(w', d) := apply_button (byte_at b (i + 1)) w in
          button_loop k' b n (i + 1) w' (did || d)
        else button_loop k' b n (i + 1) w did
      else (w, did)
  end.

Definition apply_rm_selector_or_button (b : list Z) (n : Z) (w : World)
  : World * bool :=
  let '(w1, did1) := selector_loop (Z.to_nat (n - 2)) b n 0 w false in
  button_loop (Z.to_nat (n - 2)) b n 0 w1 did1.

Section Receive.

(** Fuel for the float loops, and the clock read by [n2k_send_fast]. *)
Variable fuel : nat.
Variable ms : Z.

Definition handle_126208_request (target : Z) (w : World) : option World :=
  if target =? 65379 then
    Some (emit_all (n2k_send_single 65379 (memset 0xFF 8) 8 3) w)
  else if target =? 65360 then
    if negb (F32.isnan (locked_hdg_deg w)) then
      match send_65360_locked_heading fuel (locked_hdg_deg w) with
      | Some os => Some (emit_all os w)
      | None => None
      end
    else Some w
  else if target =? 126996 then Some (emit_all (send_126996_Product ms) w)
  else if target =? 60928 then Some (emit_all send_60928_AddressClaim w)
  else Some w.

Definition handle_126208_full (b : list Z) (n : Z) (w : World)
  : option World :=
  if n <? 4 then Some w
  else
    let func := byte_at b 0 in
    let target := Z.lor (Z.lor (byte_at b 1) (u32 (Z.shiftl (byte_at b 2) 8)))
                        (u32 (Z.shiftl (byte_at b 3) 16)) in
    if func =? 0x01 then handle_126208_request target w
    else if (target =? PGN_RM_PILOT_MODE) || (target =? PGN_RM_LOCKED_HEADING)
    then
      let '(w1, acted) := apply_rm_selector_or_button (ptr_add b 4) (n - 4) w in
      if target =? PGN_RM_LOCKED_HEADING then
        match gf65360_extractMagHeading (ptr_add b 4) (n - 4) with
        | Some newH =>
            match normalize360 fuel newH with
            | Some h => Some (set_locked h w1)
            | None => None
            end
        | None => Some w1
        end
      else Some w1
    else Some w.

End Receive.

(** What one call of [feed_126208] does to the assembly: the new buffer
    state, the completed command handed to [handle_126208_full] (the first
    [total] bytes of the buffer) if there is one, and the destination range
    (offset, count) of the [memcpy] into the buffer if one is executed. *)
Record FeedResult : Type := mkFeed {
  fr_grp : FPBuf;
  fr_cmd : option (list Z);
  fr_copy : option (Z * Z)
}.

Definition feed_126208 (g : FPBuf) (sa : Z) (d : list Z) (n : Z)
  : FeedResult :=
  if n <? 2 then mkFeed g None None
  else
    let fi := Z.land (byte_at d 0) 0x1F in
    let seq := Z.land (Z.shiftr (byte_at d 0) 5) 0x07 in
    if fi =? 0 then
      let total := byte_at d 1 in
      if total >? FPBUF_SIZE then mkFeed gf_reset None None
      else
        let take := Z.min 6 total in
        let buf := memcpy (fp_buf gf_reset) 0 (ptr_add d 2) take in
        let filled := u8 take in
        if filled >=? total
        then mkFeed gf_reset (Some (firstn (Z.to_nat total) buf))
               (Some (0, take))
        else mkFeed (mkFPBuf true sa seq total 1 filled buf) None
               (Some (0, take))
    else if fp_active g && (fp_sa g =? sa) && (fp_seq g =? seq)
            && (fi =? fp_next g) then
      let next := u8 (fp_next g + 1) in
      let remain := fp_total g - fp_filled g in
      let take := Z.min 7 remain in
      let buf := memcpy (fp_buf g) (fp_filled g) (ptr_add d 1) take in
      let filled := u8 (fp_filled g + take) in
      if filled >=? fp_total g
      then mkFeed gf_reset (Some (firstn (Z.to_nat (fp_total g)) buf))
             (Some (fp_filled g, take))
      else mkFeed (mkFPBuf true (fp_sa g) (fp_seq g) (fp_total g) next filled
                     buf) None (Some (fp_filled g, take))
    else mkFeed gf_reset None None.

Section Loop.

Variable fuel : nat.
Variable ms : Z.

(** Single-frame commands are told from fast-packet frames by the top
    three bits of the first byte.  [handle_126208_full] does not touch
    the assembly buffer, so running it on the completed command after
    the buffer has been reset is what [feed_126208] does. *)
Definition handle_126208_entry (sa : Z) (d : list Z) (n : Z) (w : World)
  : option World :=
  if n <=? 0 then Some w
  else if Z.land (byte_at d 0) 0xE0 >=? 0xA0 then
    handle_126208_full fuel ms d n w
  else
    let r := feed_126208 (grp w) sa d n in
    match fr_cmd r with
    | Some b =>
        handle_126208_full fuel ms b (Z.of_nat (length b))
          (set_grp (fr_grp r) w)
    | None => Some (set_grp (fr_grp r) w)
    end.

Definition knots_per_mps : f32 := F32.of_ratio 194384 100000.

(** The receive half of [loop] for one frame returned by [twai_receive]. *)
Definition loop_rx (m : twai_message) (w : World) : option World :=
  if negb (extd m) then Some w
  else
    let pgn := extractPGN (identifier m) in
    let b := data m in
    let n := data_length_code m in
    if pgn =? PGN_CMD_GROUP then
      handle_126208_entry (u8 (Z.land (identifier m) 0xFF)) b n w
    else if pgn =? PGN_ISO_REQUEST then
      if n >=? 3 then
        let req := Z.lor (Z.lor (byte_at b 0) (u32 (Z.shiftl (byte_at b 1) 8)))
                         (u32 (Z.shiftl (byte_at b 2) 16)) in
        handle_126208_request fuel ms req w
      else Some w
    else if pgn =? PGN_VESSEL_HEAD then
      if n >=? 3 then
        let h := raw_to_deg (u16le b 1) in
        Some (set_hdg (if negb (F32.isfinite h) then F32.zero else h) w)
      else Some w
    else if pgn =? PGN_WIND then
      if n >=? 6 then
        let sp := u16le b 1 in
        let an := u16le b 3 in
        let aws := if sp =? 0xFFFF then F32.zero
                   else F32.mul (F32.mul (F32.of_Z sp) (F32.of_ratio 1 100))
                                knots_per_mps in
        let awa := if an =? 0xFFFF then F32.zero
                   else F32.fmodf (raw_to_deg an) (F32.of_Z 360) in
        Some (set_wind awa aws w)
      else Some w
    else if pgn =? PGN_STW then
      if n >=? 3 then
        let raw := u16le b 1 in
        let mps := if raw =? 0xFFFF then F32.zero
                   else F32.mul (F32.of_Z raw) (F32.of_ratio 1 100) in
        Some (set_stw (F32.mul mps knots_per_mps) w)
      else Some w
    else if pgn =? PGN_COGSOG then
      if n >=? 7 then
        let cogr := u16le b 1 in
        let sogc := u16le b 5 in
        let cog := F32.fmodf (raw_to_deg cogr) (F32.of_Z 360) in
        let sog := if sogc =? 0xFFFF then F32.zero
                   else F32.mul (F32.mul (F32.of_Z sogc) (F32.of_ratio 1 100))
                                knots_per_mps in
        Some (set_cogsog cog sog w)
      else Some w
    else if pgn =? PGN_XTE then
      if n >=? 8 then
        let bits := Z.lor (Z.lor (Z.lor (byte_at b 0)
                                        (Z.shiftl (byte_at b 1) 8))
                                 (Z.shiftl (byte_at b 2) 16))
                          (Z.shiftl (byte_at b 3) 24) in
        Some (set_xte (F32.div (F32.of_bits bits) (F32.of_Z 1852)) w)
      else Some w
    else Some w.

(** Frames handled one after the other. *)
Fixpoint run_rx (ms_list : list twai_message) (w : World) : option World :=
  match ms_list with
  | [] => Some w
  | m :: rest =>
      match loop_rx m w with
      | Some w' => run_rx rest w'
      | None => None
      end
  end.

End Loop.

(** ** Reading an identifier back *)

(** The source address, as [loop] takes it from a received frame. *)
Definition src_from_id (id : Z) : Z := u8 (Z.land id 0xFF).

(** Modelled from the spec: the priority component of [decodeIdentifier];
    the sketch never reads the priority of a received frame, so this is
    the inverse of the [(prio & 7) << 26] of [n2k_id]. *)
Definition id_priority (id : Z) : Z := Z.land (Z.shiftr id 26) 7.

(** The destination, as the switch-bank sketch of the repository reads it
    ([dst_from_id]: [(PF < 240) ? PS : 0xFF]); the autopilot sketch never
    reads a destination.  A PDU2 frame is broadcast (255). *)
Definition dst_from_id (id : Z) : Z :=
  let PF := u8 (Z.land (Z.shiftr id 16) 0xFF) in
  let PS := u8 (Z.land (Z.shiftr id 8) 0xFF) in
  if PF <? 240 then PS else 0xFF.

(** Modelled from the spec: [decodeIdentifier], assembled from
    [extractPGN], the source extraction of [loop], [dst_from_id] and the
    priority read-back above. *)
Definition decodeIdentifier (id : Z) : Z * Z * Z * Z :=
  (id_priority id, extractPGN id, src_from_id id, dst_from_id id).

(** The PDU format byte of a PGN, and what the spec expects a decoder to
    report for a message sent to [dst]: the PGN with its low byte cleared
    and the destination for PDU1, the PGN and broadcast for PDU2. *)
Definition pgn_PF (pgn : Z) : Z := Z.land (Z.shiftr pgn 8) 0xFF.

Definition canonical_pgn (pgn : Z) : Z :=
  if pgn_PF pgn <? 240 then pgn - pgn mod 256 else pgn.

Definition expected_destination (pgn dst : Z) : Z :=
  if pgn_PF pgn <? 240 then dst else 255.

(** Modelled from the spec: [encodeIdentifier(priority, pgn, source,
    destination)].  The sketch's encoder is [n2k_id], which has no
    destination parameter, so the destination never reaches the
    identifier. *)
Definition encodeIdentifier (prio pgn src dst : Z) : Z := n2k_id prio pgn src.

(** The layout of a 29-bit identifier as a sum of its fields (used to
    state what [n2k_id] computes). *)
Definition id_sum (prio3 DP PF PS src : Z) : Z :=
  prio3 * 2 ^ 26 + DP * 2 ^ 24 + PF * 2 ^ 16 + PS * 2 ^ 8 + src.

(** ** Driving the reassembler *)

Definition is_bytes (d : list Z) : Prop := Forall (fun x => 0 <= x < 256) d.

(** The payload bytes of a transmitted CAN frame. *)
Definition can_data (o : output) : list Z :=
  match o with
  | CanTx _ d => d
  | StTx _ => []
  end.

(** Frames fed one after the other to [feed_126208], all received from
    source address [sa], each with its full length; the completed commands
    are collected in the order in which they are delivered. *)
Fixpoint feed_frames (g : FPBuf) (sa : Z) (frames : list (list Z))
  : FPBuf * list (list Z) :=
  match frames with
  | [] => (g, [])
  | d :: rest =>
      let r := feed_126208 g sa d (Z.of_nat (length d)) in
      let '(g', out) := feed_frames (fr_grp r) sa rest in
      (g', match fr_cmd r with
           | Some c => c :: out
           | None => out
           end)
  end.

(** Modelled from the spec: [decodeFastPacket(frames)], the frames of the
    sender fed in order to the reassembler starting from an idle buffer;
    the sketch has no receiver of its own for general fast packets, the
    126208 reassembler is the only one. *)
Definition decodeFastPacket (sa : Z) (frames : list output)
  : list (list Z) :=
  snd (feed_frames gf_reset sa (map can_data frames)).

(** The first frame that [n2k_send_fast] is shown to build: sequence id
    with frame index 0, the length, six payload bytes at most, and 0xFF up
    to eight bytes. *)
Definition sender_head (sq len : Z) (payload : list Z) : list Z :=
  (sq * 32) :: len
    :: firstn (Z.to_nat (Z.min 6 len)) payload
    ++ repeat 0xFF (6 - Z.to_nat (Z.min 6 len)).

(** A frame whose 5-bit frame index is one more than it should be (the
    sequence bits are kept). *)
Definition bump_index (d : list Z) : list Z :=
  match d with
  | [] => []
  | b0 :: rest =>
      Z.lor (Z.land b0 0xE0) (Z.land (Z.land b0 0x1F + 1) 0x1F) :: rest
  end.

(** The frame sequence with the index of frame number [k] bumped. *)
Fixpoint bump_nth (k : nat) (frames : list (list Z)) : list (list Z) :=
  match frames, k with
  | [], _ => []
  | f :: rest, O => bump_index f :: rest
  | f :: rest, S j => f :: bump_nth j rest
  end.

(** Buffer states that occur: the idle buffer, and what [feed_126208]
    makes of an occurring state and a frame of bytes. *)
Inductive fp_reachable : FPBuf -> Prop :=
| fp_reach_init : fp_reachable gf_reset
| fp_reach_feed (g : FPBuf) (sa : Z) (d : list Z) (n : Z) :
    fp_reachable g -> is_bytes d ->
    fp_reachable (fr_grp (feed_126208 g sa d n)).

(** The bookkeeping invariant of the assembly. *)
Definition fp_wf (g : FPBuf) : Prop :=
  length (fp_buf g) = 120%nat
  /\ 0 <= fp_filled g <= fp_total g
  /\ fp_total g <= FPBUF_SIZE
  /\ (fp_active g = true -> fp_filled g < fp_total g).

(** The continuation frame that the loop of [n2k_send_fast] is shown to
    build when [sent] bytes are out and the frame index is [idx]: the
    first byte, the next bytes of the payload (seven at most), and 0xFF
    up to eight bytes. *)
Definition sender_frame (sq len : Z) (payload : list Z) (sent idx : Z)
  : list Z :=
  (sq * 32 + idx)
    :: firstn (Z.to_nat (Z.min 7 (len - sent))) (skipn (Z.to_nat sent) payload)
    ++ repeat 0xFF (7 - Z.to_nat (Z.min 7 (len - sent))).

(** ** Vocabulary of the state-machine properties *)

(** The selector and button codes that name a steering mode. *)
Definition is_mode_code (c : Z) : bool :=
  (c =? 0x00) || (c =? 0x40) || (c =? 0x01) || (c =? 0x80).

(** The parameter bytes [b[0..n)] hold no selector [04 04 sel] and no
    button [06 code] whose code names a mode, at the positions the two
    loops of [apply_rm_selector_or_button] look at. *)
Definition no_mode_command (b : list Z) (n : Z) : Prop :=
  forall i, 0 <= i <= n - 3 ->
    (byte_at b i = 0x04 -> byte_at b (i + 1) = 0x04 ->
     is_mode_code (byte_at b (i + 2)) = false)
    /\ (byte_at b i = 0x06 -> is_mode_code (byte_at b (i + 1)) = false).

(** The target PGN of a complete command. *)
Definition command_target (b : list Z) : Z :=
  Z.lor (Z.lor (byte_at b 1) (u32 (Z.shiftl (byte_at b 2) 8)))
        (u32 (Z.shiftl (byte_at b 3) 16)).

(** A complete command that reaches the locked-heading assignment of
    [handle_126208_full]: not a request, aimed at PGN 65360, and carrying
    a [06 lo hi] heading field. *)
Definition writes_locked_heading (b : list Z) (n : Z) : bool :=
  (4 <=? n) && negb (byte_at b 0 =? 0x01)
  && (command_target b =? PGN_RM_LOCKED_HEADING)
  && match gf65360_extractMagHeading (ptr_add b 4) (n - 4) with
     | Some _ => true
     | None => false
     end.

(** The complete command, with its length, that [loop] hands to
    [handle_126208_full] when it receives frame [m] in state [w]. *)
Definition completed_command (w : World) (m : twai_message)
  : option (list Z * Z) :=
  if extd m && (extractPGN (identifier m) =? PGN_CMD_GROUP)
     && (0 <? data_length_code m) then
    if Z.land (byte_at (data m) 0) 0xE0 >=? 0xA0 then
      Some (data m, data_length_code m)
    else
      match fr_cmd (feed_126208 (grp w) (u8 (Z.land (identifier m) 0xFF))
                      (data m) (data_length_code m)) with
      | Some b => Some (b, Z.of_nat (length b))
      | None => None
      end
  else None.

Definition heading_written (w : World) (m : twai_message) : bool :=
  match completed_command w m with
  | Some (b, n) => writes_locked_heading b n
  | None => false
  end.

(** States reached from the state after [setup] by received frames, none
    of which completes a locked-heading write that leaves the pilot in
    Standby. *)
Inductive reachable_no_standby_write (fuel : nat) : World -> Prop :=
| reach_setup : reachable_no_standby_write fuel initial_world
| reach_frame (w w' : World) (ms : Z) (m : twai_message) :
    reachable_no_standby_write fuel w ->
    loop_rx fuel ms m w = Some w' ->
    ~ (heading_written w m = true /\ currentMode w' = PM_STBY) ->
    reachable_no_standby_write fuel w'.

(** Standby implies no locked heading. *)
Definition standby_unlocked (w : World) : Prop :=
  currentMode w = PM_STBY -> F32.isnan (locked_hdg_deg w) = true.

(** What the 65536 raw angles are checked for: the angle in degrees is
    finite, the two wrap loops end within one round each, the result lies
    in [0, 360), and wrapping the result again ends as well. *)
Definition heading_checked (raw : Z) : bool :=
  let d := raw_to_deg raw in
  F32.isfinite d
  && match normalize360 2 d with
     | Some h =>
         F32.leb (F32.of_Z 0) h && F32.ltb h (F32.of_Z 360)
         && match normalize360 2 h with
            | Some _ => true
            | None => false
            end
     | None => false
     end.

(** The values the two heading variables take. *)
Definition heading_value (h : f32) : Prop :=
  h = F32.zero \/ exists raw, 0 <= raw < 65536 /\ h = raw_to_deg raw.

Definition locked_value (l : f32) : Prop :=
  l = F32.NaN \/ heading_value l
  \/ exists raw, 0 <= raw < 65536 /\ normalize360 2 (raw_to_deg raw) = Some l.

(** ** Reading a navigation datagram back *)

(** Modelled from the spec: the "inverse arithmetic" of the navigation
    datagram, field by field, following the shifts of [st_send_nav_0x85];
    the sketch has no decoder.  Cross-track error in 1/100 nm. *)
Definition nav_xte (p : list Z) : Z :=
  Z.lor (Z.shiftl (Z.land (byte_at p 1) 0x0F) 8) (byte_at p 2).

(** Bearing in half degrees: quadrant [U & 3] and the remainder [WV]. *)
Definition nav_bearing (p : list Z) : Z :=
  let U := Z.land (byte_at p 3) 0x0F in
  let V := Z.shiftr (byte_at p 3) 4 in
  let W := Z.land (byte_at p 4) 0x0F in
  Z.land U 0x03 * 180 + Z.lor (Z.shiftl W 4) V.

(** The flag nibbles [Y] and [F] of byte 6. *)
Definition nav_Y (p : list Z) : Z := Z.shiftr (byte_at p 6) 4.
Definition nav_F (p : list Z) : Z := Z.land (byte_at p 6) 0x0F.

(** Three readings of the distance field: the nibble [Z] of byte 4 above
    byte 5; byte 5 above the nibble [Z] (the order of the SeaTalk
    reference); byte 5 above the nibble [Y], which is where the encoder
    puts the low four bits of the distance. *)
Definition nav_distance_Z_ZZ (p : list Z) : Z :=
  Z.lor (Z.shiftl (Z.shiftr (byte_at p 4) 4) 8) (byte_at p 5).
Definition nav_distance_ZZ_Z (p : list Z) : Z :=
  Z.lor (Z.shiftl (byte_at p 5) 4) (Z.shiftr (byte_at p 4) 4).
Definition nav_distance_ZZ_Y (p : list Z) : Z :=
  Z.lor (Z.shiftl (byte_at p 5) 4) (nav_Y p).

(** What the selector and button scans may do to the state: the current
    heading and the assembly buffer stay, the locked heading stays, is
    cleared or becomes the current heading, and Standby goes with a
    cleared locked heading. *)
Definition command_effect (w w' : World) : Prop :=
  hdg_deg_now w' = hdg_deg_now w
  /\ grp w' = grp w
  /\ (standby_unlocked w -> standby_unlocked w')
  /\ (locked_hdg_deg w' = locked_hdg_deg w
      \/ locked_hdg_deg w' = F32.NaN
      \/ locked_hdg_deg w' = hdg_deg_now w).

(** ** Status frames and the remaining encoders *)

(** [lrintf]: nearest integer, halfway cases to even (the default rounding
    mode); 0 stands for the unspecified result on NaN and infinities. *)
Definition lrintf (x : f32) : Z :=
  match x with
  | S754_finite s m e =>
      F32.signed s
        (if 0 <=? e then Z.pos m * 2 ^ e
         else
           let d := 2 ^ (- e) in
           let q := Z.pos m / d in
           let r := Z.pos m mod d in
           if d <? 2 * r then q + 1
           else if d =? 2 * r then (if Z.even q then q else q + 1)
           else q)
  | _ => 0
  end.

(** Conversion to [int16_t]: reduction modulo 2^16 into [-2^15, 2^15). *)
Definition i16 (z : Z) : Z := (z + 32768) mod 65536 - 32768.

Definition put_i16le (v : Z) : list Z :=
  [Z.land v 255; Z.land (Z.shiftr v 8) 255].

Inductive SteeringMode : Type := SM_STANDBY | SM_AUTO | SM_WIND | SM_TRACK.

(** The cast [(SteeringMode)currentMode]: the enumerators have the same
    values. *)
Definition steering_of_pilot (m : PilotMode) : SteeringMode :=
  match m with
  | PM_STBY => SM_STANDBY | PM_AUTO => SM_AUTO
  | PM_WIND => SM_WIND | PM_TRACK => SM_TRACK
  end.

(** The heading field shared by [send_127237] and [send_127250]:
    [fmodf(h,360)], made non-negative, in 1e-4 rad as an [int16_t]. *)
Definition heading_q (h_deg : f32) : Z :=
  let h := F32.fmodf h_deg (F32.of_Z 360) in
  let h := if F32.ltb h (F32.of_Z 0) then F32.add h (F32.of_Z 360) else h in
  i16 (lrintf (F32.mul (F32.div (F32.mul h F32.M_PI) (F32.of_Z 180))
                       (F32.of_Z 10000))).

Definition send_127237 (ms : Z) (mode : SteeringMode) (ref : HeadingRef)
  (hts_deg : f32) : list output :=
  let steer := match mode with
               | SM_STANDBY => 0 | SM_AUTO => 4 | SM_WIND => 4 | SM_TRACK => 5
               end in
  let refBits := match ref with REF_TRUE => 0 | REF_MAG => 1 end in
  let p1 := u8 (Z.lor (Z.land steer 0x7) (Z.shiftl (Z.land refBits 0x3) 6)) in
  let q := heading_q hts_deg in
  let p := memcpy (0x00 :: p1 :: memset 0xFF 19) 13 (put_i16le q) 2 in
  n2k_send_fast ms PGN_AP_STATUS p 21 2.

Definition send_127250 (heading_deg_now : f32) (ref : HeadingRef)
  : list output :=
  let q := heading_q heading_deg_now in
  let d7 := match ref with REF_TRUE => 0 | REF_MAG => 1 end in
  let d := memcpy (0x00 :: memset 0xFF 6 ++ [d7]) 1 (put_i16le q) 2 in
  n2k_send_single PGN_VESSEL_HEAD d 8 2.

(** The bearing the periodic navigation datagram reports, and the
    datagram itself, as the last timer of [loop] builds them. *)
Definition nav_bearing_now (w : World) : f32 :=
  if negb (F32.isnan (locked_hdg_deg w)) then locked_hdg_deg w
  else if F32.gtb (cog_mag_deg w) (F32.of_Z 0) then cog_mag_deg w
  else hdg_deg_now w.

Definition periodic_nav (w : World) : list output :=
  st_send_nav_0x85 (xte_nm w) (nav_bearing_now w) (dtw_nm w)
    (PilotMode_eqb (currentMode w) PM_TRACK).

(** ** The NAME with its fields as parameters *)

(** [buildNAME] with the configuration constants as arguments. *)
Definition packNAME (unique mfg dev_inst func_inst func dev_class ind_gr : Z)
  (aac : bool) : Z :=
  let name := 0 in
  let name := Z.lor name (u64 (Z.shiftl (Z.land unique 0x1FFFFF) 0)) in
  let name := Z.lor name (u64 (Z.shiftl (Z.land mfg 0x07FF) 21)) in
  let name := Z.lor name (u64 (Z.shiftl (Z.land dev_inst 0x07) 32)) in
  let name := Z.lor name (u64 (Z.shiftl (Z.land func_inst 0x1F) 35)) in
  let name := Z.lor name (u64 (Z.shiftl (Z.land func 0xFF) 40)) in
  let name := Z.lor name (u64 (Z.shiftl 0x1 48)) in
  let name := Z.lor name (u64 (Z.shiftl (Z.land dev_class 0x7F) 49)) in
  let name := Z.lor name (u64 (Z.shiftl 0x0 56)) in
  let name := Z.lor name (u64 (Z.shiftl (Z.land ind_gr 0x07) 60)) in
  let name := Z.lor name (u64 (Z.shiftl (if aac then 1 else 0) 63)) in
  name.

(** The field of [width] bits at bit [pos] of a NAME. *)
Definition name_field (name pos width : Z) : Z :=
  Z.land (Z.shiftr name pos) (2 ^ width - 1).

(** The eight bytes of the address claim, as [send_60928_AddressClaim]
    lays them out, and their little-endian value. *)
Definition name_bytes (nm : Z) : list Z :=
  map (fun i => u8 (Z.land (Z.shiftr nm (8 * i)) 0xFF))
    [0; 1; 2; 3; 4; 5; 6; 7].

Fixpoint le_value (bs : list Z) : Z :=
  match bs with
  | [] => 0
  | b :: rest => b + 256 * le_value rest
  end.

(** ** Vocabulary of the further properties *)

(** The data bytes a fast-packet frame sequence carries (six at most in
    the first frame, seven in the others), and the payload it declares:
    as many of those bytes as the second byte of the first frame says. *)
Definition fp_segments (frames : list (list Z)) : list Z :=
  match frames with
  | [] => []
  | f0 :: rest => ptr_add f0 2 ++ flat_map (fun f => ptr_add f 1) rest
  end.

Definition fp_payload (frames : list (list Z)) : list Z :=
  firstn (Z.to_nat (byte_at (hd [] frames) 1)) (fp_segments frames).

(** SeaTalk datagrams and CAN frames of an output trace. *)
Definition st_datagrams (os : list output) : list (list Z) :=
  flat_map (fun o => match o with StTx d => [d] | CanTx _ _ => [] end) os.

Definition can_frames (os : list output) : list output :=
  filter (fun o => match o with CanTx _ _ => true | StTx _ => false end) os.

(** The keystroke datagram of a code, and the six codes the sketch
    sends. *)
Definition key_datagram (code : Z) : list Z := [0x86; 0x21; code; 255 - code].

Definition key_codes : list Z :=
  [ST_CODE_AUTO; ST_CODE_STANDBY; ST_CODE_PLUS1; ST_CODE_PLUS10;
   ST_CODE_MINUS1; ST_CODE_MINUS10].

(** [w'] is [w] after output was added: every keystroke twice in a row
    for the codes [codes], one 65379 frame for each of the modes [modes],
    the last of which is the mode of [w']. *)
Definition emits (w w' : World) (codes : list Z) (modes : list PilotMode)
  : Prop :=
  exists new,
    tx w' = tx w ++ new
    /\ st_datagrams new
       = flat_map (fun c => [key_datagram c; key_datagram c]) codes
    /\ can_frames new = flat_map send_65379_mode modes
    /\ Forall (fun c => In c key_codes) codes
    /\ last modes (currentMode w) = currentMode w'.

(** States reached from the state after [setup] by received frames. *)
Inductive rx_reachable (fuel : nat) : World -> Prop :=
| rx_setup : rx_reachable fuel initial_world
| rx_frame (w w' : World) (ms : Z) (m : twai_message) :
    rx_reachable fuel w -> is_bytes (data m) ->
    loop_rx fuel ms m w = Some w' ->
    rx_reachable fuel w'.

(** A heading in degrees between 0 and 376. *)
Definition heading_in_range (x : f32) : bool :=
  F32.leb (F32.of_Z 0) x && F32.ltb x (F32.of_Z 376).

(** A raw angle above a full turn (62832 = 2 pi in 1e-4 rad) comes back
    reduced by one turn. *)
Definition wrap_turn (raw : Z) : Z :=
  if raw <? 62832 then raw else raw - 62832.

(** What the 65536 raw angles are checked for, beyond [heading_checked]:
    the angle in degrees lies in [0, 376); sent again as a heading field
    it is the same raw angle, less one turn if it exceeded one; and so it
    is when sent as a locked heading or as a heading field after the wrap
    loops, which leave an angle below 360 as it is. *)
Definition heading_echo_checked (raw : Z) : bool :=
  let d := raw_to_deg raw in
  heading_in_range d
  && (u16le (put_i16le (heading_q d)) 0 =? wrap_turn raw)
  && if F32.geb d (F32.of_Z 360) then
       match normalize360 2 d with
       | Some h =>
           heading_in_range h
           && match deg_to_rad1e4_u16 2 h with
              | Some a => a =? wrap_turn raw
              | None => false
              end
           && (u16le (put_i16le (heading_q h)) 0 =? wrap_turn raw)
       | None => false
       end
     else
       match deg_to_rad1e4_u16 2 d with
       | Some a => a =? wrap_turn raw
       | None => false
       end.

(** ** The periodic status frames *)

(** The heading that [loop] reports as heading to steer, and the frames of
    its one-second status timer. *)
Definition heading_to_steer (w : World) : f32 :=
  if F32.isnan (locked_hdg_deg w) then hdg_deg_now w else locked_hdg_deg w.

Definition periodic_status (ms : Z) (w : World) : list output :=
  send_127237 ms (steering_of_pilot (currentMode w)) (headingRef w)
    (heading_to_steer w)
  ++ send_127250 (hdg_deg_now w) (headingRef w).

(** The locked-heading frame of the one-second timer of [loop]. *)
Definition periodic_locked_heading (fuel : nat) (w : World)
  : option (list output) :=
  if negb (PilotMode_eqb (currentMode w) PM_STBY)
     && negb (F32.isnan (locked_hdg_deg w))
  then send_65360_locked_heading fuel (locked_hdg_deg w)
  else Some [].

(** ** Vocabulary of the receive-path invariants *)

(** The variables that only the telemetry cases of [loop] write. *)
Definition telemetry (w : World)
  : f32 * f32 * f32 * f32 * f32 * f32 * f32 * f32 :=
  (hdg_deg_now w, xte_nm w, dtw_nm w, cog_mag_deg w, sog_kn w, awa_deg w,
   aws_kn w, stw_kn w).

(** The variables of the pilot state machine. *)
Definition pilot (w : World) : PilotMode * HeadingRef * f32 :=
  (currentMode w, headingRef w, locked_hdg_deg w).

Definition byte_ok (x : Z) : bool := (0 <=? x) && (x <? 256).

(** What the receive path may transmit: a CAN frame of eight bytes under
    a 29-bit identifier with the source address of the sketch, or the
    keystroke datagram of one of the six keys. *)
Definition rx_output_ok (o : output) : bool :=
  match o with
  | CanTx id d =>
      (length d =? 8)%nat && forallb byte_ok d
      && (0 <=? id) && (id <? 2 ^ 29) && (src_from_id id =? SA)
  | StTx d =>
      existsb (fun c => if list_eq_dec Z.eq_dec d (key_datagram c)
                        then true else false) key_codes
  end.

(** A complete write command (function code [func], not 0x01) for the
    pilot mode PGN 65379 that carries the selector [04 04 sel]. *)
Definition selector_command (func sel : Z) : list Z :=
  [func; 0x63; 0xFF; 0x00; 0x04; 0x04; sel].

(** The same with the button [06 code] in place of the selector. *)
Definition button_command (func code : Z) : list Z :=
  [func; 0x63; 0xFF; 0x00; 0x06; code; 0xFF].

(** A transmitted frame as a receiver gets it from [twai_receive]
    ([twai_tx] sets the extended flag and the length). *)
Definition as_received (o : output) : twai_message :=
  match o with
  | CanTx id d => mkMsg id true (Z.of_nat (length d)) d
  | StTx _ => mkMsg 0 false 0 []
  end.

(** A complete write command for the locked heading PGN 65360 that
    carries the heading field [06 lo hi] of the raw angle [raw]. *)
Definition heading_command (func raw : Z) : list Z :=
  [func; 0x50; 0xFF; 0x00; 0x06; Z.land raw 0xFF; Z.shiftr raw 8].

(** What a command leaves alone: the telemetry variables and the
    assembly; the heading reference stays or becomes magnetic. *)
Definition command_keeps (w w' : World) : Prop :=
  telemetry w' = telemetry w
  /\ grp w' = grp w
  /\ (headingRef w' = headingRef w \/ headingRef w' = REF_MAG).

(** The PGNs whose case in [loop] has a body (the cases of 129284 and
    129285 are empty). *)
Definition handled_pgns : list Z :=
  [PGN_CMD_GROUP; PGN_ISO_REQUEST; PGN_VESSEL_HEAD; PGN_WIND; PGN_STW;
   PGN_COGSOG; PGN_XTE].

(** ** Vocabulary of the ISO request properties *)

(** The character codes of a string literal of the source, and a
    32-byte text field: the characters, then zero bytes. *)
Definition chars (s : String.string) : list Z :=
  map (fun c => Z.of_N (Ascii.N_of_ascii c)) (String.list_ascii_of_string s).

Definition text32 (s : String.string) : list Z :=
  chars s ++ repeat 0 (32 - length (chars s)).

(** The four string literals of the product information. *)
Module ProductText.
Import Strings.String.
Local Open Scope string_scope.
Definition model_id : string := "E70010".
Definition sw_version : string := "v1.0.0".
Definition model_version : string := "Raymarine AP (emu)".
Definition serial_no : string := "RM-EMU-001".
End ProductText.

(** The product information as a receiver reads it: NMEA 2000 version
    and product code (16 bits each, low byte first), model id, software
    version, model version and serial number (32 bytes each),
    certification level and load equivalency. *)
Definition product_information : list Z :=
  [1301 mod 256; 1301 / 256; 20001 mod 256; 20001 / 256]
  ++ text32 ProductText.model_id ++ text32 ProductText.sw_version
  ++ text32 ProductText.model_version ++ text32 ProductText.serial_no
  ++ [1; 3].

(** The 65360 frame of the raw angle [ang]: the manufacturer word 1851
    (3B 07), and the angle in both angle fields, low byte first. *)
Definition locked_heading_frame_of (ang : Z) : output :=
  CanTx (n2k_id 3 PGN_RM_LOCKED_HEADING SA)
    [0x3B; 0x07; 0xFF; ang mod 256; ang / 256; ang mod 256; ang / 256; 0xFF].

(** The PGN of a transmitted CAN frame is one of [pgns]. *)
Definition sends_only (pgns : list Z) (o : output) : bool :=
  match o with
  | CanTx id _ => existsb (Z.eqb (extractPGN id)) pgns
  | StTx _ => true
  end.

(** The PGNs that the receive path answers with. *)
Definition answered_pgns : list Z :=
  [PGN_RM_PILOT_MODE; PGN_RM_LOCKED_HEADING; PGN_PRODUCT_INFO;
   PGN_ADDR_CLAIM].

(** * Properties *)

(** ** Bit fields as arithmetic *)

Lemma land_low_mod (x : Z) (k : Z) :
  0 <= k -> Z.land x (2 ^ k - 1) = x mod 2 ^ k.
Proof.
  intros Hk. rewrite <- Z.land_ones by assumption.
  f_equal. rewrite Z.ones_equiv. lia.
Qed.

Lemma land_disjoint (a b k : Z) :
  0 <= k -> 0 <= b < 2 ^ k -> Z.land (a * 2 ^ k) b = 0.
Proof.
  intros Hk Hb. apply Z.bits_inj'. intros n Hn.
  rewrite Z.land_spec, Z.bits_0.
  destruct (Z.lt_ge_cases n k) as [Hlt | Hge].
  - rewrite Z.mul_pow2_bits_low by assumption. reflexivity.
  - destruct (Z.eq_dec b 0) as [-> | Hnz].
    + rewrite Z.bits_0. apply andb_false_r.
    + rewrite (Z.bits_above_log2 b n); [apply andb_false_r | lia |].
      apply Z.log2_lt_pow2; [lia |].
      pose proof (Z.pow_le_mono_r 2 k n ltac:(lia) Hge). lia.
Qed.

Lemma lor_disjoint_add (a b k : Z) :
  0 <= k -> 0 <= b < 2 ^ k -> Z.lor (a * 2 ^ k) b = a * 2 ^ k + b.
Proof.
  intros Hk Hb.
  rewrite <- Z.lxor_lor by (apply land_disjoint; assumption).
  symmetry. apply Z.add_nocarry_lxor. apply land_disjoint; assumption.
Qed.

Lemma n2k_id_fields (prio pgn src : Z) :
  0 <= prio -> 0 <= pgn -> 0 <= src < 256 ->
  let PF := (pgn / 256) mod 256 in
  let DP := (pgn / 65536) mod 2 in
  let PS := if PF <? 240 then 255 else pgn mod 256 in
  n2k_id prio pgn src = id_sum (prio mod 8) DP PF PS src.
Proof.
  intros Hp Hg Hs PF DP PS. unfold n2k_id, id_sum.
  assert (EPF : Z.land (Z.shiftr pgn 8) 0xFF = PF).
  { change 0xFF with (2 ^ 8 - 1).
    rewrite land_low_mod, Z.shiftr_div_pow2 by lia. reflexivity. }
  assert (EDP : Z.land (Z.shiftr pgn 16) 0x01 = DP).
  { change 0x01 with (2 ^ 1 - 1).
    rewrite land_low_mod, Z.shiftr_div_pow2 by lia. reflexivity. }
  assert (ELO : Z.land pgn 0xFF = pgn mod 256).
  { change 0xFF with (2 ^ 8 - 1). rewrite land_low_mod by lia. reflexivity. }
  assert (EPR : Z.land prio 7 = prio mod 8).
  { change 7 with (2 ^ 3 - 1). rewrite land_low_mod by lia. reflexivity. }
  rewrite EPF, EDP, ELO, EPR. fold PS.
  assert (HPF : 0 <= PF < 256) by (apply Z.mod_pos_bound; lia).
  assert (HDP : 0 <= DP < 2) by (apply Z.mod_pos_bound; lia).
  assert (Hp8 : 0 <= prio mod 8 < 8) by (apply Z.mod_pos_bound; lia).
  assert (HPS : 0 <= PS < 256).
  { unfold PS. destruct (PF <? 240); [lia | apply Z.mod_pos_bound; lia]. }
  rewrite !Z.shiftl_mul_pow2 by lia.
  unfold u32.
  rewrite (Z.mod_small (prio mod 8 * 2 ^ 26)), (Z.mod_small (DP * 2 ^ 24)),
    (Z.mod_small (PF * 2 ^ 16)), (Z.mod_small (PS * 2 ^ 8)) by lia.
  rewrite (lor_disjoint_add (prio mod 8) (DP * 2 ^ 24) 26) by lia.
  replace (prio mod 8 * 2 ^ 26 + DP * 2 ^ 24)
    with ((prio mod 8 * 4 + DP) * 2 ^ 24) by lia.
  rewrite (lor_disjoint_add _ (PF * 2 ^ 16) 24) by lia.
  replace ((prio mod 8 * 4 + DP) * 2 ^ 24 + PF * 2 ^ 16)
    with ((prio mod 8 * 1024 + DP * 256 + PF) * 2 ^ 16) by lia.
  rewrite (lor_disjoint_add _ (PS * 2 ^ 8) 16) by lia.
  replace ((prio mod 8 * 1024 + DP * 256 + PF) * 2 ^ 16 + PS * 2 ^ 8)
    with ((prio mod 8 * 262144 + DP * 65536 + PF * 256 + PS) * 2 ^ 8) by lia.
  rewrite (lor_disjoint_add _ src 8) by lia.
  lia.
Qed.

Section IdFields.

Variables p DP PF PS src : Z.
Hypothesis Hp : 0 <= p < 8.
Hypothesis HDP : 0 <= DP < 2.
Hypothesis HPF : 0 <= PF < 256.
Hypothesis HPS : 0 <= PS < 256.
Hypothesis Hsrc : 0 <= src < 256.

Ltac field_arith :=
  unfold id_sum, u8, u32;
  change 0xFF with (2 ^ 8 - 1); change 0x01 with (2 ^ 1 - 1);
  change 7 with (2 ^ 3 - 1);
  rewrite ?land_low_mod, ?Z.shiftr_div_pow2, ?Z.shiftl_mul_pow2 by lia;
  change (2 ^ 26) with 67108864; change (2 ^ 24) with 16777216;
  change (2 ^ 16) with 65536; change (2 ^ 8) with 256;
  change (2 ^ 3) with 8; change (2 ^ 1) with 2.

Lemma id_sum_range : 0 <= (id_sum p DP PF PS src) < 2 ^ 29.
Proof. unfold id_sum. lia. Qed.

Lemma id_sum_priority : id_priority (id_sum p DP PF PS src) = p.
Proof.
  unfold id_priority. field_arith. Z.div_mod_to_equations. lia.
Qed.

Lemma id_sum_source : src_from_id (id_sum p DP PF PS src) = src.
Proof.
  unfold src_from_id. field_arith. Z.div_mod_to_equations. lia.
Qed.

Lemma id_sum_PF : u8 (Z.land (Z.shiftr (id_sum p DP PF PS src) 16) 0xFF) = PF.
Proof. field_arith. Z.div_mod_to_equations. lia. Qed.

Lemma id_sum_DP : u8 (Z.land (Z.shiftr (id_sum p DP PF PS src) 24) 0x01) = DP.
Proof. field_arith. Z.div_mod_to_equations. lia. Qed.

Lemma id_sum_PS : u8 (Z.land (Z.shiftr (id_sum p DP PF PS src) 8) 0xFF) = PS.
Proof. field_arith. Z.div_mod_to_equations. lia. Qed.

Lemma id_sum_dst :
  dst_from_id (id_sum p DP PF PS src) = if PF <? 240 then PS else 255.
Proof.
  unfold dst_from_id. rewrite id_sum_PF, id_sum_PS. reflexivity.
Qed.

Lemma id_sum_pgn :
  extractPGN (id_sum p DP PF PS src) =
  if PF <? 240 then DP * 65536 + PF * 256 else DP * 65536 + PF * 256 + PS.
Proof.
  unfold extractPGN. rewrite id_sum_PF, id_sum_DP, id_sum_PS.
  rewrite !Z.shiftl_mul_pow2 by lia. unfold u32.
  rewrite (Z.mod_small (DP * 2 ^ 16)), (Z.mod_small (PF * 2 ^ 8)) by lia.
  rewrite (lor_disjoint_add DP (PF * 2 ^ 8) 16) by lia.
  destruct (PF <? 240); [lia |].
  replace (DP * 2 ^ 16 + PF * 2 ^ 8)
    with ((DP * 256 + PF) * 2 ^ 8) by lia.
  rewrite (lor_disjoint_add _ PS 8) by lia. lia.
Qed.

End IdFields.

(** ** Identifier codec *)

Lemma n2k_id_decode (prio pgn src : Z) :
  0 <= prio -> 0 <= pgn < 2 ^ 17 -> 0 <= src < 256 ->
  decodeIdentifier (n2k_id prio pgn src)
  = (prio mod 8, canonical_pgn pgn, src, 255).
Proof.
  intros Hp Hg Hs.
  rewrite n2k_id_fields by lia. cbv zeta.
  set (PF := (pgn / 256) mod 256).
  set (DP := (pgn / 65536) mod 2).
  set (PS := if PF <? 240 then 255 else pgn mod 256).
  assert (HPF : 0 <= PF < 256) by (apply Z.mod_pos_bound; lia).
  assert (HDP : 0 <= DP < 2) by (apply Z.mod_pos_bound; lia).
  assert (Hp8 : 0 <= prio mod 8 < 8) by (apply Z.mod_pos_bound; lia).
  assert (HPS : 0 <= PS < 256).
  { unfold PS. destruct (PF <? 240); [lia | apply Z.mod_pos_bound; lia]. }
  unfold decodeIdentifier.
  rewrite id_sum_priority, id_sum_source, id_sum_pgn, id_sum_dst
    by assumption.
  assert (EPF : pgn_PF pgn = PF).
  { unfold pgn_PF. change 0xFF with (2 ^ 8 - 1).
    rewrite land_low_mod, Z.shiftr_div_pow2 by lia. reflexivity. }
  unfold canonical_pgn. rewrite EPF.
  assert (Epgn : pgn = DP * 65536 + PF * 256 + pgn mod 256).
  { unfold DP, PF. change (2 ^ 17) with 131072 in Hg.
    Z.div_mod_to_equations. lia. }
  unfold PS. destruct (PF <? 240).
  - replace (pgn - pgn mod 256) with (DP * 65536 + PF * 256) by lia.
    reflexivity.
  - rewrite <- Epgn. reflexivity.
Qed.

Lemma n2k_id_range (prio pgn src : Z) :
  0 <= prio -> 0 <= pgn -> 0 <= src < 256 ->
  0 <= n2k_id prio pgn src < 2 ^ 29.
Proof.
  intros Hp Hg Hs. rewrite n2k_id_fields by lia. cbv zeta.
  set (PF := (pgn / 256) mod 256).
  apply id_sum_range; try (apply Z.mod_pos_bound; lia); try assumption.
  destruct (PF <? 240); [lia | apply Z.mod_pos_bound; lia].
Qed.

(** C2 (as amended).  For every priority 0..7, every PGN below 2^17,
    every source address and whatever the destination meant, the encoder
    is [n2k_id], which does not take the destination; its result fits 29
    bits, and decoding it gives back the priority, the source address and
    the PGN (a PDU2 PGN in full, a PDU1 PGN with its low byte zero); the
    destination read back is always broadcast (255), because [n2k_id]
    writes 0xFF into the PDU-specific byte of every PDU1 identifier. *)
Theorem identifier_roundtrip_broadcast (prio pgn src dst : Z) :
  0 <= prio <= 7 -> 0 <= pgn < 2 ^ 17 -> 0 <= src <= 255 ->
  0 <= dst <= 255 ->
  encodeIdentifier prio pgn src dst = n2k_id prio pgn src
  /\ 0 <= n2k_id prio pgn src < 2 ^ 29
  /\ decodeIdentifier (n2k_id prio pgn src)
     = (prio, canonical_pgn pgn, src, 255).
Proof.
  intros Hp Hg Hs Hd.
  split; [reflexivity |]. split; [apply n2k_id_range; lia |].
  rewrite n2k_id_decode by lia.
  rewrite (Z.mod_small prio 8) by lia. reflexivity.
Qed.

Lemma identifier_roundtrip_broadcast_witness :
  (0 <= 2 <= 7) /\ (0 <= 127250 < 2 ^ 17) /\ (0 <= 33 <= 255)
  /\ (0 <= 35 <= 255)
  /\ decodeIdentifier (n2k_id 2 127250 33) = (2, canonical_pgn 127250, 33, 255).
Proof.
  split; [lia |]. split; [lia |]. split; [lia |]. split; [lia |].
  apply (identifier_roundtrip_broadcast 2 127250 33 35); lia.
Defined.

(** C2 as stated fails: an ISO request (PGN 59904, PDU1) meant for
    address 35 is encoded with destination byte 0xFF, so the decoded
    destination is broadcast and not 35. *)
Lemma identifier_roundtrip_destination_lost :
  decodeIdentifier (encodeIdentifier 6 59904 33 35)
  <> (6, canonical_pgn 59904, 33, expected_destination 59904 35).
Proof. vm_compute. discriminate. Qed.

(** C9 (as amended).  [n2k_id] masks the priority instead of clamping it:
    for every 8-bit priority the priority field of the identifier is the
    priority modulo 8 (its low three bits), hence at most 7. *)
Theorem priority_field_masked (prio pgn src : Z) :
  0 <= prio <= 255 -> 0 <= pgn < 2 ^ 17 -> 0 <= src <= 255 ->
  id_priority (n2k_id prio pgn src) = prio mod 8
  /\ 0 <= id_priority (n2k_id prio pgn src) <= 7.
Proof.
  intros Hp Hg Hs.
  pose proof (n2k_id_decode prio pgn src ltac:(lia) Hg ltac:(lia)) as H.
  unfold decodeIdentifier in H.
  assert (E : id_priority (n2k_id prio pgn src) = prio mod 8) by congruence.
  rewrite E. split; [reflexivity |].
  pose proof (Z.mod_pos_bound prio 8 ltac:(lia)). lia.
Qed.

Lemma priority_field_masked_witness :
  (0 <= 9 <= 255) /\ (0 <= 127250 < 2 ^ 17) /\ (0 <= 33 <= 255) /\
  id_priority (n2k_id 9 127250 33) = 9 mod 8
  /\ 0 <= id_priority (n2k_id 9 127250 33) <= 7.
Proof.
  split; [lia |]. split; [lia |]. split; [lia |].
  apply (priority_field_masked 9 127250 33); lia.
Defined.

(** C9 as stated fails: priority 8 is above 7 and yields priority field
    0, not 7. *)
Lemma priority_not_clamped :
  7 < 8 /\ id_priority (n2k_id 8 127250 33) <> 7.
Proof. split; [lia |]. vm_compute. discriminate. Qed.

(** ** Arrays *)

Lemma read_bytes_length (src : list Z) (c : nat) :
  length (read_bytes src c) = c.
Proof. unfold read_bytes. rewrite length_map, length_seq. reflexivity. Qed.

Lemma read_bytes_firstn (src : list Z) (c : nat) :
  (c <= length src)%nat -> read_bytes src c = firstn c src.
Proof.
  unfold read_bytes. revert src. induction c as [| c IH]; intros src Hc.
  - reflexivity.
  - destruct src as [| x src]; [simpl in Hc; lia |].
    simpl. f_equal. rewrite <- seq_shift, map_map. apply IH.
    simpl in Hc. lia.
Qed.

Lemma read_bytes_app (a b : list Z) (c : nat) :
  c = length a -> read_bytes (a ++ b) c = a.
Proof.
  intros ->. rewrite read_bytes_firstn by (rewrite length_app; lia).
  rewrite firstn_app, Nat.sub_diag, firstn_all. simpl. apply app_nil_r.
Qed.

Lemma memcpy_length (dst src : list Z) (off cnt : Z) :
  length (memcpy dst off src cnt) = length dst.
Proof.
  unfold memcpy. rewrite length_firstn. apply Nat.min_l.
  rewrite !length_app, length_firstn, read_bytes_length, length_skipn. lia.
Qed.

Lemma memcpy_splice (dst src : list Z) (off cnt : Z) :
  0 <= off -> 0 <= cnt -> off + cnt <= Z.of_nat (length dst) ->
  memcpy dst off src cnt
  = firstn (Z.to_nat off) dst ++ read_bytes src (Z.to_nat cnt)
    ++ skipn (Z.to_nat off + Z.to_nat cnt) dst.
Proof.
  intros Ho Hc Hb. unfold memcpy. apply firstn_all2.
  rewrite !length_app, length_firstn, read_bytes_length, length_skipn. lia.
Qed.

Lemma firstn_plus (A : Type) (a b : nat) (l : list A) :
  firstn (a + b) l = firstn a l ++ firstn b (skipn a l).
Proof.
  revert l. induction a as [| a IH]; intros l.
  - reflexivity.
  - destruct l as [| x l]; simpl.
    + rewrite firstn_nil. reflexivity.
    + f_equal. apply IH.
Qed.

(** After a copy that extends a prefix of [payload] held in the buffer by
    the next bytes of [payload], the buffer holds the longer prefix. *)
Lemma memcpy_extends_prefix (buf src payload : list Z) (o c : nat) :
  (o + c <= length buf)%nat ->
  firstn o buf = firstn o payload ->
  (o <= length payload)%nat ->
  read_bytes src c = firstn c (skipn o payload) ->
  (o + c <= length payload)%nat ->
  firstn (o + c) (memcpy buf (Z.of_nat o) src (Z.of_nat c))
  = firstn (o + c) payload.
Proof.
  intros Hb Hpre Ho Hsrc Hp.
  rewrite memcpy_splice by lia. rewrite !Nat2Z.id.
  rewrite firstn_app.
  rewrite length_firstn, Nat.min_l by lia.
  rewrite firstn_firstn, Nat.min_r by lia.
  replace (o + c - o)%nat with c by lia.
  rewrite firstn_app, read_bytes_length, Nat.sub_diag. simpl.
  rewrite app_nil_r.
  rewrite <- (read_bytes_length src c) at 1. rewrite firstn_all.
  rewrite Hpre, Hsrc. symmetry. apply firstn_plus.
Qed.

(** ** The command reassembler, one frame at a time *)

Ltac zbool :=
  repeat match goal with
  | H : (_ && _) = true |- _ => apply andb_true_iff in H; destruct H
  | H : (_ >? _) = _ |- _ => rewrite Z.gtb_ltb in H
  | H : (_ >=? _) = _ |- _ => rewrite Z.geb_leb in H
  | H : (_ <? _) = true |- _ => apply Z.ltb_lt in H
  | H : (_ <? _) = false |- _ => apply Z.ltb_ge in H
  | H : (_ <=? _) = true |- _ => apply Z.leb_le in H
  | H : (_ <=? _) = false |- _ => apply Z.leb_gt in H
  | H : (_ =? _) = true |- _ => apply Z.eqb_eq in H
  | H : (_ =? _) = false |- _ => apply Z.eqb_neq in H
  end.

Lemma byte_at_range (d : list Z) (i : Z) :
  is_bytes d -> 0 <= byte_at d i < 256.
Proof.
  intros Hd. unfold byte_at.
  destruct (nth_in_or_default (Z.to_nat i) d 0) as [Hin | ->]; [| lia].
  unfold is_bytes in Hd. rewrite Forall_forall in Hd. apply Hd, Hin.
Qed.

Lemma gf_reset_wf : fp_wf gf_reset.
Proof.
  unfold fp_wf, gf_reset, FPBUF_SIZE; simpl.
  repeat split; try lia; discriminate.
Qed.

Lemma feed_wf (g : FPBuf) (sa : Z) (d : list Z) (n : Z) :
  fp_wf g -> is_bytes d -> fp_wf (fr_grp (feed_126208 g sa d n)).
Proof.
  intros Hg Hd. pose proof (byte_at_range d 1 Hd) as H1.
  destruct Hg as (Hlen & Hfill & Htot & Hact).
  unfold feed_126208, FPBUF_SIZE in *.
  destruct (n <? 2) eqn:En; [simpl; unfold fp_wf, FPBUF_SIZE; tauto |].
  destruct (Z.land (byte_at d 0) 31 =? 0) eqn:Efi.
  - destruct (byte_at d 1 >? 120) eqn:Et; [apply gf_reset_wf |].
    zbool. unfold u8. rewrite Z.mod_small by lia.
    destruct (Z.min 6 (byte_at d 1) >=? byte_at d 1) eqn:Ec;
      [apply gf_reset_wf |].
    zbool. unfold fp_wf; simpl. rewrite memcpy_length.
    unfold FPBUF_SIZE. repeat split; try reflexivity; lia.
  - destruct (fp_active g && (fp_sa g =? sa)
              && (fp_seq g =? Z.land (Z.shiftr (byte_at d 0) 5) 7)
              && (Z.land (byte_at d 0) 31 =? fp_next g)) eqn:Em;
      [| apply gf_reset_wf].
    zbool. specialize (Hact H).
    assert (Eu : u8 (fp_filled g + Z.min 7 (fp_total g - fp_filled g))
                 = fp_filled g + Z.min 7 (fp_total g - fp_filled g))
      by (unfold u8; apply Z.mod_small; lia).
    rewrite Eu.
    destruct (fp_filled g + Z.min 7 (fp_total g - fp_filled g)
              >=? fp_total g) eqn:Ec; [apply gf_reset_wf |].
    zbool. unfold fp_wf; simpl. rewrite memcpy_length.
    unfold FPBUF_SIZE. repeat split; try assumption; lia.
Qed.

Lemma fp_reachable_wf (g : FPBuf) : fp_reachable g -> fp_wf g.
Proof.
  induction 1 as [| g sa d n _ IH Hd].
  - apply gf_reset_wf.
  - apply feed_wf; assumption.
Qed.

(** C10.  From every buffer state that occurs and for every frame of
    bytes: a [memcpy] into the 120-byte buffer stays inside it; a first
    segment copies [min(6, total)] bytes at offset 0, and none at all when
    the declared total exceeds 120; a continuation copies
    [min(7, total - filled)] bytes at offset [filled], at least one and
    never past [total]; and afterwards the fill count is at most the
    declared total, which is at most 120. *)
Theorem reassembly_writes_in_bounds (g : FPBuf) (sa : Z) (d : list Z) (n : Z) :
  fp_reachable g -> is_bytes d ->
  let r := feed_126208 g sa d n in
  let fi := Z.land (byte_at d 0) 0x1F in
  (forall off cnt, fr_copy r = Some (off, cnt) ->
     0 <= off /\ 0 <= cnt /\ off + cnt <= FPBUF_SIZE
     /\ (fi = 0 -> off = 0 /\ cnt = Z.min 6 (byte_at d 1) /\ cnt <= 6
                   /\ cnt <= byte_at d 1)
     /\ (fi <> 0 -> off = fp_filled g
                    /\ cnt = Z.min 7 (fp_total g - fp_filled g)
                    /\ 1 <= cnt <= 7
                    /\ off + cnt <= fp_total g))
  /\ (fi = 0 -> byte_at d 1 > FPBUF_SIZE -> fr_copy r = None)
  /\ 0 <= fp_filled (fr_grp r) <= fp_total (fr_grp r)
  /\ fp_total (fr_grp r) <= FPBUF_SIZE.
Proof.
  intros Hr Hd r fi.
  pose proof (fp_reachable_wf g Hr) as Hg.
  pose proof (feed_wf g sa d n Hg Hd) as Hwf. fold r in Hwf.
  pose proof (byte_at_range d 1 Hd) as H1.
  destruct Hg as (Hlen & Hfill & Htot & Hact).
  split; [| split].
  - intros off cnt Hc. subst r fi.
    unfold feed_126208, FPBUF_SIZE in *.
    destruct (n <? 2) eqn:En; [discriminate |].
    destruct (Z.land (byte_at d 0) 31 =? 0) eqn:Efi.
    + destruct (byte_at d 1 >? 120) eqn:Et; [discriminate |].
      zbool.
      assert (off = 0 /\ cnt = Z.min 6 (byte_at d 1)) as [-> ->].
      { destruct (u8 (Z.min 6 (byte_at d 1)) >=? byte_at d 1);
          simpl in Hc; inversion Hc; auto. }
      repeat split; try lia.
    + destruct (fp_active g && (fp_sa g =? sa)
                && (fp_seq g =? Z.land (Z.shiftr (byte_at d 0) 5) 7)
                && (Z.land (byte_at d 0) 31 =? fp_next g)) eqn:Em;
        [| discriminate].
      zbool. specialize (Hact H).
      assert (off = fp_filled g
              /\ cnt = Z.min 7 (fp_total g - fp_filled g)) as [-> ->].
      { destruct (u8 (fp_filled g + Z.min 7 (fp_total g - fp_filled g))
                  >=? fp_total g); simpl in Hc; inversion Hc; auto. }
      repeat split; try lia.
  - intros Hfi Hbig. subst r fi. unfold feed_126208.
    destruct (n <? 2); [reflexivity |].
    rewrite Hfi. simpl (0 =? 0).
    replace (byte_at d 1 >? FPBUF_SIZE) with true; [reflexivity |].
    symmetry. rewrite Z.gtb_ltb. apply Z.ltb_lt. lia.
  - destruct Hwf as (_ & Hf & Ht & _). split; assumption.
Qed.

Lemma reassembly_writes_in_bounds_witness :
  let g := fr_grp (feed_126208 gf_reset 33 [0; 9; 1; 2; 3; 4; 5; 6] 8) in
  let d := [1; 7; 8; 9; 255; 255; 255; 255] in
  fp_reachable g /\ is_bytes d
  /\ (forall off cnt, fr_copy (feed_126208 g 33 d 8) = Some (off, cnt) ->
      0 <= off /\ 0 <= cnt /\ off + cnt <= FPBUF_SIZE)
  /\ fp_total (fr_grp (feed_126208 g 33 d 8)) <= FPBUF_SIZE.
Proof.
  intros g d.
  assert (Hr : fp_reachable g).
  { apply fp_reach_feed; [apply fp_reach_init |].
    repeat constructor; lia. }
  assert (Hd : is_bytes d) by (repeat constructor; lia).
  split; [exact Hr |]. split; [exact Hd |].
  destruct (reassembly_writes_in_bounds g 33 d 8 Hr Hd) as (Hc & _ & _ & Ht).
  split; [| exact Ht].
  intros off cnt E. destruct (Hc off cnt E) as (H1 & H2 & H3 & _).
  repeat split; assumption.
Defined.

(** C6 (as amended).  From every buffer state that occurs and for every
    frame of bytes: a command is delivered only by a frame that completes
    the assembly, that is when the bytes accumulated (6 at most from a
    first segment, then 7 at most per matching continuation) reach the
    declared total length, and the command then has exactly that length;
    a continuation of two bytes or more whose source address, sequence id
    or frame index differs from what the active assembly expects (or that
    finds no active assembly), and a first segment of two bytes or more
    that declares more than 120 bytes, deliver nothing and leave the
    buffer reset; a frame of fewer than two bytes is ignored: it delivers
    nothing and leaves the buffer as it is, an active assembly
    included. *)
Theorem no_partial_delivery (g : FPBuf) (sa : Z) (d : list Z) (n : Z) :
  fp_reachable g -> is_bytes d ->
  let r := feed_126208 g sa d n in
  let fi := Z.land (byte_at d 0) 0x1F in
  let seq := Z.land (Z.shiftr (byte_at d 0) 5) 0x07 in
  (forall cmd, fr_cmd r = Some cmd ->
     2 <= n /\ fr_grp r = gf_reset
     /\ ((fi = 0 /\ Z.of_nat (length cmd) = byte_at d 1
          /\ Z.min 6 (byte_at d 1) = byte_at d 1)
         \/ (fi <> 0 /\ fp_active g = true /\ fp_sa g = sa
             /\ fp_seq g = seq /\ fi = fp_next g
             /\ Z.of_nat (length cmd) = fp_total g
             /\ fp_filled g + Z.min 7 (fp_total g - fp_filled g)
                = fp_total g)))
  /\ (2 <= n -> fi <> 0 ->
      fp_active g = false \/ fp_sa g <> sa \/ fp_seq g <> seq
      \/ fi <> fp_next g ->
      fr_cmd r = None /\ fr_grp r = gf_reset)
  /\ (2 <= n -> fi = 0 -> byte_at d 1 > FPBUF_SIZE ->
      fr_cmd r = None /\ fr_grp r = gf_reset)
  /\ (n < 2 -> fr_cmd r = None /\ fr_grp r = g).
Proof.
  intros Hr Hd r fi seq.
  pose proof (fp_reachable_wf g Hr) as Hg.
  pose proof (byte_at_range d 1 Hd) as H1.
  destruct Hg as (Hlen & Hfill & Htot & Hact).
  subst r fi seq. unfold feed_126208, FPBUF_SIZE in *.
  split; [| split; [| split]].
  - intros cmd.
    destruct (n <? 2) eqn:En; [discriminate |].
    destruct (Z.land (byte_at d 0) 31 =? 0) eqn:Efi.
    + destruct (byte_at d 1 >? 120) eqn:Et; [discriminate |].
      zbool.
      assert (Eu : u8 (Z.min 6 (byte_at d 1)) = Z.min 6 (byte_at d 1))
        by (unfold u8; apply Z.mod_small; lia).
      rewrite Eu.
      destruct (Z.min 6 (byte_at d 1) >=? byte_at d 1) eqn:Ec;
        [| discriminate].
      zbool. simpl. intros Hc. inversion Hc; subst cmd; clear Hc.
      split; [assumption |]. split; [reflexivity |]. left.
      split; [assumption |]. split; [| lia].
      rewrite length_firstn, memcpy_length. simpl length. lia.
    + destruct (fp_active g && (fp_sa g =? sa)
                && (fp_seq g =? Z.land (Z.shiftr (byte_at d 0) 5) 7)
                && (Z.land (byte_at d 0) 31 =? fp_next g)) eqn:Em;
        [| discriminate].
      zbool. specialize (Hact H).
      assert (Eu : u8 (fp_filled g + Z.min 7 (fp_total g - fp_filled g))
                   = fp_filled g + Z.min 7 (fp_total g - fp_filled g))
        by (unfold u8; apply Z.mod_small; lia).
      rewrite Eu.
      destruct (fp_filled g + Z.min 7 (fp_total g - fp_filled g)
                >=? fp_total g) eqn:Ec; [| discriminate].
      zbool. simpl. intros Hc. inversion Hc; subst cmd; clear Hc.
      split; [assumption |]. split; [reflexivity |]. right.
      repeat split; try assumption; try lia.
      rewrite length_firstn, memcpy_length. lia.
  - intros Hn Hfi Hmis.
    destruct (n <? 2) eqn:En; [zbool; lia |].
    destruct (Z.land (byte_at d 0) 31 =? 0) eqn:Efi; [zbool; contradiction |].
    destruct (fp_active g && (fp_sa g =? sa)
              && (fp_seq g =? Z.land (Z.shiftr (byte_at d 0) 5) 7)
              && (Z.land (byte_at d 0) 31 =? fp_next g)) eqn:Em;
      [| split; reflexivity].
    zbool. destruct Hmis as [Hm | [Hm | [Hm | Hm]]]; congruence.
  - intros Hn Hfi Hbig.
    destruct (n <? 2) eqn:En; [zbool; lia |].
    rewrite Hfi. simpl (0 =? 0).
    replace (byte_at d 1 >? 120) with true; [split; reflexivity |].
    symmetry. rewrite Z.gtb_ltb. apply Z.ltb_lt. lia.
  - intros Hn.
    replace (n <? 2) with true by (symmetry; apply Z.ltb_lt; exact Hn).
    split; reflexivity.
Qed.

Lemma no_partial_delivery_witness :
  let g := fr_grp (feed_126208 gf_reset 33 [0; 9; 1; 2; 3; 4; 5; 6] 8) in
  let d := [2; 7; 8; 9; 255; 255; 255; 255] in
  fp_reachable g /\ is_bytes d
  /\ fr_cmd (feed_126208 g 33 d 8) = None
  /\ fr_grp (feed_126208 g 33 d 8) = gf_reset.
Proof.
  intros g d.
  assert (Hr : fp_reachable g).
  { apply fp_reach_feed; [apply fp_reach_init |].
    repeat constructor; lia. }
  assert (Hd : is_bytes d) by (repeat constructor; lia).
  split; [exact Hr |]. split; [exact Hd |].
  destruct (no_partial_delivery g 33 d 8 Hr Hd) as (_ & Hmis & _).
  apply Hmis.
  - lia.
  - vm_compute. discriminate.
  - right. right. right. vm_compute. discriminate.
Defined.

(** C6 as stated fails: a continuation of one byte that matches the
    active assembly in nothing (source address 99 for 33, sequence id 1
    for 0, frame index 5 for 1) does not discard it; [feed_126208]
    returns at once for fewer than two bytes, the assembly stays active,
    and the next matching frame completes and delivers the command. *)
Lemma short_continuation_keeps_assembly :
  let g := fr_grp (feed_126208 gf_reset 33 [0; 9; 1; 2; 3; 4; 5; 6] 8) in
  let r := feed_126208 g 99 [0x25] 1 in
  fp_reachable g /\ is_bytes [0x25]
  /\ fp_active g = true
  /\ Z.land 0x25 0x1F <> 0
  /\ fp_sa g <> 99
  /\ fp_seq g <> Z.land (Z.shiftr 0x25 5) 0x07
  /\ Z.land 0x25 0x1F <> fp_next g
  /\ fr_grp r = g
  /\ fr_grp r <> gf_reset
  /\ fr_cmd (feed_126208 (fr_grp r) 33 [1; 7; 8; 9; 255; 255; 255; 255] 8)
     = Some [1; 2; 3; 4; 5; 6; 7; 8; 9].
Proof.
  intros g r.
  split.
  { apply fp_reach_feed; [apply fp_reach_init |]. repeat constructor; lia. }
  split; [repeat constructor; lia |].
  split; [reflexivity |].
  split; [vm_compute; discriminate |].
  split; [vm_compute; discriminate |].
  split; [vm_compute; discriminate |].
  split; [vm_compute; discriminate |].
  split; [reflexivity |].
  split; [vm_compute; discriminate |].
  vm_compute. reflexivity.
Qed.

(** ** Fast-packet frames through the reassembler *)

Lemma forallb_range (P : Z -> bool) (n : nat) :
  forallb P (map Z.of_nat (seq 0 n)) = true ->
  forall z, 0 <= z < Z.of_nat n -> P z = true.
Proof.
  intros H z Hz. rewrite forallb_forall in H. apply H.
  apply in_map_iff. exists (Z.to_nat z). split; [lia |].
  apply in_seq. lia.
Qed.

(** The first byte of a frame: sequence id in the top three bits, frame
    index in the low five. *)
Lemma byte0_fields (sq idx : Z) :
  0 <= sq < 8 -> 0 <= idx < 32 ->
  u8 (Z.lor (Z.shiftl sq 5) (Z.land idx 0x1F)) = sq * 32 + idx
  /\ Z.land (sq * 32 + idx) 0x1F = idx
  /\ Z.land (Z.shiftr (sq * 32 + idx) 5) 0x07 = sq.
Proof.
  intros Hs Hi.
  pose proof (forallb_range
    (fun s => forallb (fun i =>
       (u8 (Z.lor (Z.shiftl s 5) (Z.land i 0x1F)) =? s * 32 + i)
       && (Z.land (s * 32 + i) 0x1F =? i)
       && (Z.land (Z.shiftr (s * 32 + i) 5) 0x07 =? s))
       (map Z.of_nat (seq 0 32))) 8 eq_refl sq ltac:(lia)) as H.
  cbv beta in H.
  pose proof (forallb_range _ 32 H idx ltac:(lia)) as H'.
  cbv beta in H'. zbool. auto.
Qed.

Lemma byte0_bumped (sq idx : Z) :
  0 <= sq < 8 -> 0 <= idx < 32 ->
  Z.lor (Z.land (sq * 32 + idx) 0xE0)
        (Z.land (Z.land (sq * 32 + idx) 0x1F + 1) 0x1F)
  = sq * 32 + (idx + 1) mod 32.
Proof.
  intros Hs Hi.
  pose proof (forallb_range
    (fun s => forallb (fun i =>
       Z.lor (Z.land (s * 32 + i) 0xE0)
             (Z.land (Z.land (s * 32 + i) 0x1F + 1) 0x1F)
       =? s * 32 + (i + 1) mod 32)
       (map Z.of_nat (seq 0 32))) 8 eq_refl sq ltac:(lia)) as H.
  cbv beta in H.
  pose proof (forallb_range _ 32 H idx ltac:(lia)) as H'.
  cbv beta in H'. zbool. auto.
Qed.

(** What [feed_126208] does with a continuation that matches. *)
Lemma feed_continuation (g : FPBuf) (sa : Z) (d : list Z) (n : Z) :
  2 <= n -> fp_active g = true -> fp_sa g = sa ->
  Z.land (byte_at d 0) 0x1F = fp_next g -> fp_next g <> 0 ->
  Z.land (Z.shiftr (byte_at d 0) 5) 0x07 = fp_seq g ->
  0 <= fp_filled g < fp_total g -> fp_total g <= 120 ->
  let take := Z.min 7 (fp_total g - fp_filled g) in
  let buf := memcpy (fp_buf g) (fp_filled g) (ptr_add d 1) take in
  feed_126208 g sa d n =
  if fp_filled g + take >=? fp_total g
  then mkFeed gf_reset (Some (firstn (Z.to_nat (fp_total g)) buf))
         (Some (fp_filled g, take))
  else mkFeed (mkFPBuf true sa (fp_seq g) (fp_total g) (u8 (fp_next g + 1))
                 (fp_filled g + take) buf) None (Some (fp_filled g, take)).
Proof.
  intros Hn Ha Hsa Hfi Hnz Hsq Hf Ht take buf. unfold feed_126208.
  replace (n <? 2) with false by (symmetry; apply Z.ltb_ge; lia).
  rewrite Hfi, Hsq, Ha, Hsa.
  replace (fp_next g =? 0) with false by (symmetry; apply Z.eqb_neq; lia).
  rewrite !Z.eqb_refl. simpl andb. cbv iota.
  fold take. fold buf.
  assert (Eu : u8 (fp_filled g + take) = fp_filled g + take)
    by (unfold u8, take; apply Z.mod_small; lia).
  rewrite Eu. reflexivity.
Qed.

(** A continuation that finds no active assembly, or the wrong frame
    index, resets the buffer and delivers nothing. *)
Lemma feed_rejected (g : FPBuf) (sa : Z) (d : list Z) (n : Z) :
  2 <= n -> Z.land (byte_at d 0) 0x1F <> 0 ->
  fp_active g = false \/ Z.land (byte_at d 0) 0x1F <> fp_next g ->
  feed_126208 g sa d n = mkFeed gf_reset None None.
Proof.
  intros Hn Hfi Hmis. unfold feed_126208.
  replace (n <? 2) with false by (symmetry; apply Z.ltb_ge; lia).
  replace (Z.land (byte_at d 0) 31 =? 0) with false
    by (symmetry; apply Z.eqb_neq; assumption).
  destruct Hmis as [-> | Hne]; [reflexivity |].
  replace (Z.land (byte_at d 0) 31 =? fp_next g) with false
    by (symmetry; apply Z.eqb_neq; assumption).
  rewrite andb_false_r. reflexivity.
Qed.

Lemma send_loop_done (k : nat) (id sq : Z) (payload : list Z)
  (len sent idx : Z) :
  len <= sent -> n2k_send_fast_loop k id sq payload len sent idx = [].
Proof.
  intros H. destruct k; [reflexivity |]. simpl.
  replace (sent <? len) with false by (symmetry; apply Z.ltb_ge; lia).
  reflexivity.
Qed.

Lemma skipn_repeat (A : Type) (x : A) (n m : nat) :
  skipn n (repeat x m) = repeat x (m - n).
Proof.
  revert m. induction n as [| n IH]; intros m.
  - rewrite Nat.sub_0_r. reflexivity.
  - destruct m; [reflexivity |]. simpl. apply IH.
Qed.

Lemma n2k_send_fast_loop_unfold (k : nat) (id sq : Z) (payload : list Z)
  (len sent idx : Z) :
  n2k_send_fast_loop (S k) id sq payload len sent idx =
  if sent <? len then
    let f0 := u8 (Z.lor (Z.shiftl sq 5) (Z.land idx 0x1F)) in
    let t := if len - sent >? 7 then 7 else u8 (len - sent) in
    let f := memcpy (f0 :: memset 0xFF 7) 1 (ptr_add payload sent) t in
    twai_tx id f 8
      :: n2k_send_fast_loop k id sq payload len (u16 (sent + t)) (u8 (idx + 1))
  else [].
Proof. reflexivity. Qed.

(** One round of the sender's loop, with the frame spelled out. *)
Lemma send_loop_step (k : nat) (id sq : Z) (payload : list Z)
  (len sent idx : Z) :
  0 <= sent < len -> len = Z.of_nat (length payload) -> len <= 255 ->
  0 <= sq < 8 -> 0 <= idx < 32 ->
  n2k_send_fast_loop (S k) id sq payload len sent idx
  = CanTx id (sender_frame sq len payload sent idx)
      :: n2k_send_fast_loop k id sq payload len
           (sent + Z.min 7 (len - sent)) (idx + 1).
Proof.
  intros Hs Hlen Hl Hsq Hidx. unfold sender_frame.
  set (t := Z.min 7 (len - sent)). rewrite n2k_send_fast_loop_unfold.
  replace (sent <? len) with true by (symmetry; apply Z.ltb_lt; lia).
  cbv zeta.
  destruct (byte0_fields sq idx Hsq Hidx) as (E0 & _ & _). rewrite E0.
  assert (Et : (if len - sent >? 7 then 7 else u8 (len - sent)) = t).
  { unfold t, u8. destruct (len - sent >? 7) eqn:E; zbool.
    - lia.
    - rewrite Z.mod_small by lia. lia. }
  rewrite Et.
  assert (Ht : 1 <= t <= 7) by (unfold t; lia).
  f_equal.
  - unfold twai_tx. f_equal.
    change (memset 0xFF 7) with (repeat 0xFF 7).
    rewrite memcpy_splice by (simpl length; lia).
    unfold ptr_add.
    rewrite read_bytes_firstn by (rewrite length_skipn; lia).
    change (Z.to_nat 1) with 1%nat. change (Z.to_nat 8) with 8%nat.
    change (firstn 1 (sq * 32 + idx :: repeat 0xFF 7))
      with [sq * 32 + idx].
    change (skipn (1 + Z.to_nat t) (sq * 32 + idx :: repeat 0xFF 7))
      with (skipn (Z.to_nat t) (repeat 0xFF 7)).
    rewrite skipn_repeat.
    apply firstn_all2.
    cbn [app length]. rewrite length_app, length_firstn, length_skipn.
    rewrite repeat_length. lia.
  - f_equal.
    + unfold u16. apply Z.mod_small. lia.
    + unfold u8. apply Z.mod_small. lia.
Qed.

Lemma feed_frames_cons (g : FPBuf) (sa : Z) (d : list Z)
  (rest : list (list Z)) :
  feed_frames g sa (d :: rest) =
  let r := feed_126208 g sa d (Z.of_nat (length d)) in
  (fst (feed_frames (fr_grp r) sa rest),
   match fr_cmd r with
   | Some c => c :: snd (feed_frames (fr_grp r) sa rest)
   | None => snd (feed_frames (fr_grp r) sa rest)
   end).
Proof.
  cbn [feed_frames]. cbv zeta.
  destruct (feed_frames _ sa rest) as [g' out]. reflexivity.
Qed.

Section FastPacketLoop.

Variables id sq sa len : Z.
Variable payload : list Z.
Hypothesis Hsq : 0 <= sq < 8.
Hypothesis Hlen : len = Z.of_nat (length payload).

Lemma frame_length (sent idx : Z) :
  0 <= sent < len -> length (sender_frame sq len payload sent idx) = 8%nat.
Proof.
  intros Hs. unfold sender_frame. cbn [length].
  rewrite length_app, length_firstn, length_skipn, repeat_length. lia.
Qed.

(** The receiver, holding the first [sent] bytes of the payload and
    expecting index [idx], takes the sender's frame number [idx]. *)
Lemma feed_sender_frame (sent idx : Z) (buf : list Z) :
  0 <= sent < len -> len <= 120 -> 1 <= idx < 32 ->
  length buf = 120%nat ->
  firstn (Z.to_nat sent) buf = firstn (Z.to_nat sent) payload ->
  let t := Z.min 7 (len - sent) in
  exists buf',
    length buf' = 120%nat
    /\ firstn (Z.to_nat (sent + t)) buf'
       = firstn (Z.to_nat (sent + t)) payload
    /\ feed_126208 (mkFPBuf true sa sq len idx sent buf) sa
         (sender_frame sq len payload sent idx)
         (Z.of_nat (length (sender_frame sq len payload sent idx)))
       = if sent + t >=? len
         then mkFeed gf_reset (Some payload) (Some (sent, t))
         else mkFeed (mkFPBuf true sa sq len (idx + 1) (sent + t) buf')
                None (Some (sent, t)).
Proof.
  intros Hs Hl Hi Hb Hp t.
  destruct (byte0_fields sq idx Hsq ltac:(lia)) as (_ & Efi & Esq).
  exists (memcpy buf sent (ptr_add (sender_frame sq len payload sent idx) 1) t).
  assert (Hpre : firstn (Z.to_nat (sent + t))
                   (memcpy buf sent
                      (ptr_add (sender_frame sq len payload sent idx) 1) t)
                 = firstn (Z.to_nat (sent + t)) payload).
  { replace (Z.to_nat (sent + t)) with (Z.to_nat sent + Z.to_nat t)%nat
      by (unfold t; lia).
    replace (memcpy buf sent
               (ptr_add (sender_frame sq len payload sent idx) 1) t)
      with (memcpy buf (Z.of_nat (Z.to_nat sent))
              (ptr_add (sender_frame sq len payload sent idx) 1)
              (Z.of_nat (Z.to_nat t)))
      by (rewrite !Z2Nat.id by (unfold t; lia); reflexivity).
    apply memcpy_extends_prefix; try (unfold t; lia); try assumption.
    unfold ptr_add, sender_frame.
    change (Z.to_nat 1) with 1%nat. cbn [skipn]. fold t.
    apply read_bytes_app.
    rewrite length_firstn, length_skipn. unfold t. lia. }
  split; [rewrite memcpy_length; exact Hb |]. split; [exact Hpre |].
  rewrite frame_length by lia.
  assert (E0 : byte_at (sender_frame sq len payload sent idx) 0
               = sq * 32 + idx) by reflexivity.
  rewrite feed_continuation;
    cbn [fp_active fp_sa fp_seq fp_total fp_next fp_filled fp_buf];
    rewrite ?E0;
    [ | lia | reflexivity | reflexivity | exact Efi | lia | exact Esq
      | lia | lia ].
  fold t.
  destruct (sent + t >=? len) eqn:Ec; zbool.
  - f_equal. f_equal.
    assert (E : sent + t = len) by (unfold t in *; lia).
    replace (Z.to_nat len) with (Z.to_nat (sent + t)) by lia.
    rewrite Hpre, E, Hlen, Nat2Z.id. apply firstn_all.
  - f_equal. f_equal. unfold u8. apply Z.mod_small. lia.
Qed.

(** Round trip of the continuation frames. *)
Lemma loop_roundtrip (k : nat) :
  forall (idx sent : Z) (buf : list Z),
    sent = 7 * idx - 1 -> 1 <= idx -> sent < len -> len <= 120 ->
    len - sent <= Z.of_nat k ->
    length buf = 120%nat ->
    firstn (Z.to_nat sent) buf = firstn (Z.to_nat sent) payload ->
    feed_frames (mkFPBuf true sa sq len idx sent buf) sa
      (map can_data (n2k_send_fast_loop k id sq payload len sent idx))
    = (gf_reset, [payload]).
Proof.
  induction k as [| k IH]; intros idx sent buf Es Hi Hlt Hl Hk Hb Hp.
  - simpl in Hk. lia.
  - rewrite send_loop_step by lia.
    cbn [map can_data]. rewrite feed_frames_cons. cbv zeta.
    destruct (feed_sender_frame sent idx buf) as (buf' & Hb' & Hp' & E);
      try assumption; try lia.
    rewrite E. clear E.
    destruct (sent + Z.min 7 (len - sent) >=? len) eqn:Ec; zbool.
    + cbn [fr_grp fr_cmd]. rewrite send_loop_done by lia. reflexivity.
    + cbn [fr_grp fr_cmd].
      rewrite (IH (idx + 1) (sent + Z.min 7 (len - sent)) buf');
        try assumption; try lia.
      reflexivity.
Qed.

(** With no assembly active, the sender's continuation frames are all
    dropped. *)
Lemma loop_dropped (k : nat) :
  forall (idx sent : Z) (g : FPBuf),
    sent = 7 * idx - 1 -> 1 <= idx -> len <= 223 ->
    fp_active g = false ->
    snd (feed_frames g sa
           (map can_data (n2k_send_fast_loop k id sq payload len sent idx)))
    = [].
Proof.
  induction k as [| k IH]; intros idx sent g Es Hi Hl Ha.
  - reflexivity.
  - destruct (Z.lt_ge_cases sent len) as [Hlt | Hge];
      [| rewrite send_loop_done by lia; reflexivity].
    rewrite send_loop_step by lia.
    cbn [map can_data]. rewrite feed_frames_cons. cbv zeta.
    rewrite frame_length by lia.
    destruct (byte0_fields sq idx Hsq ltac:(lia)) as (_ & Efi & _).
    assert (E0 : byte_at (sender_frame sq len payload sent idx) 0
                 = sq * 32 + idx) by reflexivity.
    rewrite feed_rejected; rewrite ?E0; [| lia | lia | left; assumption].
    cbn [fr_grp fr_cmd].
    destruct (Z.lt_ge_cases (sent + Z.min 7 (len - sent)) len)
      as [Hlt' | Hge'].
    + apply IH; try lia. reflexivity.
    + rewrite send_loop_done by lia. reflexivity.
Qed.

(** One continuation frame carries an index one too high: the frames
    before it are taken, the bumped frame resets the buffer, the frames
    after it are dropped. *)
Lemma loop_bumped (k : nat) :
  forall (j : nat) (idx sent : Z) (buf : list Z),
    sent = 7 * idx - 1 -> 1 <= idx -> sent < len -> len <= 120 ->
    length buf = 120%nat ->
    firstn (Z.to_nat sent) buf = firstn (Z.to_nat sent) payload ->
    (j < length (n2k_send_fast_loop k id sq payload len sent idx))%nat ->
    snd (feed_frames (mkFPBuf true sa sq len idx sent buf) sa
           (bump_nth j
              (map can_data
                 (n2k_send_fast_loop k id sq payload len sent idx))))
    = [].
Proof.
  induction k as [| k IH]; intros j idx sent buf Es Hi Hlt Hl Hb Hp Hj.
  - simpl in Hj. lia.
  - rewrite send_loop_step in Hj |- * by lia.
    cbn [map can_data]. cbn [length] in Hj.
    destruct j as [| j].
    + unfold sender_frame at 1. cbn [bump_nth bump_index].
      rewrite byte0_bumped by lia.
      rewrite (Z.mod_small (idx + 1) 32) by lia.
      fold (sender_frame sq len payload sent (idx + 1)).
      rewrite feed_frames_cons. cbv zeta.
      destruct (byte0_fields sq (idx + 1) Hsq ltac:(lia)) as (_ & Efi & _).
      rewrite frame_length by lia.
      assert (E0 : byte_at (sender_frame sq len payload sent (idx + 1)) 0
                   = sq * 32 + (idx + 1)) by reflexivity.
      rewrite feed_rejected; rewrite ?E0; cbn [fp_next];
        [| lia | lia | right; lia].
      cbn [fr_grp fr_cmd].
      destruct (Z.lt_ge_cases (sent + Z.min 7 (len - sent)) len)
        as [Hlt' | Hge'].
      * apply loop_dropped; try lia. reflexivity.
      * rewrite send_loop_done by lia. reflexivity.
    + cbn [bump_nth]. rewrite feed_frames_cons. cbv zeta.
      destruct (feed_sender_frame sent idx buf) as (buf' & Hb' & Hp' & E);
        try assumption; try lia.
      rewrite E. clear E.
      destruct (sent + Z.min 7 (len - sent) >=? len) eqn:Ec; zbool.
      * rewrite send_loop_done in Hj by lia. simpl in Hj. lia.
      * cbn [fr_grp fr_cmd]. apply IH; try assumption; try lia.
Qed.

End FastPacketLoop.

Section FastPacketHead.

Variables ms pgn prio sa : Z.
Variable payload : list Z.

Local Abbreviation len := (Z.of_nat (length payload)).
Local Abbreviation sq := (u8 (Z.land (Z.shiftr ms 5) 0x07)).
Local Abbreviation id := (n2k_id prio pgn SA).

Lemma seq_range : 0 <= sq < 8.
Proof.
  change 0x07 with (2 ^ 3 - 1). rewrite land_low_mod by lia.
  unfold u8. pose proof (Z.mod_pos_bound (Z.shiftr ms 5) (2 ^ 3) eq_refl).
  rewrite Z.mod_small; lia.
Qed.

Lemma send_fast_frames :
  len <= 255 ->
  n2k_send_fast ms pgn payload len prio
  = CanTx id (sender_head sq len payload)
      :: n2k_send_fast_loop (length payload) id sq payload len
           (Z.min 6 len) 1.
Proof.
  intros Hl. unfold n2k_send_fast. cbv zeta.
  pose proof seq_range as Hsq.
  destruct (byte0_fields sq 0 Hsq ltac:(lia)) as (E0 & _ & _).
  change (Z.land 0 31) with 0 in E0. rewrite E0, Z.add_0_r.
  assert (Et : (if len >? 6 then 6 else len) = Z.min 6 len).
  { destruct (len >? 6) eqn:E; zbool; lia. }
  rewrite Et, Nat2Z.id.
  f_equal. unfold twai_tx, sender_head. f_equal.
  change (memset 0xFF 6) with (repeat 0xFF 6).
  assert (E8 : u8 len = len) by (unfold u8; apply Z.mod_small; lia).
  rewrite E8.
  rewrite memcpy_splice by (cbn [length repeat]; lia).
  rewrite read_bytes_firstn by lia.
  change (Z.to_nat 2) with 2%nat. change (Z.to_nat 8) with 8%nat.
  change (firstn 2 (sq * 32 :: len :: repeat 0xFF 6))
    with [sq * 32; len].
  change (skipn (2 + Z.to_nat (Z.min 6 len))
            (sq * 32 :: len :: repeat 0xFF 6))
    with (skipn (Z.to_nat (Z.min 6 len)) (repeat 0xFF 6)).
  rewrite skipn_repeat. apply firstn_all2.
  cbn [app length]. rewrite length_app, length_firstn, repeat_length. lia.
Qed.

Lemma head_length : length (sender_head sq len payload) = 8%nat.
Proof.
  unfold sender_head. cbn [length].
  rewrite length_app, length_firstn, repeat_length. lia.
Qed.

(** The idle receiver takes the first frame. *)
Lemma feed_sender_head :
  len <= 120 ->
  exists buf,
    length buf = 120%nat
    /\ firstn (Z.to_nat (Z.min 6 len)) buf
       = firstn (Z.to_nat (Z.min 6 len)) payload
    /\ feed_126208 gf_reset sa (sender_head sq len payload)
         (Z.of_nat (length (sender_head sq len payload)))
       = if len <=? 6
         then mkFeed gf_reset (Some payload) (Some (0, len))
         else mkFeed (mkFPBuf true sa sq len 1 6 buf) None (Some (0, 6)).
Proof.
  intros Hl. pose proof seq_range as Hsq.
  destruct (byte0_fields sq 0 Hsq ltac:(lia)) as (_ & Efi & Esq).
  rewrite Z.add_0_r in Efi, Esq.
  set (buf := memcpy (fp_buf gf_reset) 0
                (ptr_add (sender_head sq len payload) 2) (Z.min 6 len)).
  assert (Hpre : firstn (Z.to_nat (Z.min 6 len)) buf
                 = firstn (Z.to_nat (Z.min 6 len)) payload).
  { unfold buf.
    rewrite memcpy_splice
      by (change (length (fp_buf gf_reset)) with 120%nat; lia).
    change (Z.to_nat 0) with 0%nat. cbn [firstn app].
    rewrite firstn_app, read_bytes_length, Nat.sub_diag. cbn [firstn].
    rewrite app_nil_r.
    rewrite <- (read_bytes_length
                  (ptr_add (sender_head sq len payload) 2)
                  (Z.to_nat (Z.min 6 len))) at 1.
    rewrite firstn_all.
    unfold ptr_add, sender_head. change (Z.to_nat 2) with 2%nat.
    cbn [skipn]. apply read_bytes_app.
    rewrite length_firstn. lia. }
  exists buf. split; [unfold buf; apply memcpy_length |].
  split; [exact Hpre |].
  rewrite head_length. unfold feed_126208.
  change (Z.of_nat 8 <? 2) with false. cbv iota.
  assert (E0 : byte_at (sender_head sq len payload) 0 = sq * 32)
    by reflexivity.
  assert (E1 : byte_at (sender_head sq len payload) 1 = len)
    by reflexivity.
  rewrite E0, E1, Efi, Esq. change (0 =? 0) with true. cbv iota.
  replace (len >? FPBUF_SIZE) with false
    by (symmetry; rewrite Z.gtb_ltb; apply Z.ltb_ge; unfold FPBUF_SIZE; lia).
  fold buf.
  assert (Eu : u8 (Z.min 6 len) = Z.min 6 len)
    by (unfold u8; apply Z.mod_small; lia).
  rewrite Eu.
  destruct (len <=? 6) eqn:E6; zbool.
  - replace (Z.min 6 len >=? len) with true
      by (symmetry; rewrite Z.geb_leb; apply Z.leb_le; lia).
    replace (Z.min 6 len) with len in * by lia.
    f_equal. f_equal. rewrite Hpre, Nat2Z.id. apply firstn_all.
  - replace (Z.min 6 len >=? len) with false
      by (symmetry; rewrite Z.geb_leb; apply Z.leb_gt; lia).
    replace (Z.min 6 len) with 6 by lia. reflexivity.
Qed.

(** Every payload that fits the 120-byte buffer comes back. *)
Lemma roundtrip_within_capacity :
  len <= 120 ->
  decodeFastPacket sa (n2k_send_fast ms pgn payload len prio) = [payload].
Proof.
  intros Hl. unfold decodeFastPacket.
  rewrite send_fast_frames by lia. cbn [map can_data].
  rewrite feed_frames_cons. cbv zeta.
  destruct (feed_sender_head Hl) as (buf & Hb & Hp & E). rewrite E.
  destruct (len <=? 6) eqn:E6; zbool; cbn [fr_grp fr_cmd snd].
  - rewrite send_loop_done by lia. reflexivity.
  - replace (Z.min 6 len) with 6 in * by lia.
    rewrite (loop_roundtrip id sq sa len payload seq_range eq_refl);
      try assumption; try lia.
    reflexivity.
Qed.

(** A payload longer than the buffer is dropped as a whole. *)
Lemma dropped_beyond_capacity :
  120 < len <= 223 ->
  decodeFastPacket sa (n2k_send_fast ms pgn payload len prio) = [].
Proof.
  intros Hl. unfold decodeFastPacket.
  rewrite send_fast_frames by lia. cbn [map can_data].
  rewrite feed_frames_cons. cbv zeta. rewrite head_length.
  pose proof seq_range as Hsq.
  destruct (byte0_fields sq 0 Hsq ltac:(lia)) as (_ & Efi & _).
  rewrite Z.add_0_r in Efi.
  assert (E : feed_126208 gf_reset sa (sender_head sq len payload)
                (Z.of_nat 8) = mkFeed gf_reset None None).
  { unfold feed_126208. change (Z.of_nat 8 <? 2) with false. cbv iota.
    assert (E0 : byte_at (sender_head sq len payload) 0 = sq * 32)
      by reflexivity.
    assert (E1 : byte_at (sender_head sq len payload) 1 = len)
      by reflexivity.
    rewrite E0, E1, Efi. change (0 =? 0) with true. cbv iota.
    replace (len >? FPBUF_SIZE) with true; [reflexivity |].
    symmetry. rewrite Z.gtb_ltb. apply Z.ltb_lt. unfold FPBUF_SIZE. lia. }
  rewrite E. cbn [fr_grp fr_cmd snd].
  replace (Z.min 6 len) with 6 by lia.
  apply loop_dropped; try lia; reflexivity.
Qed.

(** With the index of one frame bumped, a payload that fits the buffer
    is not delivered. *)
Lemma bumped_not_delivered (k : nat) :
  len <= 120 ->
  (k < length (n2k_send_fast ms pgn payload len prio))%nat ->
  snd (feed_frames gf_reset sa
         (bump_nth k
            (map can_data (n2k_send_fast ms pgn payload len prio))))
  = [].
Proof.
  intros Hl. rewrite send_fast_frames by lia. cbn [map can_data length].
  intros Hk. pose proof seq_range as Hsq. destruct k as [| j].
  - unfold sender_head at 1. cbn [bump_nth bump_index].
    rewrite <- (Z.add_0_r (sq * 32)) at 1 2.
    rewrite byte0_bumped by lia.
    change ((0 + 1) mod 32) with 1.
    rewrite feed_frames_cons. cbv zeta.
    destruct (byte0_fields sq 1 Hsq ltac:(lia)) as (_ & Efi & _).
    rewrite feed_rejected;
      [| cbn [length]; lia
       | unfold byte_at; cbn [nth Z.to_nat]; rewrite Efi; lia
       | left; reflexivity].
    cbn [fr_grp fr_cmd].
    destruct (Z.le_gt_cases len 6) as [H6 | H6].
    + rewrite send_loop_done by lia. reflexivity.
    + replace (Z.min 6 len) with 6 by lia.
      apply loop_dropped; try lia; reflexivity.
  - cbn [bump_nth]. rewrite feed_frames_cons. cbv zeta.
    destruct (feed_sender_head Hl) as (buf & Hb & Hp & E). rewrite E.
    destruct (len <=? 6) eqn:E6; zbool; cbn [fr_grp fr_cmd snd].
    + rewrite send_loop_done in Hk by lia. simpl in Hk. lia.
    + replace (Z.min 6 len) with 6 in * by lia.
      apply loop_bumped; try assumption; try lia; reflexivity.
Qed.

End FastPacketHead.

(** C1 (as amended).  The frames of [n2k_send_fast], fed in order to the
    command reassembler from an idle buffer:
    - for every payload of at most 120 bytes (the capacity of the buffer;
      lengths 9 and 50 are instances) exactly one command is delivered and
      it is the payload; and if the index of one frame is one too high
      (it advances by 2 instead of 1), nothing is delivered;
    - for every payload of 121 to 223 bytes (length 223 is an instance)
      nothing is delivered: the first frame declares more than the buffer
      holds and the assembly is dropped. *)
Theorem fast_packet_roundtrip_up_to_capacity
  (ms pgn prio sa : Z) (payload : list Z) :
  let len := Z.of_nat (length payload) in
  let frames := n2k_send_fast ms pgn payload len prio in
  (len <= 120 ->
   decodeFastPacket sa frames = [payload]
   /\ forall k, (k < length frames)%nat ->
        snd (feed_frames gf_reset sa (bump_nth k (map can_data frames))) = [])
  /\ (120 < len <= 223 -> decodeFastPacket sa frames = []).
Proof.
  intros len frames. split.
  - intros Hl. split.
    + apply roundtrip_within_capacity. exact Hl.
    + intros k Hk. apply bumped_not_delivered; assumption.
  - intros Hl. apply dropped_beyond_capacity. exact Hl.
Qed.

Lemma fast_packet_roundtrip_up_to_capacity_witness :
  Z.of_nat (length [1; 2; 3; 4; 5; 6; 7; 8; 9]) <= 120
  /\ decodeFastPacket SA
       (n2k_send_fast 1000 PGN_CMD_GROUP [1; 2; 3; 4; 5; 6; 7; 8; 9] 9 6)
     = [[1; 2; 3; 4; 5; 6; 7; 8; 9]].
Proof.
  assert (H : Z.of_nat (length [1; 2; 3; 4; 5; 6; 7; 8; 9]) <= 120)
    by (simpl; lia).
  split; [exact H |].
  exact (proj1 (proj1 (fast_packet_roundtrip_up_to_capacity
                         1000 PGN_CMD_GROUP 6 SA [1; 2; 3; 4; 5; 6; 7; 8; 9])
                  H)).
Defined.

(** C1 as stated fails at 223 bytes: the frames of a 223-byte payload do
    not give the payload back (nothing is delivered). *)
Lemma fast_packet_223_not_reassembled :
  length (repeat 0xAA 223) = 223%nat
  /\ decodeFastPacket SA
       (n2k_send_fast 0 PGN_PRODUCT_INFO (repeat 0xAA 223) 223 6)
     <> [repeat 0xAA 223].
Proof. split; [reflexivity |]. vm_compute. discriminate. Qed.

(** ** The pilot state under commands *)

Lemma emit_all_eq (os : list output) (w : World) :
  emit_all os w =
  mkWorld (currentMode w) (headingRef w) (hdg_deg_now w) (locked_hdg_deg w)
    (xte_nm w) (dtw_nm w) (cog_mag_deg w) (sog_kn w) (awa_deg w) (aws_kn w)
    (stw_kn w) (grp w) (tx w ++ os).
Proof.
  unfold emit_all. revert w. induction os as [| o os IH]; intros w.
  - simpl. rewrite app_nil_r. destruct w; reflexivity.
  - simpl. rewrite IH. unfold emit. simpl. rewrite <- app_assoc. reflexivity.
Qed.

(** The exhaustive check of the 65536 raw angles. *)
Lemma heading_checked_all :
  forallb (fun hi =>
             forallb (fun lo => heading_checked (hi * 256 + lo))
               (map Z.of_nat (seq 0 256)))
    (map Z.of_nat (seq 0 256)) = true.
Proof. vm_compute. reflexivity. Qed.

Lemma heading_checked_raw (raw : Z) :
  0 <= raw < 65536 -> heading_checked raw = true.
Proof.
  intros Hr.
  pose proof (forallb_range _ 256 heading_checked_all (raw / 256)
                ltac:(Z.div_mod_to_equations; lia)) as H.
  cbv beta in H.
  pose proof (forallb_range _ 256 H (raw mod 256)
                ltac:(Z.div_mod_to_equations; lia)) as H'.
  cbv beta in H'.
  replace (raw / 256 * 256 + raw mod 256) with raw in H'
    by (Z.div_mod_to_equations; lia).
  exact H'.
Qed.

Lemma normalize360_raw (raw : Z) :
  0 <= raw < 65536 ->
  exists h,
    normalize360 2 (raw_to_deg raw) = Some h
    /\ F32.leb (F32.of_Z 0) h = true
    /\ F32.ltb h (F32.of_Z 360) = true
    /\ (exists h', normalize360 2 h = Some h')
    /\ F32.isfinite (raw_to_deg raw) = true.
Proof.
  intros Hr. pose proof (heading_checked_raw raw Hr) as H.
  unfold heading_checked in H. cbv zeta in H.
  apply andb_true_iff in H. destruct H as [Hfin H].
  destruct (normalize360 2 (raw_to_deg raw)) as [h |]; [| discriminate].
  apply andb_true_iff in H. destruct H as [H H2].
  apply andb_true_iff in H. destruct H as [H0 H1].
  exists h. repeat split; try assumption.
  destruct (normalize360 2 h) as [h' |]; [| discriminate].
  exists h'. reflexivity.
Qed.

(** More fuel does not change the result of a loop that has ended. *)
Lemma wrap_negative_more (k : nat) :
  forall d r k', wrap_negative k d = Some r -> (k <= k')%nat ->
                 wrap_negative k' d = Some r.
Proof.
  induction k as [| k IH]; intros d r k' H Hk; [discriminate |].
  destruct k' as [| k']; [lia |]. cbn [wrap_negative] in *.
  destruct (F32.ltb d (F32.of_Z 0)); [| exact H].
  apply (IH _ _ k' H). lia.
Qed.

Lemma wrap_full_turn_more (k : nat) :
  forall d r k', wrap_full_turn k d = Some r -> (k <= k')%nat ->
                 wrap_full_turn k' d = Some r.
Proof.
  induction k as [| k IH]; intros d r k' H Hk; [discriminate |].
  destruct k' as [| k']; [lia |]. cbn [wrap_full_turn] in *.
  destruct (F32.geb d (F32.of_Z 360)); [| exact H].
  apply (IH _ _ k' H). lia.
Qed.

Lemma normalize360_more (k k' : nat) (d r : f32) :
  normalize360 k d = Some r -> (k <= k')%nat -> normalize360 k' d = Some r.
Proof.
  unfold normalize360. intros H Hk.
  destruct (wrap_negative k d) as [x |] eqn:E; [| discriminate].
  rewrite (wrap_negative_more k d x k' E Hk).
  apply (wrap_full_turn_more k x r k' H Hk).
Qed.

Lemma u16le_range (b : list Z) (i : Z) : 0 <= u16le b i < 65536.
Proof. unfold u16le, u16. apply Z.mod_pos_bound. lia. Qed.

Lemma gf65360_scan_raw (k : nat) (b : list Z) (n : Z) :
  forall i d, gf65360_scan k b n i = Some d ->
              exists raw, 0 <= raw < 65536 /\ d = raw_to_deg raw.
Proof.
  induction k as [| k IH]; intros i d H; [discriminate |].
  cbn [gf65360_scan] in H.
  destruct (i <=? n - 3); [| discriminate].
  destruct (byte_at b i =? 6).
  - inversion H. exists (u16le b (i + 1)).
    split; [apply u16le_range | reflexivity].
  - apply (IH _ _ H).
Qed.

Lemma command_effect_refl (w : World) : command_effect w w.
Proof. unfold command_effect. auto. Qed.

Lemma command_effect_trans (a b c : World) :
  command_effect a b -> command_effect b c -> command_effect a c.
Proof.
  unfold command_effect.
  intros (H1 & G1 & S1 & L1) (H2 & G2 & S2 & L2).
  split; [congruence |]. split; [congruence |]. split; [auto |].
  destruct L2 as [L2 | [L2 | L2]]; rewrite L2; auto.
Qed.

Ltac mode_cases w :=
  rewrite ?emit_all_eq; unfold command_effect, standby_unlocked;
  cbn [currentMode headingRef hdg_deg_now locked_hdg_deg grp tx
       set_mode set_ref set_locked];
  repeat split; auto; try discriminate.

Lemma apply_selector_effect (sel : Z) (w : World) :
  command_effect w (apply_selector sel w).
Proof.
  unfold apply_selector, selector_mode.
  destruct (sel =? 0x00), (sel =? 0x40), (sel =? 0x01), (sel =? 0x80),
    (currentMode w) eqn:Em; cbn [PilotMode_eqb negb];
    try apply command_effect_refl; mode_cases w;
    unfold standby_unlocked; rewrite Em; discriminate.
Qed.

Lemma apply_selector_mode (sel : Z) (w : World) :
  is_mode_code sel = false ->
  currentMode (apply_selector sel w) = currentMode w.
Proof.
  unfold is_mode_code, apply_selector, selector_mode.
  destruct (sel =? 0x00), (sel =? 0x40), (sel =? 0x01), (sel =? 0x80);
    try discriminate.
  intros _.
  destruct (currentMode w) eqn:E; cbn [PilotMode_eqb negb]; exact E.
Qed.

Lemma apply_button_effect (code : Z) (w : World) :
  command_effect w (fst (apply_button code w)).
Proof.
  unfold apply_button.
  destruct (code =? 0x00), (code =? 0x40), (code =? 0x01), (code =? 0x80),
    (code =? 0x51), (code =? 0x7F), (code =? 0xD1), (code =? 0x50);
    cbn [fst]; try apply command_effect_refl; mode_cases w.
Qed.

Lemma apply_button_mode (code : Z) (w : World) :
  is_mode_code code = false ->
  currentMode (fst (apply_button code w)) = currentMode w.
Proof.
  unfold is_mode_code, apply_button.
  destruct (code =? 0x00), (code =? 0x40), (code =? 0x01), (code =? 0x80);
    try discriminate.
  intros _.
  destruct (code =? 0x51), (code =? 0x7F), (code =? 0xD1), (code =? 0x50);
    cbn [fst]; rewrite ?emit_all_eq; reflexivity.
Qed.

Lemma selector_loop_effect (k : nat) (b : list Z) (n : Z) :
  forall i w did, command_effect w (fst (selector_loop k b n i w did)).
Proof.
  induction k as [| k IH]; intros i w did; cbn [selector_loop].
  - apply command_effect_refl.
  - destruct (i <=? n - 3); [| apply command_effect_refl].
    destruct ((byte_at b i =? 4) && (byte_at b (i + 1) =? 4)).
    + eapply command_effect_trans; [apply apply_selector_effect | apply IH].
    + apply IH.
Qed.

Lemma button_loop_effect (k : nat) (b : list Z) (n : Z) :
  forall i w did, command_effect w (fst (button_loop k b n i w did)).
Proof.
  induction k as [| k IH]; intros i w did; cbn [button_loop].
  - apply command_effect_refl.
  - destruct (i <=? n - 3); [| apply command_effect_refl].
    destruct (byte_at b i =? 6); [| apply IH].
    pose proof (apply_button_effect (byte_at b (i + 1)) w) as E.
    destruct (apply_button (byte_at b (i + 1)) w) as [w' d]. cbn [fst] in E.
    eapply command_effect_trans; [exact E | apply IH].
Qed.

Lemma apply_rm_effect (b : list Z) (n : Z) (w : World) :
  command_effect w (fst (apply_rm_selector_or_button b n w)).
Proof.
  unfold apply_rm_selector_or_button.
  pose proof (selector_loop_effect (Z.to_nat (n - 2)) b n 0 w false) as E.
  destruct (selector_loop (Z.to_nat (n - 2)) b n 0 w false) as [w1 d1].
  cbn [fst] in E.
  eapply command_effect_trans; [exact E | apply button_loop_effect].
Qed.

Lemma selector_loop_mode (k : nat) (b : list Z) (n : Z) :
  forall i w did,
    0 <= i ->
    (forall j, i <= j <= n - 3 ->
       byte_at b j = 0x04 -> byte_at b (j + 1) = 0x04 ->
       is_mode_code (byte_at b (j + 2)) = false) ->
    currentMode (fst (selector_loop k b n i w did)) = currentMode w.
Proof.
  induction k as [| k IH]; intros i w did Hi H; cbn [selector_loop].
  - reflexivity.
  - destruct (i <=? n - 3) eqn:Ei; [| reflexivity]. zbool.
    destruct ((byte_at b i =? 4) && (byte_at b (i + 1) =? 4)) eqn:E.
    + zbool. rewrite IH; [| lia | intros j Hj; apply H; lia].
      apply apply_selector_mode. apply H; [lia | assumption | assumption].
    + apply IH; [lia | intros j Hj; apply H; lia].
Qed.

Lemma button_loop_mode (k : nat) (b : list Z) (n : Z) :
  forall i w did,
    0 <= i ->
    (forall j, i <= j <= n - 3 ->
       byte_at b j = 0x06 -> is_mode_code (byte_at b (j + 1)) = false) ->
    currentMode (fst (button_loop k b n i w did)) = currentMode w.
Proof.
  induction k as [| k IH]; intros i w did Hi H; cbn [button_loop].
  - reflexivity.
  - destruct (i <=? n - 3) eqn:Ei; [| reflexivity]. zbool.
    destruct (byte_at b i =? 6) eqn:E.
    + zbool.
      pose proof (apply_button_mode (byte_at b (i + 1)) w
                    (H i ltac:(lia) E)) as M.
      destruct (apply_button (byte_at b (i + 1)) w) as [w' d].
      cbn [fst] in M. rewrite IH; [exact M | lia |].
      intros j Hj. apply H. lia.
    + apply IH; [lia | intros j Hj; apply H; lia].
Qed.

Lemma apply_rm_mode (b : list Z) (n : Z) (w : World) :
  no_mode_command b n ->
  currentMode (fst (apply_rm_selector_or_button b n w)) = currentMode w.
Proof.
  intros H. unfold apply_rm_selector_or_button.
  pose proof (selector_loop_mode (Z.to_nat (n - 2)) b n 0 w false
                ltac:(lia)
                (fun j Hj => proj1 (H j Hj))) as M.
  destruct (selector_loop (Z.to_nat (n - 2)) b n 0 w false) as [w1 d1].
  cbn [fst] in M.
  rewrite button_loop_mode; [exact M | lia |].
  intros j Hj. apply (proj2 (H j Hj)).
Qed.

(** What [handle_126208_full] does with a locked-heading write. *)
Lemma handle_full_heading_write (fuel : nat) (ms : Z) (b : list Z) (n : Z)
  (w : World) (d : f32) :
  writes_locked_heading b n = true ->
  gf65360_extractMagHeading (ptr_add b 4) (n - 4) = Some d ->
  handle_126208_full fuel ms b n w =
  match normalize360 fuel d with
  | Some h =>
      Some (set_locked h (fst (apply_rm_selector_or_button (ptr_add b 4)
                                 (n - 4) w)))
  | None => None
  end.
Proof.
  intros Hw Hd. unfold writes_locked_heading in Hw.
  apply andb_true_iff in Hw. destruct Hw as [Hw _].
  apply andb_true_iff in Hw. destruct Hw as [Hw Ht].
  apply andb_true_iff in Hw. destruct Hw as [Hn Hf].
  unfold handle_126208_full.
  replace (n <? 4) with false by (symmetry; apply Z.ltb_ge; zbool; lia).
  apply negb_true_iff in Hf. rewrite Hf.
  fold (command_target b). rewrite Ht, orb_true_r.
  destruct (apply_rm_selector_or_button (ptr_add b 4) (n - 4) w) as [w1 acted].
  rewrite Hd. reflexivity.
Qed.

(** The heading of a heading write: a write command for PGN 65360 that
    carries a heading field [06 lo hi] (enough fuel given: two rounds per
    loop) sets the locked heading to the 16-bit value converted to
    degrees and wrapped by the two loops, and the result lies in
    [0, 360). *)
Lemma heading_write_sets_locked (fuel : nat) (ms : Z) (b : list Z) (n : Z)
  (w : World) :
  (2 <= fuel)%nat ->
  writes_locked_heading b n = true ->
  exists raw h w',
    0 <= raw < 65536
    /\ gf65360_extractMagHeading (ptr_add b 4) (n - 4) = Some (raw_to_deg raw)
    /\ normalize360 fuel (raw_to_deg raw) = Some h
    /\ handle_126208_full fuel ms b n w = Some w'
    /\ locked_hdg_deg w' = h
    /\ F32.leb (F32.of_Z 0) h = true
    /\ F32.ltb h (F32.of_Z 360) = true.
Proof.
  intros Hfuel Hw.
  destruct (gf65360_extractMagHeading (ptr_add b 4) (n - 4)) as [d |] eqn:Hd.
  2:{ unfold writes_locked_heading in Hw. rewrite Hd in Hw.
      rewrite andb_false_r in Hw. discriminate. }
  destruct (gf65360_scan_raw _ _ _ _ _ Hd) as (raw & Hr & ->).
  destruct (normalize360_raw raw Hr) as (h & Hn & H0 & H360 & _ & _).
  pose proof (normalize360_more 2 fuel _ _ Hn Hfuel) as Hn'.
  exists raw, h.
  exists (set_locked h (fst (apply_rm_selector_or_button (ptr_add b 4)
                               (n - 4) w))).
  split; [exact Hr |]. split; [reflexivity |]. split; [exact Hn' |].
  split.
  { rewrite (handle_full_heading_write fuel ms b n w _ Hw Hd), Hn'.
    reflexivity. }
  split; [reflexivity |]. split; [exact H0 |]. exact H360.
Qed.

(** C7.  The code breaks the claim at the heading write
    [00 50 FF 00 06 40 00] (PGN 65360, heading field [06 40 00], raw angle
    64): [handle_126208_full] runs the button scan over the same bytes
    first, and the scan reads the marker and the low byte of the angle as
    the button [06 40].  From Standby the command stores the heading
    (raw angle 64, already in [0, 360)), as the claim says, but the mode
    becomes Auto and the Auto keystroke goes out twice with a 65379
    frame.  The same command with the angle 10000 ([06 10 27]) stores its
    heading, leaves the mode Standby and transmits nothing. *)
Theorem heading_low_byte_read_as_button :
  let b := [0x00; 0x50; 0xFF; 0x00; 0x06; 0x40; 0x00] in
  let sibling := [0x00; 0x50; 0xFF; 0x00; 0x06; 0x10; 0x27] in
  writes_locked_heading b 7 = true
  /\ writes_locked_heading sibling 7 = true
  /\ currentMode initial_world = PM_STBY
  /\ (exists w',
        handle_126208_full 2 0 b 7 initial_world = Some w'
        /\ locked_hdg_deg w' = raw_to_deg 64
        /\ normalize360 2 (raw_to_deg 64) = Some (raw_to_deg 64)
        /\ currentMode w' = PM_AUTO
        /\ tx w'
           = [StTx [0x86; 0x21; 0x01; 0xFE]; StTx [0x86; 0x21; 0x01; 0xFE]]
             ++ send_65379_mode PM_AUTO)
  /\ (exists w',
        handle_126208_full 2 0 sibling 7 initial_world = Some w'
        /\ locked_hdg_deg w' = raw_to_deg 10000
        /\ normalize360 2 (raw_to_deg 10000) = Some (raw_to_deg 10000)
        /\ currentMode w' = PM_STBY
        /\ tx w' = []).
Proof.
  intros b sibling.
  split; [vm_compute; reflexivity |].
  split; [vm_compute; reflexivity |].
  split; [reflexivity |].
  split.
  - eexists. split; [vm_compute; reflexivity |].
    repeat split; vm_compute; reflexivity.
  - eexists. split; [vm_compute; reflexivity |].
    repeat split; vm_compute; reflexivity.
Qed.

Lemma st_send_keystroke_bytes (code : Z) :
  0 <= code < 256 ->
  st_send_keystroke code = [StTx [0x86; 0x21; code; 255 - code]].
Proof.
  intros Hc. unfold st_send_keystroke, st_write_datagram.
  change (4 =? 0) with false. cbv iota zeta.
  change (Z.to_nat 4) with 4%nat. cbn [firstn].
  change (u8 (Z.lor (Z.shiftl ST_SENDER_NIB 4) 1)) with 0x21.
  unfold Z.lnot, u8.
  replace (Z.pred (- code)) with (255 - code + (-1) * 256) by lia.
  rewrite Z.mod_add by lia. rewrite Z.mod_small by lia.
  reflexivity.
Qed.

(** C5.  In Standby, the Auto selector [04 04 40] switches the mode to
    Auto (heading reference magnetic), sets the locked heading to the
    current heading, and puts on the SeaTalk bus exactly two datagrams,
    both the "auto" keystroke [86 21 01 FE]: four bytes, the fourth the
    bitwise complement of the third; the mode frame 65379 follows on the
    CAN bus.  Any write command (function code other than 0x01) for PGN
    65379 with these parameter bytes does exactly this. *)
Theorem auto_selector_from_standby (w : World) :
  currentMode w = PM_STBY ->
  let r := apply_rm_selector_or_button [0x04; 0x04; 0x40] 3 w in
  let key := [0x86; 0x21; ST_CODE_AUTO; u8 (Z.lnot ST_CODE_AUTO)] in
  snd r = true
  /\ currentMode (fst r) = PM_AUTO
  /\ headingRef (fst r) = REF_MAG
  /\ locked_hdg_deg (fst r) = hdg_deg_now w
  /\ tx (fst r) = tx w ++ [StTx key; StTx key] ++ send_65379_mode PM_AUTO
  /\ st_press ST_CODE_AUTO = [StTx key; StTx key]
  /\ length key = 4%nat
  /\ byte_at key 3 = u8 (Z.lnot (byte_at key 2))
  /\ key = [0x86; 0x21; 0x01; 0xFE]
  /\ (forall fuel ms func, func <> 0x01 ->
        handle_126208_full fuel ms [func; 0x63; 0xFF; 0x00; 0x04; 0x04; 0x40]
          7 w = Some (fst r)).
Proof.
  intros Hm r key.
  assert (Er : r = (mkWorld PM_AUTO REF_MAG (hdg_deg_now w) (hdg_deg_now w)
                      (xte_nm w) (dtw_nm w) (cog_mag_deg w) (sog_kn w)
                      (awa_deg w) (aws_kn w) (stw_kn w) (grp w)
                      (tx w ++ [StTx key; StTx key] ++ send_65379_mode PM_AUTO),
                    true)).
  { subst r. unfold apply_rm_selector_or_button.
    change (Z.to_nat (3 - 2)) with 1%nat.
    cbn [selector_loop button_loop].
    change (0 <=? 3 - 3) with true.
    change (byte_at [4; 4; 64] 0) with 4.
    change (byte_at [4; 4; 64] (0 + 1)) with 4.
    change (byte_at [4; 4; 64] (0 + 2)) with 64.
    change (4 =? 4) with true. change (4 =? 6) with false.
    cbn [andb]. cbv iota.
    unfold apply_selector, selector_mode. rewrite Hm.
    change (64 =? 0) with false. change (64 =? 64) with true.
    cbv iota. cbn [PilotMode_eqb negb].
    rewrite !emit_all_eq.
    cbn [currentMode headingRef hdg_deg_now locked_hdg_deg xte_nm dtw_nm
         cog_mag_deg sog_kn awa_deg aws_kn stw_kn grp tx set_locked
         set_mode set_ref].
    rewrite <- app_assoc. reflexivity. }
  rewrite Er. cbn [fst snd currentMode headingRef locked_hdg_deg tx].
  repeat split; try reflexivity.
  intros fuel ms func Hf. unfold handle_126208_full.
  change (7 <? 4) with false. cbv iota.
  change (byte_at (func :: ?l) 0) with func.
  replace (func =? 1) with false by (symmetry; apply Z.eqb_neq; exact Hf).
  change (ptr_add [func; 99; 255; 0; 4; 4; 64] 4) with [4; 4; 64].
  change (7 - 4) with 3. fold r. rewrite Er. reflexivity.
Qed.

Lemma auto_selector_from_standby_witness :
  currentMode initial_world = PM_STBY
  /\ currentMode
       (fst (apply_rm_selector_or_button [0x04; 0x04; 0x40] 3 initial_world))
     = PM_AUTO.
Proof.
  assert (H : currentMode initial_world = PM_STBY) by reflexivity.
  split; [exact H |].
  exact (proj1 (proj2 (auto_selector_from_standby initial_world H))).
Defined.

(** ** Standby and the locked heading *)

Lemma some_eq (A : Type) (x y : A) : Some x = Some y -> x = y.
Proof. intros H. inversion H. reflexivity. Qed.


Lemma request_keeps_pilot (fuel : nat) (ms target : Z) (w w' : World) :
  handle_126208_request fuel ms target w = Some w' ->
  currentMode w' = currentMode w
  /\ locked_hdg_deg w' = locked_hdg_deg w
  /\ hdg_deg_now w' = hdg_deg_now w
  /\ grp w' = grp w.
Proof.
  unfold handle_126208_request.
  destruct (target =? 65379).
  { intros H. apply some_eq in H. subst w'. rewrite emit_all_eq.
    cbn [currentMode locked_hdg_deg hdg_deg_now grp]. auto. }
  destruct (target =? 65360).
  { destruct (negb (F32.isnan (locked_hdg_deg w))).
    - destruct (send_65360_locked_heading fuel (locked_hdg_deg w));
        [| discriminate].
      intros H. apply some_eq in H. subst w'. rewrite emit_all_eq.
    cbn [currentMode locked_hdg_deg hdg_deg_now grp]. auto.
    - intros H. apply some_eq in H. subst w'. auto. }
  destruct (target =? 126996).
  { intros H. apply some_eq in H. subst w'. rewrite emit_all_eq.
    cbn [currentMode locked_hdg_deg hdg_deg_now grp]. auto. }
  destruct (target =? 60928).
  { intros H. apply some_eq in H. subst w'. rewrite emit_all_eq.
    cbn [currentMode locked_hdg_deg hdg_deg_now grp]. auto. }
  intros H. apply some_eq in H. subst w'. auto.
Qed.

Lemma handle_full_standby (fuel : nat) (ms : Z) (b : list Z) (n : Z)
  (w w' : World) :
  standby_unlocked w ->
  handle_126208_full fuel ms b n w = Some w' ->
  writes_locked_heading b n = false ->
  standby_unlocked w'.
Proof.
  intros Hinv H Hw. unfold handle_126208_full in H.
  unfold writes_locked_heading in Hw.
  destruct (n <? 4) eqn:En; [apply some_eq in H; subst w'; exact Hinv |].
  replace (4 <=? n) with true in Hw
    by (symmetry; apply Z.leb_le; zbool; lia).
  destruct (byte_at b 0 =? 1) eqn:Ef.
  { destruct (request_keeps_pilot _ _ _ _ _ H) as (Hm & Hl & _).
    unfold standby_unlocked. rewrite Hm, Hl. exact Hinv. }
  fold (command_target b) in H. cbn [negb andb] in Hw.
  destruct ((command_target b =? PGN_RM_PILOT_MODE)
            || (command_target b =? PGN_RM_LOCKED_HEADING)) eqn:Et;
    [| apply some_eq in H; subst w'; exact Hinv].
  pose proof (apply_rm_effect (ptr_add b 4) (n - 4) w) as E.
  destruct (apply_rm_selector_or_button (ptr_add b 4) (n - 4) w)
    as [w1 acted].
  cbn [fst] in E. destruct E as (_ & _ & Hs & _).
  destruct (command_target b =? PGN_RM_LOCKED_HEADING).
  - destruct (gf65360_extractMagHeading (ptr_add b 4) (n - 4));
      [discriminate |].
    apply some_eq in H. subst w'. apply Hs, Hinv.
  - apply some_eq in H. subst w'. apply Hs, Hinv.
Qed.

Lemma loop_rx_standby (fuel : nat) (ms : Z) (m : twai_message)
  (w w' : World) :
  standby_unlocked w ->
  loop_rx fuel ms m w = Some w' ->
  heading_written w m = false ->
  standby_unlocked w'.
Proof.
  intros Hinv H Hw. unfold loop_rx in H.
  unfold heading_written, completed_command in Hw.
  destruct (extd m); cbn [negb andb] in *;
    [| apply some_eq in H; subst w'; exact Hinv].
  destruct (extractPGN (identifier m) =? PGN_CMD_GROUP) eqn:Ecmd.
  { cbn [andb] in Hw. unfold handle_126208_entry in H.
    destruct (data_length_code m <=? 0) eqn:En;
      [apply some_eq in H; subst w'; exact Hinv |].
    replace (0 <? data_length_code m) with true in Hw
      by (symmetry; apply Z.ltb_lt; zbool; lia).
    destruct (Z.land (byte_at (data m) 0) 224 >=? 160).
    - eapply handle_full_standby; eassumption.
    - destruct (fr_cmd (feed_126208 (grp w)
                          (u8 (Z.land (identifier m) 255)) (data m)
                          (data_length_code m))) as [b |].
      + eapply handle_full_standby; [| exact H | exact Hw]. exact Hinv.
      + apply some_eq in H. subst w'. exact Hinv. }
  destruct (extractPGN (identifier m) =? PGN_ISO_REQUEST).
  { destruct (data_length_code m >=? 3);
      [| apply some_eq in H; subst w'; exact Hinv].
    destruct (request_keeps_pilot _ _ _ _ _ H) as (Hm & Hl & _).
    unfold standby_unlocked. rewrite Hm, Hl. exact Hinv. }
  repeat match type of H with
         | (if ?c then _ else _) = _ => destruct c
         end;
    apply some_eq in H; subst w'; exact Hinv.
Qed.

(** C3 (as amended).  Starting from the state after [setup] (Standby,
    magnetic reference, locked heading NaN), after any sequence of
    received frames, commands and telemetry alike, the locked heading is
    NaN whenever the mode is Standby, provided that no locked-heading
    write (a write command for PGN 65360 carrying a heading value) was
    completed by a frame that left the pilot in Standby: such a write sets
    the locked heading in every mode. *)
Theorem standby_has_no_locked_heading (fuel : nat) (w : World) :
  reachable_no_standby_write fuel w ->
  currentMode w = PM_STBY ->
  F32.isnan (locked_hdg_deg w) = true.
Proof.
  intros Hr. change (standby_unlocked w).
  induction Hr as [| w w' ms m _ IH Hstep Hex].
  - intros _. reflexivity.
  - destruct (heading_written w m) eqn:Hw.
    + intros Hm. exfalso. apply Hex. split; [reflexivity | exact Hm].
    + eapply loop_rx_standby; eassumption.
Qed.

Lemma standby_has_no_locked_heading_witness :
  exists w,
    run_rx 2 0
      [mkMsg (n2k_id 3 PGN_CMD_GROUP 5) true 8
         [0xA0; 0x63; 0xFF; 0x00; 0x04; 0x04; 0x40; 0xFF];
       mkMsg (n2k_id 3 PGN_CMD_GROUP 5) true 8
         [0xA0; 0x63; 0xFF; 0x00; 0x04; 0x04; 0x00; 0xFF]]
      initial_world = Some w
    /\ reachable_no_standby_write 2 w
    /\ currentMode w = PM_STBY
    /\ F32.isnan (locked_hdg_deg w) = true.
Proof.
  eexists. split; [vm_compute; reflexivity |].
  match goal with
  | |- reachable_no_standby_write 2 ?w /\ _ =>
      assert (Hr : reachable_no_standby_write 2 w)
  end.
  { eapply (reach_frame 2 _ _ 0
              (mkMsg (n2k_id 3 PGN_CMD_GROUP 5) true 8
                 [0xA0; 0x63; 0xFF; 0x00; 0x04; 0x04; 0x00; 0xFF])).
    - eapply (reach_frame 2 initial_world _ 0
                (mkMsg (n2k_id 3 PGN_CMD_GROUP 5) true 8
                   [0xA0; 0x63; 0xFF; 0x00; 0x04; 0x04; 0x40; 0xFF])).
      + apply reach_setup.
      + vm_compute. reflexivity.
      + intros [H _]. vm_compute in H. discriminate.
    - vm_compute. reflexivity.
    - intros [H _]. vm_compute in H. discriminate. }
  split; [exact Hr |]. split; [reflexivity |].
  apply (standby_has_no_locked_heading 2 _ Hr). reflexivity.
Defined.

(** C3 as stated fails: a write command for PGN 65360 with heading field
    [06 10 27], received in the initial state, leaves the mode Standby and
    the locked heading defined. *)
Lemma standby_with_locked_heading :
  exists w,
    run_rx 2 0
      [mkMsg (n2k_id 3 PGN_CMD_GROUP 5) true 8
         [0xA0; 0x50; 0xFF; 0x00; 0x06; 0x10; 0x27; 0xFF]]
      initial_world = Some w
    /\ currentMode w = PM_STBY
    /\ F32.isnan (locked_hdg_deg w) = false.
Proof.
  eexists. split; [vm_compute; reflexivity |]. split; reflexivity.
Qed.

(** ** ISO requests *)

Lemma request_unknown (fuel : nat) (ms req : Z) (w : World) :
  req <> 65379 -> req <> 65360 -> req <> 126996 -> req <> 60928 ->
  handle_126208_request fuel ms req w = Some w.
Proof.
  intros H1 H2 H3 H4. unfold handle_126208_request.
  apply Z.eqb_neq in H1, H2, H3, H4. rewrite H1, H2, H3, H4. reflexivity.
Qed.


(** ** The navigation datagram *)

(** C8 (the code at the literal case).  For cross-track error -0.25 nm,
    bearing 183.5 degrees, distance 4.30 nm and track engaged,
    [st_send_nav_0x85] writes the nine bytes
    [85 60 19 72 10 1A F7 00 F7].  Read back, the cross-track error is
    25/100 nm with the steer-right flag set, the bearing 367/2 degrees,
    the scale flag says 1/100 nm and the track nibble is 7; but the
    distance does not come back as 430/100 nm under any reading of its
    field (282, 417 or 431), and a distance of 4.31 nm gives the very same
    nine bytes. *)
Theorem nav_0x85_literal_case :
  let xte := F32.of_ratio (-1) 4 in
  let brg := F32.of_ratio 367 2 in
  let dst := F32.of_ratio 430 100 in
  let p := [0x85; 0x60; 0x19; 0x72; 0x10; 0x1A; 0xF7; 0x00; 0xF7] in
  st_send_nav_0x85 xte brg dst true = [StTx p]
  /\ length p = 9%nat
  /\ nav_xte p = 25
  /\ Z.land (nav_Y p) 0x04 = 0x04
  /\ nav_bearing p = 367
  /\ Z.land (nav_Y p) 0x01 = 0x01
  /\ nav_F p = 0x07
  /\ nav_distance_Z_ZZ p = 282
  /\ nav_distance_ZZ_Z p = 417
  /\ nav_distance_ZZ_Y p = 431
  /\ st_send_nav_0x85 xte brg (F32.of_ratio 431 100) true = [StTx p].
Proof.
  cbv zeta. repeat split; vm_compute; reflexivity.
Qed.

(** ** Enough fuel: the receive path always returns *)

Lemma normalize360_zero : normalize360 2 F32.zero = Some F32.zero.
Proof. vm_compute. reflexivity. Qed.

Lemma normalize360_locked_value (fuel : nat) (l : f32) :
  (2 <= fuel)%nat -> locked_value l -> F32.isnan l = false ->
  exists h, normalize360 fuel l = Some h.
Proof.
  intros Hf [-> | [[-> | (raw & Hr & ->)] | (raw & Hr & Hn)]] Hnan.
  - discriminate.
  - exists F32.zero.
    apply (normalize360_more 2); [apply normalize360_zero | exact Hf].
  - destruct (normalize360_raw raw Hr) as (h & Hh & _).
    exists h. apply (normalize360_more 2); assumption.
  - destruct (normalize360_raw raw Hr) as (h & Hh & _ & _ & (h' & Hh') & _).
    rewrite Hn in Hh. apply some_eq in Hh. subst h.
    exists h'. apply (normalize360_more 2); assumption.
Qed.

Lemma request_returns (fuel : nat) (ms target : Z) (w : World) :
  (2 <= fuel)%nat -> locked_value (locked_hdg_deg w) ->
  exists w', handle_126208_request fuel ms target w = Some w'.
Proof.
  intros Hf Hl. unfold handle_126208_request.
  destruct (target =? 65379); [eexists; reflexivity |].
  destruct (target =? 65360).
  { destruct (F32.isnan (locked_hdg_deg w)) eqn:En; cbn [negb];
      [eexists; reflexivity |].
    unfold send_65360_locked_heading, deg_to_rad1e4_u16. rewrite En.
    destruct (normalize360_locked_value fuel _ Hf Hl En) as (h & ->).
    eexists. reflexivity. }
  destruct (target =? 126996); [eexists; reflexivity |].
  destruct (target =? 60928); eexists; reflexivity.
Qed.

Lemma handle_full_returns (fuel : nat) (ms : Z) (b : list Z) (n : Z)
  (w : World) :
  (2 <= fuel)%nat ->
  heading_value (hdg_deg_now w) -> locked_value (locked_hdg_deg w) ->
  exists w',
    handle_126208_full fuel ms b n w = Some w'
    /\ hdg_deg_now w' = hdg_deg_now w
    /\ locked_value (locked_hdg_deg w')
    /\ grp w' = grp w.
Proof.
  intros Hf Hh Hl. unfold handle_126208_full.
  destruct (n <? 4); [exists w; auto |].
  destruct (byte_at b 0 =? 1).
  { destruct (request_returns fuel ms (command_target b) w Hf Hl) as (w' & E).
    fold (command_target b). rewrite E. exists w'.
    destruct (request_keeps_pilot _ _ _ _ _ E) as (_ & El & Eh & Eg).
    rewrite El. auto. }
  fold (command_target b).
  destruct ((command_target b =? PGN_RM_PILOT_MODE)
            || (command_target b =? PGN_RM_LOCKED_HEADING));
    [| exists w; auto].
  pose proof (apply_rm_effect (ptr_add b 4) (n - 4) w) as E.
  destruct (apply_rm_selector_or_button (ptr_add b 4) (n - 4) w)
    as [w1 acted].
  cbn [fst] in E. destruct E as (Eh & Eg & _ & El).
  assert (Hl1 : locked_value (locked_hdg_deg w1)).
  { destruct El as [-> | [-> | ->]];
      [exact Hl | left; reflexivity | right; left; exact Hh]. }
  destruct (command_target b =? PGN_RM_LOCKED_HEADING);
    [| exists w1; auto].
  destruct (gf65360_extractMagHeading (ptr_add b 4) (n - 4)) as [d |] eqn:Hd;
    [| exists w1; auto].
  destruct (gf65360_scan_raw _ _ _ _ _ Hd) as (raw & Hr & ->).
  destruct (normalize360_raw raw Hr) as (h & Hn & _).
  rewrite (normalize360_more 2 fuel _ _ Hn Hf).
  exists (set_locked h w1). cbn [set_locked hdg_deg_now locked_hdg_deg grp].
  repeat split; try assumption.
  right. right. exists raw. auto.
Qed.

(** With two rounds of fuel or more, every received frame is handled:
    the heading variables only take values for which the wrap loops end. *)
Lemma loop_rx_returns (fuel : nat) (ms : Z) (m : twai_message) (w : World) :
  (2 <= fuel)%nat ->
  heading_value (hdg_deg_now w) -> locked_value (locked_hdg_deg w) ->
  exists w',
    loop_rx fuel ms m w = Some w'
    /\ heading_value (hdg_deg_now w')
    /\ locked_value (locked_hdg_deg w').
Proof.
  intros Hf Hh Hl. unfold loop_rx.
  destruct (extd m); cbn [negb]; [| exists w; auto].
  destruct (extractPGN (identifier m) =? PGN_CMD_GROUP).
  { unfold handle_126208_entry.
    destruct (data_length_code m <=? 0); [exists w; auto |].
    destruct (Z.land (byte_at (data m) 0) 224 >=? 160).
    - destruct (handle_full_returns fuel ms (data m) (data_length_code m) w
                  Hf Hh Hl) as (w' & E & Eh & El & _).
      exists w'. rewrite Eh. auto.
    - destruct (fr_cmd (feed_126208 (grp w)
                          (u8 (Z.land (identifier m) 255)) (data m)
                          (data_length_code m))) as [b |].
      + destruct (handle_full_returns fuel ms b (Z.of_nat (length b))
                    (set_grp (fr_grp (feed_126208 (grp w)
                       (u8 (Z.land (identifier m) 255)) (data m)
                       (data_length_code m))) w)
                    Hf Hh Hl) as (w' & E & Eh & El & _).
        exists w'. rewrite Eh. auto.
      + eexists. split; [reflexivity |]. auto. }
  destruct (extractPGN (identifier m) =? PGN_ISO_REQUEST).
  { destruct (data_length_code m >=? 3); [| exists w; auto].
    match goal with
    | |- exists w', handle_126208_request _ _ ?t _ = _ /\ _ =>
        destruct (request_returns fuel ms t w Hf Hl) as (w' & E)
    end.
    exists w'. destruct (request_keeps_pilot _ _ _ _ _ E) as (_ & El & Eh & _).
    rewrite E, El, Eh. auto. }
  destruct (extractPGN (identifier m) =? PGN_VESSEL_HEAD).
  { destruct (data_length_code m >=? 3); [| exists w; auto].
    eexists. split; [reflexivity |].
    cbn [set_hdg hdg_deg_now locked_hdg_deg]. split; [| exact Hl].
    destruct (negb (F32.isfinite (raw_to_deg (u16le (data m) 1))));
      [left; reflexivity |].
    right. exists (u16le (data m) 1).
    split; [apply u16le_range | reflexivity]. }
  repeat match goal with
         | |- exists w', (if ?c then _ else _) = _ /\ _ => destruct c
         end;
    (eexists; split; [reflexivity |]; auto).
Qed.

Lemma run_rx_returns (fuel : nat) (ms : Z) (frames : list twai_message) :
  (2 <= fuel)%nat ->
  forall w,
    heading_value (hdg_deg_now w) -> locked_value (locked_hdg_deg w) ->
    exists w', run_rx fuel ms frames w = Some w'.
Proof.
  intros Hf. induction frames as [| m rest IH]; intros w Hh Hl.
  - exists w. reflexivity.
  - cbn [run_rx].
    destruct (loop_rx_returns fuel ms m w Hf Hh Hl) as (w1 & E & Hh1 & Hl1).
    rewrite E. apply IH; assumption.
Qed.

(** From the state after [setup], with two rounds of fuel or more, every
    sequence of frames is handled to the end. *)
Lemma run_rx_from_setup (fuel : nat) (ms : Z) (frames : list twai_message) :
  (2 <= fuel)%nat ->
  exists w, run_rx fuel ms frames initial_world = Some w.
Proof.
  intros Hf. apply run_rx_returns; [exact Hf | left; reflexivity |].
  left. reflexivity.
Qed.

(** * Further properties of the sketch *)

(** ** The frames of [n2k_send_fast] *)

Section SenderFrames.

Variables id sq len : Z.
Variable payload : list Z.
Hypothesis Hsq : 0 <= sq < 8.
Hypothesis Hlen : len = Z.of_nat (length payload).

Lemma sender_frame_tail (sent idx : Z) :
  ptr_add (sender_frame sq len payload sent idx) 1
  = firstn (Z.to_nat (Z.min 7 (len - sent))) (skipn (Z.to_nat sent) payload)
    ++ repeat 0xFF (7 - Z.to_nat (Z.min 7 (len - sent))).
Proof. reflexivity. Qed.

Lemma loop_shape (k : nat) :
  forall idx sent,
    sent = 7 * idx - 1 -> 1 <= idx -> sent < len -> len <= 223 ->
    len - sent <= Z.of_nat k ->
    exists fs,
      n2k_send_fast_loop k id sq payload len sent idx = map (CanTx id) fs
      /\ Z.of_nat (length fs) = (len - sent + 6) / 7
      /\ Forall (fun f => length f = 8%nat) fs
      /\ (forall j, (j < length fs)%nat ->
            byte_at (nth j fs []) 0 = sq * 32 + (idx + Z.of_nat j))
      /\ flat_map (fun f => ptr_add f 1) fs
         = skipn (Z.to_nat sent) payload
           ++ repeat 0xFF
                (Z.to_nat ((len - sent + 6) / 7 * 7 - (len - sent))).
Proof.
  induction k as [| k IH]; intros idx sent Es Hi Hlt Hl Hk.
  - simpl in Hk. lia.
  - rewrite send_loop_step by lia.
    destruct (Z.lt_ge_cases (sent + Z.min 7 (len - sent)) len) as [Hc | Hc].
    + assert (Et : Z.min 7 (len - sent) = 7) by lia.
      destruct (IH (idx + 1) (sent + Z.min 7 (len - sent)))
        as (fs & E & Hn & Hall & Hidx & Hseg); try lia.
      exists (sender_frame sq len payload sent idx :: fs).
      split; [rewrite E; reflexivity |].
      split.
      { cbn [length]. rewrite Nat2Z.inj_succ, Hn, Et.
        Z.div_mod_to_equations. lia. }
      split; [constructor; [apply (frame_length sq len payload); lia
                           | exact Hall] |].
      split.
      { intros j Hj. destruct j as [| j].
        - cbn [nth]. unfold sender_frame, byte_at. cbn [nth Z.to_nat]. lia.
        - cbn [nth]. cbn [length] in Hj. rewrite Hidx by lia. lia. }
      cbn [flat_map]. rewrite sender_frame_tail, Hseg, Et.
      change (7 - Z.to_nat 7)%nat with 0%nat. cbn [repeat].
      rewrite app_nil_r, app_assoc. f_equal.
      * replace (Z.to_nat (sent + 7)) with (7 + Z.to_nat sent)%nat by lia.
        rewrite <- skipn_skipn. change (Z.to_nat 7) with 7%nat.
        apply firstn_skipn.
      * f_equal. f_equal. Z.div_mod_to_equations. lia.
    + rewrite send_loop_done by lia.
      exists [sender_frame sq len payload sent idx].
      assert (Ed : (len - sent + 6) / 7 = 1)
        by (Z.div_mod_to_equations; lia).
      split; [reflexivity |].
      split; [rewrite Ed; reflexivity |].
      split; [constructor; [apply (frame_length sq len payload); lia
                           | constructor] |].
      split.
      { intros j Hj. cbn [length] in Hj. assert (j = 0%nat) as -> by lia.
        cbn [nth]. unfold sender_frame, byte_at. cbn [nth Z.to_nat]. lia. }
      cbn [flat_map]. rewrite app_nil_r, sender_frame_tail, Ed.
      replace (Z.min 7 (len - sent)) with (len - sent) by lia.
      f_equal.
      * apply firstn_all2. rewrite length_skipn. lia.
      * f_equal. lia.
Qed.

End SenderFrames.

Lemma can_data_CanTx (id : Z) (fs : list (list Z)) :
  map can_data (map (CanTx id) fs) = fs.
Proof.
  induction fs as [| f fs IH]; [reflexivity |].
  cbn [map can_data]. rewrite IH. reflexivity.
Qed.

(** What [n2k_send_fast] puts on the bus for a payload of at most 223
    bytes, split into head frame and continuation frames. *)
Lemma send_fast_split (ms pgn prio : Z) (payload : list Z) :
  let len := Z.of_nat (length payload) in
  let sq := u8 (Z.land (Z.shiftr ms 5) 0x07) in
  len <= 223 ->
  exists fs,
    n2k_send_fast ms pgn payload len prio
    = map (CanTx (n2k_id prio pgn SA)) (sender_head sq len payload :: fs)
    /\ Z.of_nat (length fs) = len / 7
    /\ Forall (fun f => length f = 8%nat) fs
    /\ (forall j, (j < length fs)%nat ->
          byte_at (nth j fs []) 0 = sq * 32 + (1 + Z.of_nat j))
    /\ flat_map (fun f => ptr_add f 1) fs
       = skipn 6 payload
         ++ repeat 0xFF (Z.to_nat (len / 7 * 7 - (len - Z.min 6 len))).
Proof.
  intros len sq Hl. rewrite send_fast_frames by lia. fold len sq.
  pose proof (seq_range ms) as Hsq. fold sq in Hsq.
  destruct (Z.le_gt_cases len 6) as [H6 | H6].
  - exists []. rewrite send_loop_done by lia.
    split; [reflexivity |].
    split; [cbn [length]; Z.div_mod_to_equations; lia |].
    split; [constructor |].
    split; [intros j Hj; cbn [length] in Hj; lia |].
    cbn [flat_map].
    replace (len / 7 * 7 - (len - Z.min 6 len)) with 0
      by (Z.div_mod_to_equations; lia).
    cbn [Z.to_nat repeat]. rewrite app_nil_r. symmetry.
    apply skipn_all2. lia.
  - replace (Z.min 6 len) with 6 by lia.
    destruct (loop_shape (n2k_id prio pgn SA) sq len payload Hsq eq_refl
                (length payload) 1 6) as (fs & E & Hn & Hall & Hidx & Hseg);
      try lia.
    exists fs. split; [rewrite E; reflexivity |].
    split; [rewrite Hn; f_equal; lia |].
    split; [exact Hall |]. split; [exact Hidx |].
    rewrite Hseg. replace (len - 6 + 6) with len by lia. reflexivity.
Qed.

(** X1.  For a payload of at most 223 bytes [n2k_send_fast] sends
    [1 + len/7] frames, all under the identifier of the PGN and all eight
    bytes long; frame number [j] starts with the byte [seq*32 + j] (the
    same sequence id in the top three bits, the frame index in the low
    five), and the second byte of the first frame is the length. *)
Theorem fast_packet_frame_layout (ms pgn prio : Z) (payload : list Z) :
  let len := Z.of_nat (length payload) in
  let sq := u8 (Z.land (Z.shiftr ms 5) 0x07) in
  let out := n2k_send_fast ms pgn payload len prio in
  let frames := map can_data out in
  len <= 223 ->
  out = map (CanTx (n2k_id prio pgn SA)) frames
  /\ Z.of_nat (length frames) = 1 + len / 7
  /\ Forall (fun f => length f = 8%nat) frames
  /\ (forall j, (j < length frames)%nat ->
        byte_at (nth j frames []) 0 = sq * 32 + Z.of_nat j
        /\ Z.of_nat j < 32)
  /\ byte_at (hd [] frames) 1 = len.
Proof.
  intros len sq out frames Hl.
  destruct (send_fast_split ms pgn prio payload Hl)
    as (fs & E & Hn & Hall & Hidx & _).
  fold len sq in E, Hn, Hidx. subst frames out. rewrite E, can_data_CanTx.
  split; [reflexivity |].
  split; [cbn [length]; rewrite Nat2Z.inj_succ, Hn; lia |].
  split; [constructor; [apply head_length | exact Hall] |].
  split; [| reflexivity].
  intros j Hj. cbn [length] in Hj. split.
  - destruct j as [| j].
    + cbn [nth]. unfold sender_head, byte_at. cbn [nth Z.to_nat]. lia.
    + cbn [nth]. rewrite Hidx by lia. lia.
  - assert (len / 7 <= 31) by (Z.div_mod_to_equations; lia). lia.
Qed.

Lemma fast_packet_frame_layout_witness :
  Z.of_nat (length [1; 2; 3; 4; 5; 6; 7; 8; 9; 10]) <= 223
  /\ Z.of_nat (length (map can_data
                 (n2k_send_fast 160 PGN_PRODUCT_INFO
                    [1; 2; 3; 4; 5; 6; 7; 8; 9; 10] 10 6)))
     = 1 + 10 / 7.
Proof.
  assert (H : Z.of_nat (length [1; 2; 3; 4; 5; 6; 7; 8; 9; 10]) <= 223)
    by (simpl; lia).
  split; [exact H |].
  exact (proj1 (proj2 (fast_packet_frame_layout 160 PGN_PRODUCT_INFO 6
                         [1; 2; 3; 4; 5; 6; 7; 8; 9; 10] H))).
Defined.

(** The data bytes of the frames: the payload, then padding. *)
Lemma send_fast_segments (ms pgn prio : Z) (payload : list Z) :
  let len := Z.of_nat (length payload) in
  len <= 223 ->
  exists f0 rest,
    map can_data (n2k_send_fast ms pgn payload len prio) = f0 :: rest
    /\ byte_at f0 1 = len
    /\ fp_segments (f0 :: rest)
       = payload ++ repeat 0xFF (Z.to_nat (6 + len / 7 * 7 - len)).
Proof.
  intros len Hl.
  destruct (send_fast_split ms pgn prio payload Hl)
    as (fs & E & _ & _ & _ & Hseg).
  fold len in E, Hseg.
  exists (sender_head (u8 (Z.land (Z.shiftr ms 5) 7)) len payload), fs.
  split; [rewrite E; apply can_data_CanTx |].
  split; [reflexivity |].
  cbn [fp_segments]. rewrite Hseg.
  change (ptr_add (sender_head ?s len payload) 2)
    with (firstn (Z.to_nat (Z.min 6 len)) payload
          ++ repeat 0xFF (6 - Z.to_nat (Z.min 6 len))).
  destruct (Z.le_gt_cases len 6) as [H6 | H6].
  - replace (Z.min 6 len) with len by lia.
    replace (len / 7) with 0 by (Z.div_mod_to_equations; lia).
    rewrite skipn_all2 by lia.
    rewrite firstn_all2 by lia.
    replace (0 * 7 - (len - len)) with 0 by lia.
    replace (6 + 0 * 7 - len) with (6 - len) by lia.
    cbn [Z.to_nat repeat app].
    rewrite !app_nil_r. f_equal. f_equal. lia.
  - replace (Z.min 6 len) with 6 by lia.
    change (6 - Z.to_nat 6)%nat with 0%nat. cbn [repeat].
    rewrite app_nil_r, app_assoc.
    change (Z.to_nat 6) with 6%nat. rewrite firstn_skipn.
    f_equal. f_equal. lia.
Qed.

(** The declared number of data bytes of a frame sequence whose data
    bytes are a payload of the declared length and padding. *)
Lemma fp_payload_of_segments (f0 : list Z) (rest : list (list Z))
  (payload pad : list Z) :
  byte_at f0 1 = Z.of_nat (length payload) ->
  fp_segments (f0 :: rest) = payload ++ pad ->
  fp_payload (f0 :: rest) = payload.
Proof.
  intros H1 Hs. unfold fp_payload. rewrite Hs. cbn [hd].
  rewrite H1, Nat2Z.id, firstn_app, Nat.sub_diag.
  cbn [firstn]. rewrite app_nil_r. apply firstn_all.
Qed.

(** X2.  The data bytes of the frames of [n2k_send_fast] (bytes 2..7 of
    the first frame, bytes 1..7 of the others) are the payload followed
    by 0xFF padding only, so the declared number of them is the payload:
    this holds up to 223 bytes, beyond what the command reassembler of the
    sketch accepts. *)
Theorem fast_packet_carries_payload (ms pgn prio : Z) (payload : list Z) :
  let len := Z.of_nat (length payload) in
  let frames := map can_data (n2k_send_fast ms pgn payload len prio) in
  len <= 223 ->
  fp_segments frames
  = payload ++ repeat 0xFF (Z.to_nat (6 + len / 7 * 7 - len))
  /\ fp_payload frames = payload.
Proof.
  intros len frames Hl.
  destruct (send_fast_segments ms pgn prio payload Hl)
    as (f0 & rest & E & H1 & Hs).
  fold len in E, H1, Hs. subst frames. rewrite E.
  split; [exact Hs |].
  exact (fp_payload_of_segments f0 rest payload _ H1 Hs).
Qed.

Lemma fast_packet_carries_payload_witness :
  Z.of_nat (length (repeat 0xAA 223)) <= 223
  /\ fp_payload (map can_data
                   (n2k_send_fast 0 PGN_PRODUCT_INFO (repeat 0xAA 223) 223 6))
     = repeat 0xAA 223.
Proof.
  assert (H : Z.of_nat (length (repeat 0xAA 223)) <= 223)
    by (rewrite repeat_length; lia).
  split; [exact H |].
  exact (proj2 (fast_packet_carries_payload 0 PGN_PRODUCT_INFO 6
                  (repeat 0xAA 223) H)).
Defined.

(** ** The reassembler from any state *)

Lemma feed_frames_app (sa : Z) (a b : list (list Z)) :
  forall g,
    feed_frames g sa (a ++ b)
    = (fst (feed_frames (fst (feed_frames g sa a)) sa b),
       snd (feed_frames g sa a)
       ++ snd (feed_frames (fst (feed_frames g sa a)) sa b)).
Proof.
  induction a as [| d a IH]; intros g.
  - cbn [app feed_frames fst snd].
    destruct (feed_frames g sa b); reflexivity.
  - cbn [app]. rewrite !feed_frames_cons. cbv zeta. cbn [fst snd].
    rewrite IH. cbn [fst snd].
    destruct (fr_cmd (feed_126208 g sa d (Z.of_nat (length d))));
      reflexivity.
Qed.

(** A first frame (frame index 0) of at least two bytes starts the
    assembly afresh: what was in the buffer does not matter. *)
Lemma feed_first_frame (g : FPBuf) (sa : Z) (d : list Z) (n : Z) :
  2 <= n -> Z.land (byte_at d 0) 0x1F = 0 ->
  feed_126208 g sa d n = feed_126208 gf_reset sa d n.
Proof.
  intros Hn H0. unfold feed_126208.
  replace (n <? 2) with false by (symmetry; apply Z.ltb_ge; lia).
  cbv zeta. rewrite H0. reflexivity.
Qed.

Lemma send_fast_from_any_state (g : FPBuf) (ms pgn prio sa : Z)
  (payload : list Z) :
  Z.of_nat (length payload) <= 120 ->
  feed_frames g sa
    (map can_data
       (n2k_send_fast ms pgn payload (Z.of_nat (length payload)) prio))
  = (gf_reset, [payload]).
Proof.
  intros Hl. rewrite send_fast_frames by lia. cbn [map can_data].
  rewrite feed_frames_cons. cbv zeta.
  pose proof (seq_range ms) as Hsq.
  destruct (byte0_fields _ 0 Hsq ltac:(lia)) as (_ & Efi & _).
  rewrite Z.add_0_r in Efi.
  rewrite feed_first_frame; [| rewrite head_length; lia | exact Efi].
  destruct (feed_sender_head ms sa payload Hl) as (buf & Hb & Hp & E).
  rewrite E.
  destruct (Z.of_nat (length payload) <=? 6) eqn:E6; zbool;
    cbn [fr_grp fr_cmd snd fst].
  - rewrite send_loop_done by lia. reflexivity.
  - replace (Z.min 6 (Z.of_nat (length payload))) with 6 in * by lia.
    rewrite (loop_roundtrip (n2k_id prio pgn SA) _ sa _ payload Hsq eq_refl);
      try assumption; try lia.
    reflexivity.
Qed.

(** X3.  The reassembler resynchronises: whatever the assembly buffer
    holds and whatever frames came before, the frames of [n2k_send_fast]
    for a payload of at most 120 bytes deliver that payload, once, after
    whatever the earlier frames delivered, and leave the buffer idle. *)
Theorem reassembler_resynchronises (g : FPBuf) (ms pgn prio sa : Z)
  (before : list (list Z)) (payload : list Z) :
  let len := Z.of_nat (length payload) in
  len <= 120 ->
  feed_frames g sa
    (before ++ map can_data (n2k_send_fast ms pgn payload len prio))
  = (gf_reset, snd (feed_frames g sa before) ++ [payload]).
Proof.
  intros len Hl. rewrite feed_frames_app.
  unfold len. rewrite send_fast_from_any_state by exact Hl. reflexivity.
Qed.

Lemma reassembler_resynchronises_witness :
  Z.of_nat (length [1; 2; 3; 4; 5; 6; 7; 8; 9]) <= 120
  /\ feed_frames (mkFPBuf true 7 3 50 2 13 (repeat 0 120)) 7
       ([[0x62; 1; 2; 3; 4; 5; 6; 7]; [0x21; 9]]
        ++ map can_data
             (n2k_send_fast 1000 PGN_CMD_GROUP [1; 2; 3; 4; 5; 6; 7; 8; 9]
                9 6))
     = (gf_reset, [[1; 2; 3; 4; 5; 6; 7; 8; 9]]).
Proof.
  assert (H : Z.of_nat (length [1; 2; 3; 4; 5; 6; 7; 8; 9]) <= 120)
    by (simpl; lia).
  split; [exact H |].
  exact (reassembler_resynchronises (mkFPBuf true 7 3 50 2 13 (repeat 0 120))
           1000 PGN_CMD_GROUP 6 7
           [[0x62; 1; 2; 3; 4; 5; 6; 7]; [0x21; 9]]
           [1; 2; 3; 4; 5; 6; 7; 8; 9] H).
Defined.
(** ** What a command transmits *)

Lemma st_datagrams_app (a b : list output) :
  st_datagrams (a ++ b) = st_datagrams a ++ st_datagrams b.
Proof. unfold st_datagrams. apply flat_map_app. Qed.

Lemma can_frames_app (a b : list output) :
  can_frames (a ++ b) = can_frames a ++ can_frames b.
Proof. unfold can_frames. apply filter_app. Qed.

Lemma last_cons_default (A : Type) (l : list A) :
  forall (x d d' : A), last (x :: l) d = last (x :: l) d'.
Proof.
  induction l as [| y l IH]; intros x d d'; [reflexivity |].
  change (last (x :: y :: l) d) with (last (y :: l) d).
  change (last (x :: y :: l) d') with (last (y :: l) d').
  apply IH.
Qed.

Lemma last_app_default (A : Type) (a b : list A) (d : A) :
  last (a ++ b) d = last b (last a d).
Proof.
  revert d. induction a as [| x a IH]; intros d; [reflexivity |].
  destruct a as [| y a].
  - cbn [app]. destruct b as [| z b]; [reflexivity |].
    change (last (x :: z :: b) d) with (last (z :: b) d).
    cbn [last]. apply last_cons_default.
  - change (last ((x :: y :: a) ++ b) d) with (last ((y :: a) ++ b) d).
    change (last (x :: y :: a) d) with (last (y :: a) d). apply IH.
Qed.

Lemma emits_refl (w : World) : emits w w [] [].
Proof.
  exists []. rewrite app_nil_r. repeat split. constructor.
Qed.

Lemma emits_trans (a b c : World) (c1 c2 : list Z) (m1 m2 : list PilotMode) :
  emits a b c1 m1 -> emits b c c2 m2 -> emits a c (c1 ++ c2) (m1 ++ m2).
Proof.
  intros (n1 & T1 & S1 & F1 & K1 & L1) (n2 & T2 & S2 & F2 & K2 & L2).
  exists (n1 ++ n2).
  split; [rewrite T2, T1, app_assoc; reflexivity |].
  split; [rewrite st_datagrams_app, S1, S2, flat_map_app; reflexivity |].
  split; [rewrite can_frames_app, F1, F2, flat_map_app; reflexivity |].
  split; [apply Forall_app; split; assumption |].
  rewrite last_app_default, L1. exact L2.
Qed.

(** One key pressed ([st_press]) and the new mode reported. *)
Lemma emits_press_mode (w w' : World) (code : Z) (m : PilotMode) :
  In code key_codes ->
  tx w' = (tx w ++ st_press code) ++ send_65379_mode m ->
  currentMode w' = m ->
  emits w w' [code] [m].
Proof.
  intros Hc Ht Hm. exists (st_press code ++ send_65379_mode m).
  split; [rewrite Ht, app_assoc; reflexivity |].
  split.
  { rewrite st_datagrams_app.
    destruct Hc as [<- | [<- | [<- | [<- | [<- | [<- | []]]]]]];
      destruct m; reflexivity. }
  split.
  { rewrite can_frames_app. cbn [flat_map]. rewrite app_nil_r.
    destruct Hc as [<- | [<- | [<- | [<- | [<- | [<- | []]]]]]];
      destruct m; reflexivity. }
  split; [constructor; [exact Hc | constructor] |].
  symmetry. exact Hm.
Qed.

Lemma emits_press (w w' : World) (code : Z) :
  In code key_codes ->
  tx w' = tx w ++ st_press code ->
  currentMode w' = currentMode w ->
  emits w w' [code] [].
Proof.
  intros Hc Ht Hm. exists (st_press code).
  split; [exact Ht |].
  split.
  { destruct Hc as [<- | [<- | [<- | [<- | [<- | [<- | []]]]]]];
      reflexivity. }
  split.
  { destruct Hc as [<- | [<- | [<- | [<- | [<- | [<- | []]]]]]];
      reflexivity. }
  split; [constructor; [exact Hc | constructor] |].
  symmetry. exact Hm.
Qed.

Lemma emits_mode (w w' : World) (m : PilotMode) :
  tx w' = tx w ++ send_65379_mode m ->
  currentMode w' = m ->
  emits w w' [] [m].
Proof.
  intros Ht Hm. exists (send_65379_mode m).
  split; [exact Ht |].
  split; [destruct m; reflexivity |].
  split; [destruct m; reflexivity |].
  split; [constructor |].
  symmetry. exact Hm.
Qed.

Ltac key_code := unfold key_codes; cbn [In]; tauto.

Ltac emits_cases :=
  first
    [ eexists; eexists; apply emits_refl
    | exists [ST_CODE_AUTO]; eexists;
      apply emits_press_mode;
      [key_code
      | rewrite ?emit_all_eq; reflexivity
      | rewrite ?emit_all_eq; reflexivity]
    | exists [ST_CODE_STANDBY]; eexists;
      apply emits_press_mode;
      [key_code
      | rewrite ?emit_all_eq; reflexivity
      | rewrite ?emit_all_eq; reflexivity]
    | eexists; eexists; apply emits_mode;
      [rewrite ?emit_all_eq; reflexivity
      | rewrite ?emit_all_eq; reflexivity] ].

Lemma apply_selector_emits (sel : Z) (w : World) :
  exists codes modes, emits w (apply_selector sel w) codes modes.
Proof.
  unfold apply_selector, selector_mode.
  destruct (sel =? 0x00), (sel =? 0x40), (sel =? 0x01), (sel =? 0x80),
    (currentMode w) eqn:Em; cbn [PilotMode_eqb negb];
    cbv zeta; cbn [currentMode set_ref set_mode]; emits_cases.
Qed.

Lemma apply_button_emits (code : Z) (w : World) :
  exists codes modes, emits w (fst (apply_button code w)) codes modes.
Proof.
  unfold apply_button.
  destruct (code =? 0x00); [cbn [fst]; emits_cases |].
  destruct (code =? 0x40); [cbn [fst]; emits_cases |].
  destruct (code =? 0x01); [cbn [fst]; emits_cases |].
  destruct (code =? 0x80); [cbn [fst]; emits_cases |].
  destruct (code =? 0x51).
  { cbn [fst]. exists [ST_CODE_PLUS1], [].
    apply emits_press; [key_code | |]; rewrite emit_all_eq; reflexivity. }
  destruct (code =? 0x7F).
  { cbn [fst]. exists [ST_CODE_MINUS1], [].
    apply emits_press; [key_code | |]; rewrite emit_all_eq; reflexivity. }
  destruct (code =? 0xD1).
  { cbn [fst]. exists [ST_CODE_PLUS10], [].
    apply emits_press; [key_code | |]; rewrite emit_all_eq; reflexivity. }
  destruct (code =? 0x50).
  { cbn [fst]. exists [ST_CODE_MINUS10], [].
    apply emits_press; [key_code | |]; rewrite emit_all_eq; reflexivity. }
  cbn [fst]. eexists; eexists; apply emits_refl.
Qed.

Lemma selector_loop_emits (k : nat) (b : list Z) (n : Z) :
  forall i w did,
    exists codes modes,
      emits w (fst (selector_loop k b n i w did)) codes modes.
Proof.
  induction k as [| k IH]; intros i w did; cbn [selector_loop].
  - eexists; eexists; apply emits_refl.
  - destruct (i <=? n - 3); [| eexists; eexists; apply emits_refl].
    destruct ((byte_at b i =? 4) && (byte_at b (i + 1) =? 4)); [| apply IH].
    destruct (apply_selector_emits (byte_at b (i + 2)) w) as (c1 & m1 & E1).
    destruct (IH (i + 1) (apply_selector (byte_at b (i + 2)) w) true)
      as (c2 & m2 & E2).
    exists (c1 ++ c2), (m1 ++ m2). eapply emits_trans; eassumption.
Qed.

Lemma button_loop_emits (k : nat) (b : list Z) (n : Z) :
  forall i w did,
    exists codes modes,
      emits w (fst (button_loop k b n i w did)) codes modes.
Proof.
  induction k as [| k IH]; intros i w did; cbn [button_loop].
  - eexists; eexists; apply emits_refl.
  - destruct (i <=? n - 3); [| eexists; eexists; apply emits_refl].
    destruct (byte_at b i =? 6); [| apply IH].
    destruct (apply_button_emits (byte_at b (i + 1)) w) as (c1 & m1 & E1).
    destruct (apply_button (byte_at b (i + 1)) w) as [w' d].
    cbn [fst] in E1.
    destruct (IH (i + 1) w' (did || d)) as (c2 & m2 & E2).
    exists (c1 ++ c2), (m1 ++ m2). eapply emits_trans; eassumption.
Qed.

Lemma apply_rm_emits (b : list Z) (n : Z) (w : World) :
  exists codes modes,
    emits w (fst (apply_rm_selector_or_button b n w)) codes modes.
Proof.
  unfold apply_rm_selector_or_button.
  destruct (selector_loop_emits (Z.to_nat (n - 2)) b n 0 w false)
    as (c1 & m1 & E1).
  destruct (selector_loop (Z.to_nat (n - 2)) b n 0 w false) as [w1 d1].
  cbn [fst] in E1.
  destruct (button_loop_emits (Z.to_nat (n - 2)) b n 0 w1 d1)
    as (c2 & m2 & E2).
  exists (c1 ++ c2), (m1 ++ m2). eapply emits_trans; eassumption.
Qed.

(** X4.  A write command (function code other than 0x01), whatever its
    bytes, puts on the SeaTalk bus only keystroke datagrams
    [86 21 code ~code] of the six keys, each one twice in a row, and on
    the CAN bus only 65379 mode frames; the last mode frame reports the
    mode the command leaves, and if there is none the mode is the old
    one. *)
Theorem write_command_output (fuel : nat) (ms : Z) (b : list Z) (n : Z)
  (w w' : World) :
  byte_at b 0 <> 0x01 ->
  handle_126208_full fuel ms b n w = Some w' ->
  exists codes modes, emits w w' codes modes.
Proof.
  intros Hf H. unfold handle_126208_full in H.
  destruct (n <? 4);
    [apply some_eq in H; subst w'; eexists; eexists; apply emits_refl |].
  replace (byte_at b 0 =? 1) with false in H
    by (symmetry; apply Z.eqb_neq; exact Hf).
  fold (command_target b) in H.
  destruct ((command_target b =? PGN_RM_PILOT_MODE)
            || (command_target b =? PGN_RM_LOCKED_HEADING));
    [| apply some_eq in H; subst w'; eexists; eexists; apply emits_refl].
  destruct (apply_rm_emits (ptr_add b 4) (n - 4) w) as (codes & modes & E).
  destruct (apply_rm_selector_or_button (ptr_add b 4) (n - 4) w)
    as [w1 acted].
  cbn [fst] in E. exists codes, modes.
  destruct (command_target b =? PGN_RM_LOCKED_HEADING);
    [| apply some_eq in H; subst w'; exact E].
  destruct (gf65360_extractMagHeading (ptr_add b 4) (n - 4));
    [| apply some_eq in H; subst w'; exact E].
  destruct (normalize360 fuel f); [| discriminate].
  apply some_eq in H. subst w'. exact E.
Qed.

Lemma write_command_output_witness :
  exists codes modes,
    emits initial_world
      (set_locked F32.zero
         (emit_all (send_65379_mode PM_AUTO)
            (emit_all (st_press ST_CODE_AUTO)
               (set_ref REF_MAG (set_mode PM_AUTO initial_world)))))
      codes modes.
Proof.
  apply (write_command_output 2 0 [0x00; 0x63; 0xFF; 0x00; 0x04; 0x04; 0x40] 7
           initial_world).
  - vm_compute. discriminate.
  - vm_compute. reflexivity.
Defined.

(** ** Mode bytes *)

Lemma selector_mode_byte (cur m : PilotMode) :
  selector_mode cur (rmModeDataByte m) = m.
Proof. destruct m; reflexivity. Qed.

(** X5.  The mode byte that [send_65379_mode] reports for a mode (byte 6
    of the frame) is the code that commands that mode: sent back in a
    write command for PGN 65379, as selector [04 04 code] or as button
    [06 code], it leaves the pilot in that mode, and the frames the
    command causes end with the 65379 frame of that mode unless the
    selector finds the pilot in that mode already. *)
Theorem reported_mode_byte_commands_mode (fuel : nat) (ms func : Z)
  (m : PilotMode) (w : World) :
  let code := byte_at (can_data (hd (StTx []) (send_65379_mode m))) 6 in
  func <> 0x01 ->
  (exists w',
     handle_126208_full fuel ms (selector_command func code) 7 w = Some w'
     /\ currentMode w' = m
     /\ (currentMode w <> m ->
         exists os, tx w' = tx w ++ os ++ send_65379_mode m))
  /\ (exists w',
        handle_126208_full fuel ms (button_command func code) 7 w = Some w'
        /\ currentMode w' = m
        /\ exists os, tx w' = tx w ++ os ++ send_65379_mode m).
Proof.
  intros code Hf.
  assert (Ec : code = rmModeDataByte m) by (destruct m; reflexivity).
  rewrite Ec. clear Ec code.
  assert (Ef : (func =? 1) = false) by (apply Z.eqb_neq; exact Hf).
  split.
  - exists (apply_selector (rmModeDataByte m) w).
    split.
    { unfold handle_126208_full, selector_command.
      change (7 <? 4) with false. cbv iota zeta.
      change (byte_at (func :: ?l) 0) with func. rewrite Ef.
      destruct m; reflexivity. }
    unfold apply_selector. rewrite selector_mode_byte.
    destruct m, (currentMode w) eqn:Em; cbn [PilotMode_eqb negb];
      cbv zeta; rewrite ?emit_all_eq;
      cbn [currentMode set_ref set_mode set_locked tx];
      (split; [first [reflexivity | exact Em] |]);
      intros Hne; try congruence;
      first [ exists (st_press ST_CODE_AUTO);
              rewrite <- app_assoc; reflexivity
            | exists (st_press ST_CODE_STANDBY);
              rewrite <- app_assoc; reflexivity
            | exists []; reflexivity ].
  - exists (fst (apply_button (rmModeDataByte m) w)).
    split.
    { unfold handle_126208_full, button_command.
      change (7 <? 4) with false. cbv iota zeta.
      change (byte_at (func :: ?l) 0) with func. rewrite Ef.
      destruct m; reflexivity. }
    destruct m; unfold apply_button; cbn [rmModeDataByte Z.eqb Pos.eqb];
      cbv iota zeta; cbn [fst]; rewrite ?emit_all_eq;
      cbn [currentMode set_ref set_mode set_locked tx];
      (split; [reflexivity |]);
      first [ exists (st_press ST_CODE_AUTO);
              rewrite <- app_assoc; reflexivity
            | exists (st_press ST_CODE_STANDBY);
              rewrite <- app_assoc; reflexivity
            | exists []; reflexivity ].
Qed.

Lemma reported_mode_byte_commands_mode_witness :
  0x00 <> 0x01
  /\ exists w',
       handle_126208_full 2 0
         (selector_command 0x00
            (byte_at (can_data (hd (StTx []) (send_65379_mode PM_TRACK))) 6))
         7 initial_world = Some w'
       /\ currentMode w' = PM_TRACK.
Proof.
  assert (H : 0x00 <> 0x01) by discriminate.
  split; [exact H |].
  destruct (proj1 (reported_mode_byte_commands_mode 2 0 0x00 PM_TRACK
                     initial_world H)) as (w' & E & M & _).
  exists w'. split; [exact E | exact M].
Defined.

(** ** What the receive path leaves alone *)

Lemma command_keeps_refl (w : World) : command_keeps w w.
Proof. unfold command_keeps. auto. Qed.

Lemma command_keeps_trans (a b c : World) :
  command_keeps a b -> command_keeps b c -> command_keeps a c.
Proof.
  unfold command_keeps. intros (T1 & G1 & R1) (T2 & G2 & R2).
  split; [congruence |]. split; [congruence |].
  destruct R2 as [R2 | R2]; [rewrite R2; exact R1 | right; exact R2].
Qed.

Ltac keeps_cases :=
  rewrite ?emit_all_eq; unfold command_keeps, telemetry;
  cbn [currentMode headingRef hdg_deg_now locked_hdg_deg xte_nm dtw_nm
       cog_mag_deg sog_kn awa_deg aws_kn stw_kn grp tx
       set_mode set_ref set_locked];
  auto.

Lemma apply_selector_keeps (sel : Z) (w : World) :
  command_keeps w (apply_selector sel w).
Proof.
  unfold apply_selector, selector_mode.
  destruct (sel =? 0x00), (sel =? 0x40), (sel =? 0x01), (sel =? 0x80),
    (currentMode w) eqn:Em; cbn [PilotMode_eqb negb];
    try apply command_keeps_refl; cbv zeta; keeps_cases.
Qed.

Lemma apply_button_keeps (code : Z) (w : World) :
  command_keeps w (fst (apply_button code w)).
Proof.
  unfold apply_button.
  destruct (code =? 0x00), (code =? 0x40), (code =? 0x01), (code =? 0x80),
    (code =? 0x51), (code =? 0x7F), (code =? 0xD1), (code =? 0x50);
    cbn [fst]; try apply command_keeps_refl; cbv zeta; keeps_cases.
Qed.

Lemma selector_loop_keeps (k : nat) (b : list Z) (n : Z) :
  forall i w did, command_keeps w (fst (selector_loop k b n i w did)).
Proof.
  induction k as [| k IH]; intros i w did; cbn [selector_loop].
  - apply command_keeps_refl.
  - destruct (i <=? n - 3); [| apply command_keeps_refl].
    destruct ((byte_at b i =? 4) && (byte_at b (i + 1) =? 4)).
    + eapply command_keeps_trans; [apply apply_selector_keeps | apply IH].
    + apply IH.
Qed.

Lemma button_loop_keeps (k : nat) (b : list Z) (n : Z) :
  forall i w did, command_keeps w (fst (button_loop k b n i w did)).
Proof.
  induction k as [| k IH]; intros i w did; cbn [button_loop].
  - apply command_keeps_refl.
  - destruct (i <=? n - 3); [| apply command_keeps_refl].
    destruct (byte_at b i =? 6); [| apply IH].
    pose proof (apply_button_keeps (byte_at b (i + 1)) w) as E.
    destruct (apply_button (byte_at b (i + 1)) w) as [w' d]. cbn [fst] in E.
    eapply command_keeps_trans; [exact E | apply IH].
Qed.

Lemma apply_rm_keeps (b : list Z) (n : Z) (w : World) :
  command_keeps w (fst (apply_rm_selector_or_button b n w)).
Proof.
  unfold apply_rm_selector_or_button.
  pose proof (selector_loop_keeps (Z.to_nat (n - 2)) b n 0 w false) as E.
  destruct (selector_loop (Z.to_nat (n - 2)) b n 0 w false) as [w1 d1].
  cbn [fst] in E.
  eapply command_keeps_trans; [exact E | apply button_loop_keeps].
Qed.

(** A request only transmits. *)
Lemma request_only_emits (fuel : nat) (ms target : Z) (w w' : World) :
  handle_126208_request fuel ms target w = Some w' ->
  exists os, w' = emit_all os w.
Proof.
  unfold handle_126208_request.
  destruct (target =? 65379).
  { intros H. apply some_eq in H. eexists. symmetry. exact H. }
  destruct (target =? 65360).
  { destruct (negb (F32.isnan (locked_hdg_deg w))).
    - destruct (send_65360_locked_heading fuel (locked_hdg_deg w)) as [os |];
        [| discriminate].
      intros H. apply some_eq in H. exists os. symmetry. exact H.
    - intros H. apply some_eq in H. exists []. symmetry. exact H. }
  destruct (target =? 126996).
  { intros H. apply some_eq in H. eexists. symmetry. exact H. }
  destruct (target =? 60928).
  { intros H. apply some_eq in H. eexists. symmetry. exact H. }
  intros H. apply some_eq in H. exists []. symmetry. exact H.
Qed.

Lemma emit_all_keeps (os : list output) (w : World) :
  command_keeps w (emit_all os w) /\ pilot (emit_all os w) = pilot w.
Proof. rewrite emit_all_eq. split; [keeps_cases | reflexivity]. Qed.

Lemma handle_full_keeps (fuel : nat) (ms : Z) (b : list Z) (n : Z)
  (w w' : World) :
  handle_126208_full fuel ms b n w = Some w' -> command_keeps w w'.
Proof.
  intros H. unfold handle_126208_full in H.
  destruct (n <? 4);
    [apply some_eq in H; subst w'; apply command_keeps_refl |].
  destruct (byte_at b 0 =? 1).
  { destruct (request_only_emits _ _ _ _ _ H) as (os & ->).
    apply emit_all_keeps. }
  fold (command_target b) in H.
  destruct ((command_target b =? PGN_RM_PILOT_MODE)
            || (command_target b =? PGN_RM_LOCKED_HEADING));
    [| apply some_eq in H; subst w'; apply command_keeps_refl].
  pose proof (apply_rm_keeps (ptr_add b 4) (n - 4) w) as E.
  destruct (apply_rm_selector_or_button (ptr_add b 4) (n - 4) w)
    as [w1 acted].
  cbn [fst] in E.
  destruct (command_target b =? PGN_RM_LOCKED_HEADING);
    [| apply some_eq in H; subst w'; exact E].
  destruct (gf65360_extractMagHeading (ptr_add b 4) (n - 4));
    [| apply some_eq in H; subst w'; exact E].
  destruct (normalize360 fuel f); [| discriminate].
  apply some_eq in H. subst w'.
  eapply command_keeps_trans; [exact E |].
  unfold command_keeps, telemetry. cbn [set_locked hdg_deg_now xte_nm dtw_nm
    cog_mag_deg sog_kn awa_deg aws_kn stw_kn grp headingRef]. auto.
Qed.

(** The top three bits of a byte against 0xA0. *)
Lemma high_bits_all :
  forallb (fun x => Bool.eqb (Z.land x 0xE0 >=? 0xA0) (0xA0 <=? x))
    (map Z.of_nat (seq 0 256)) = true.
Proof. vm_compute. reflexivity. Qed.

Lemma high_bits (x : Z) :
  0 <= x < 256 -> (Z.land x 0xE0 >=? 0xA0) = (0xA0 <=? x).
Proof.
  intros Hx. apply eqb_prop.
  apply (forallb_range _ 256 high_bits_all x). lia.
Qed.

Lemma entry_single_frame (fuel : nat) (ms sa : Z) (d : list Z) (n : Z)
  (w : World) :
  0 < n -> 0xA0 <= byte_at d 0 < 256 ->
  handle_126208_entry fuel ms sa d n w = handle_126208_full fuel ms d n w.
Proof.
  intros Hn Hb. unfold handle_126208_entry.
  replace (n <=? 0) with false by (symmetry; apply Z.leb_gt; lia).
  rewrite high_bits by lia.
  replace (160 <=? byte_at d 0) with true
    by (symmetry; apply Z.leb_le; lia).
  reflexivity.
Qed.

(** X6.  A 126208 frame whose first byte is 0xA0 or more is handled at
    once as a complete command and never reaches the reassembler: the
    assembly buffer is as before, also in the middle of an assembly. *)
Theorem single_frame_keeps_assembly (fuel : nat) (ms sa : Z) (d : list Z)
  (n : Z) (w w' : World) :
  0 < n -> 0xA0 <= byte_at d 0 < 256 ->
  handle_126208_entry fuel ms sa d n w = Some w' ->
  handle_126208_full fuel ms d n w = Some w' /\ grp w' = grp w.
Proof.
  intros Hn Hb H. rewrite entry_single_frame in H by assumption.
  split; [exact H |].
  destruct (handle_full_keeps _ _ _ _ _ _ H) as (_ & G & _). exact G.
Qed.

Lemma single_frame_keeps_assembly_witness :
  grp (set_mode PM_WIND
         (emit_all (send_65379_mode PM_WIND)
            (set_grp (mkFPBuf true 7 3 50 2 13 (repeat 0 120))
               initial_world)))
  = mkFPBuf true 7 3 50 2 13 (repeat 0 120).
Proof.
  apply (single_frame_keeps_assembly 2 0 7
           [0xA0; 0x63; 0xFF; 0x00; 0x04; 0x04; 0x01; 0xFF] 8
           (set_grp (mkFPBuf true 7 3 50 2 13 (repeat 0 120))
              initial_world)).
  - lia.
  - vm_compute. split; [discriminate | reflexivity].
  - vm_compute. reflexivity.
Defined.

Lemma cmd_group_id (prio : Z) :
  0 <= prio -> extractPGN (n2k_id prio PGN_CMD_GROUP SA) = PGN_CMD_GROUP.
Proof.
  intros Hp.
  pose proof (n2k_id_decode prio PGN_CMD_GROUP SA Hp) as H.
  unfold decodeIdentifier in H.
  assert (E : (id_priority (n2k_id prio PGN_CMD_GROUP SA),
               extractPGN (n2k_id prio PGN_CMD_GROUP SA),
               src_from_id (n2k_id prio PGN_CMD_GROUP SA),
               dst_from_id (n2k_id prio PGN_CMD_GROUP SA))
              = (prio mod 8, canonical_pgn PGN_CMD_GROUP, SA, 255)).
  { apply H; [unfold PGN_CMD_GROUP; lia | unfold SA; lia]. }
  apply (f_equal (fun t => snd (fst (fst t)))) in E. exact E.
Qed.

Lemma run_rx_single_frames (fuel : nat) (ms id : Z) (fs : list (list Z)) :
  extractPGN id = PGN_CMD_GROUP ->
  Forall (fun f => length f = 8%nat) fs ->
  Forall (fun f => 0xA0 <= byte_at f 0 < 256) fs ->
  forall w w',
    run_rx fuel ms (map as_received (map (CanTx id) fs)) w = Some w' ->
    grp w' = grp w.
Proof.
  intros Hid Hlen Hb. induction fs as [| f fs IH]; intros w w' H.
  - apply some_eq in H. subst w'. reflexivity.
  - cbn [map as_received run_rx] in H.
    inversion Hlen as [| ? ? Hl Hlen']. inversion Hb as [| ? ? Hf Hb'].
    subst.
    destruct (loop_rx fuel ms (mkMsg id true (Z.of_nat (length f)) f) w)
      as [w1 |] eqn:E; [| discriminate].
    unfold loop_rx in E. cbn [extd negb identifier data data_length_code] in E.
    rewrite Hid in E. change (PGN_CMD_GROUP =? PGN_CMD_GROUP) with true in E.
    cbv iota in E.
    rewrite entry_single_frame in E by (try assumption; lia).
    destruct (handle_full_keeps _ _ _ _ _ _ E) as (_ & G & _).
    rewrite (IH Hlen' Hb' w1 w' H). exact G.
Qed.

(** X7.  A fast packet that [n2k_send_fast] sends with sequence id 5, 6
    or 7 (bits 5..7 of [millis()]) is never reassembled by the command
    receiver of the sketch: every frame starts with a byte of 0xA0 or
    more and is taken for a single-frame command, so the assembly buffer
    is as before after all the frames. *)
Theorem high_sequence_never_reassembled (fuel : nat) (ms ms' prio : Z)
  (payload : list Z) (w w' : World) :
  let len := Z.of_nat (length payload) in
  0 <= prio -> len <= 223 ->
  5 <= u8 (Z.land (Z.shiftr ms 5) 0x07) ->
  run_rx fuel ms'
    (map as_received (n2k_send_fast ms PGN_CMD_GROUP payload len prio)) w
  = Some w' ->
  grp w' = grp w.
Proof.
  intros len Hp Hl Hs H.
  destruct (send_fast_split ms PGN_CMD_GROUP prio payload Hl)
    as (fs & E & Hn & Hall & Hidx & _).
  fold len in E, Hn, Hidx. rewrite E in H.
  pose proof (seq_range ms) as Hsq.
  assert (H31 : len / 7 <= 31) by (Z.div_mod_to_equations; lia).
  apply (run_rx_single_frames fuel ms' _ _ (cmd_group_id prio Hp)) in H;
    [exact H | |].
  - constructor; [apply head_length | exact Hall].
  - constructor.
    + unfold sender_head, byte_at. cbn [nth Z.to_nat]. lia.
    + apply Forall_forall. intros f Hf.
      destruct (In_nth _ _ [] Hf) as (j & Hj & <-).
      rewrite Hidx by exact Hj. lia.
Qed.

Lemma high_sequence_never_reassembled_witness :
  exists w',
    run_rx 2 0
      (map as_received
         (n2k_send_fast 160 PGN_CMD_GROUP
            [0x00; 0x63; 0xFF; 0x00; 0x04; 0x04; 0x40] 7 3))
      (set_grp (mkFPBuf true 7 3 50 2 13 (repeat 0 120)) initial_world)
    = Some w'
    /\ grp w' = mkFPBuf true 7 3 50 2 13 (repeat 0 120).
Proof.
  eexists. split; [vm_compute; reflexivity |].
  apply (high_sequence_never_reassembled 2 160 0 3
           [0x00; 0x63; 0xFF; 0x00; 0x04; 0x04; 0x40]
           (set_grp (mkFPBuf true 7 3 50 2 13 (repeat 0 120)) initial_world)).
  - lia.
  - simpl. lia.
  - vm_compute. discriminate.
  - vm_compute. reflexivity.
Defined.

(** ** Commands and telemetry are separate *)

Lemma entry_keeps (fuel : nat) (ms sa : Z) (d : list Z) (n : Z)
  (w w' : World) :
  handle_126208_entry fuel ms sa d n w = Some w' ->
  telemetry w' = telemetry w
  /\ (headingRef w' = headingRef w \/ headingRef w' = REF_MAG).
Proof.
  intros H. unfold handle_126208_entry in H.
  destruct (n <=? 0); [apply some_eq in H; subst w'; auto |].
  destruct (Z.land (byte_at d 0) 224 >=? 160).
  - destruct (handle_full_keeps _ _ _ _ _ _ H) as (T & _ & R). auto.
  - destruct (fr_cmd (feed_126208 (grp w) sa d n)) as [b |].
    + destruct (handle_full_keeps _ _ _ _ _ _ H) as (T & _ & R).
      split; [exact T | exact R].
    + apply some_eq in H. subst w'. auto.
Qed.

(** X8.  Commands and telemetry do not touch each other's variables.  A
    126208 frame or an ISO request leaves the telemetry (heading, XTE,
    DTW, COG, SOG, wind, speed) as it is; any other frame leaves the
    pilot state (mode, heading reference, locked heading) and the
    assembly buffer as they are; only 126208 frames and ISO requests
    transmit; a frame that is not extended, or whose PGN is none of the
    seven whose case in [loop] has a body, changes nothing at all. *)
Theorem receive_separation (fuel : nat) (ms : Z) (m : twai_message)
  (w w' : World) :
  let pgn := extractPGN (identifier m) in
  loop_rx fuel ms m w = Some w' ->
  (pgn = PGN_CMD_GROUP \/ pgn = PGN_ISO_REQUEST ->
   telemetry w' = telemetry w)
  /\ (pgn <> PGN_CMD_GROUP -> pilot w' = pilot w /\ grp w' = grp w)
  /\ (pgn <> PGN_CMD_GROUP -> pgn <> PGN_ISO_REQUEST -> tx w' = tx w)
  /\ (extd m = false \/ ~ In pgn handled_pgns -> w' = w).
Proof.
  intros pgn H. unfold loop_rx in H. fold pgn in H.
  destruct (extd m) eqn:Ex; cbn [negb] in H;
    [| apply some_eq in H; subst w'; repeat split; auto].
  destruct (pgn =? PGN_CMD_GROUP) eqn:E1; zbool.
  { destruct (entry_keeps _ _ _ _ _ _ _ H) as (T & _).
    split; [intros _; exact T |].
    split; [intros Hn; contradiction |].
    split; [intros Hn; contradiction |].
    intros [Hx | Hn]; [discriminate |].
    exfalso. apply Hn. rewrite E1. left. reflexivity. }
  destruct (pgn =? PGN_ISO_REQUEST) eqn:E2; zbool.
  { assert (Hos : exists os, w' = emit_all os w).
    { destruct (data_length_code m >=? 3);
        [exact (request_only_emits _ _ _ _ _ H) |].
      apply some_eq in H. exists []. symmetry. exact H. }
    destruct Hos as (os & ->).
    destruct (emit_all_keeps os w) as ((T & G & _) & P).
    split; [intros _; exact T |].
    split; [intros _; split; [exact P | exact G] |].
    split; [intros _ Hn; contradiction |].
    intros [Hx | Hn]; [discriminate |].
    exfalso. apply Hn. rewrite E2. right. left. reflexivity. }
  split; [intros [Hc | Hc]; contradiction |].
  destruct (pgn =? PGN_VESSEL_HEAD) eqn:E3; zbool.
  { assert (Hw : pilot w' = pilot w /\ grp w' = grp w /\ tx w' = tx w).
    { destruct (data_length_code m >=? 3); apply some_eq in H; subst w';
        repeat split. }
    destruct Hw as (P & G & T).
    split; [intros _; split; assumption |].
    split; [intros _ _; exact T |].
    intros [Hx | Hn]; [discriminate |].
    exfalso. apply Hn. rewrite E3. right. right. left. reflexivity. }
  destruct (pgn =? PGN_WIND) eqn:E4; zbool.
  { assert (Hw : pilot w' = pilot w /\ grp w' = grp w /\ tx w' = tx w).
    { destruct (data_length_code m >=? 6); apply some_eq in H; subst w';
        repeat split. }
    destruct Hw as (P & G & T).
    split; [intros _; split; assumption |].
    split; [intros _ _; exact T |].
    intros [Hx | Hn]; [discriminate |].
    exfalso. apply Hn. rewrite E4. unfold handled_pgns. cbn [In]. tauto. }
  destruct (pgn =? PGN_STW) eqn:E5; zbool.
  { assert (Hw : pilot w' = pilot w /\ grp w' = grp w /\ tx w' = tx w).
    { destruct (data_length_code m >=? 3); apply some_eq in H; subst w';
        repeat split. }
    destruct Hw as (P & G & T).
    split; [intros _; split; assumption |].
    split; [intros _ _; exact T |].
    intros [Hx | Hn]; [discriminate |].
    exfalso. apply Hn. rewrite E5. unfold handled_pgns. cbn [In]. tauto. }
  destruct (pgn =? PGN_COGSOG) eqn:E6; zbool.
  { assert (Hw : pilot w' = pilot w /\ grp w' = grp w /\ tx w' = tx w).
    { destruct (data_length_code m >=? 7); apply some_eq in H; subst w';
        repeat split. }
    destruct Hw as (P & G & T).
    split; [intros _; split; assumption |].
    split; [intros _ _; exact T |].
    intros [Hx | Hn]; [discriminate |].
    exfalso. apply Hn. rewrite E6. unfold handled_pgns. cbn [In]. tauto. }
  destruct (pgn =? PGN_XTE) eqn:E7; zbool.
  { assert (Hw : pilot w' = pilot w /\ grp w' = grp w /\ tx w' = tx w).
    { destruct (data_length_code m >=? 8); apply some_eq in H; subst w';
        repeat split. }
    destruct Hw as (P & G & T).
    split; [intros _; split; assumption |].
    split; [intros _ _; exact T |].
    intros [Hx | Hn]; [discriminate |].
    exfalso. apply Hn. rewrite E7. unfold handled_pgns. cbn [In]. tauto. }
  apply some_eq in H. subst w'.
  split; [intros _; split; reflexivity |].
  split; [intros _ _; reflexivity |].
  intros _. reflexivity.
Qed.

Lemma receive_separation_witness :
  exists w',
    loop_rx 2 0
      (mkMsg (n2k_id 2 PGN_WIND 5) true 8
         [0x00; 0x10; 0x02; 0x20; 0x4E; 0xFA; 0xFF; 0xFF])
      initial_world = Some w'
    /\ pilot w' = pilot initial_world
    /\ tx w' = tx initial_world.
Proof.
  destruct (loop_rx 2 0
              (mkMsg (n2k_id 2 PGN_WIND 5) true 8
                 [0x00; 0x10; 0x02; 0x20; 0x4E; 0xFA; 0xFF; 0xFF])
              initial_world) as [w' |] eqn:E;
    [| vm_compute in E; discriminate].
  exists w'. split; [reflexivity |].
  destruct (receive_separation 2 0 _ _ _ E) as (_ & P & T & _).
  split.
  - apply P. vm_compute. discriminate.
  - apply T; vm_compute; discriminate.
Defined.

(** ** Headings as raw angles *)

(** The exhaustive check of the 65536 raw angles. *)
Lemma heading_echo_checked_all :
  forallb (fun hi =>
             forallb (fun lo => heading_echo_checked (hi * 256 + lo))
               (map Z.of_nat (seq 0 256)))
    (map Z.of_nat (seq 0 256)) = true.
Proof. vm_compute. reflexivity. Qed.

Lemma heading_echo_checked_raw (raw : Z) :
  0 <= raw < 65536 -> heading_echo_checked raw = true.
Proof.
  intros Hr.
  pose proof (forallb_range _ 256 heading_echo_checked_all (raw / 256)
                ltac:(Z.div_mod_to_equations; lia)) as H.
  cbv beta in H.
  pose proof (forallb_range _ 256 H (raw mod 256)
                ltac:(Z.div_mod_to_equations; lia)) as H'.
  cbv beta in H'.
  replace (raw / 256 * 256 + raw mod 256) with raw in H'
    by (Z.div_mod_to_equations; lia).
  exact H'.
Qed.

Lemma normalize360_id (d : f32) :
  heading_in_range d = true ->
  F32.geb d (F32.of_Z 360) = false ->
  normalize360 2 d = Some d.
Proof.
  intros Hin Hge. unfold normalize360. cbn [wrap_negative].
  assert (Hlt : F32.ltb d (F32.of_Z 0) = false).
  { destruct d as [s | s | | s m e]; try reflexivity;
      destruct s; try reflexivity; discriminate. }
  rewrite Hlt. cbn [wrap_full_turn]. rewrite Hge. reflexivity.
Qed.

Lemma raw_heading_facts (raw : Z) :
  0 <= raw < 65536 ->
  heading_in_range (raw_to_deg raw) = true
  /\ u16le (put_i16le (heading_q (raw_to_deg raw))) 0 = wrap_turn raw
  /\ exists h,
       normalize360 2 (raw_to_deg raw) = Some h
       /\ heading_in_range h = true
       /\ deg_to_rad1e4_u16 2 h = Some (wrap_turn raw)
       /\ u16le (put_i16le (heading_q h)) 0 = wrap_turn raw.
Proof.
  intros Hr. pose proof (heading_echo_checked_raw raw Hr) as H.
  unfold heading_echo_checked in H. cbv zeta in H.
  apply andb_true_iff in H. destruct H as [H H3].
  apply andb_true_iff in H. destruct H as [H1 H2].
  apply Z.eqb_eq in H2.
  split; [exact H1 |]. split; [exact H2 |].
  destruct (F32.geb (raw_to_deg raw) (F32.of_Z 360)) eqn:Hge.
  - destruct (normalize360 2 (raw_to_deg raw)) as [h |]; [| discriminate].
    apply andb_true_iff in H3. destruct H3 as [H3 H6].
    apply andb_true_iff in H3. destruct H3 as [H4 H5].
    exists h. split; [reflexivity |]. split; [exact H4 |].
    split; [| apply Z.eqb_eq; exact H6].
    destruct (deg_to_rad1e4_u16 2 h) as [a |]; [| discriminate].
    apply Z.eqb_eq in H5. rewrite H5. reflexivity.
  - exists (raw_to_deg raw).
    split; [apply normalize360_id; assumption |].
    split; [exact H1 |]. split; [| exact H2].
    destruct (deg_to_rad1e4_u16 2 (raw_to_deg raw)) as [a |];
      [| discriminate].
    apply Z.eqb_eq in H3. rewrite H3. reflexivity.
Qed.

(** ** Invariants of the receive path *)

Lemma normalize360_raw_any_fuel (fuel : nat) (raw : Z) (h : f32) :
  0 <= raw < 65536 ->
  normalize360 fuel (raw_to_deg raw) = Some h ->
  normalize360 2 (raw_to_deg raw) = Some h.
Proof.
  intros Hr H. destruct (normalize360_raw raw Hr) as (h0 & H0 & _).
  destruct (Nat.le_gt_cases fuel 2) as [Hle | Hgt].
  - apply (normalize360_more fuel 2 _ _ H Hle).
  - rewrite (normalize360_more 2 fuel _ _ H0 ltac:(lia)) in H.
    rewrite H0. exact H.
Qed.

Lemma heading_value_range (h : f32) :
  heading_value h -> heading_in_range h = true.
Proof.
  intros [-> | (raw & Hr & ->)]; [reflexivity |].
  apply (raw_heading_facts raw Hr).
Qed.

Lemma locked_value_range (l : f32) :
  locked_value l ->
  F32.isnan l = true \/ heading_in_range l = true.
Proof.
  intros [-> | [Hv | (raw & Hr & Hn)]].
  - left. reflexivity.
  - right. apply heading_value_range. exact Hv.
  - right. destruct (raw_heading_facts raw Hr) as (_ & _ & h & Hh & R & _).
    rewrite Hn in Hh. apply some_eq in Hh. subst h. exact R.
Qed.

Lemma handle_full_values (fuel : nat) (ms : Z) (b : list Z) (n : Z)
  (w w' : World) :
  heading_value (hdg_deg_now w) -> locked_value (locked_hdg_deg w) ->
  handle_126208_full fuel ms b n w = Some w' ->
  locked_value (locked_hdg_deg w').
Proof.
  intros Hh Hl H. unfold handle_126208_full in H.
  destruct (n <? 4); [apply some_eq in H; subst w'; exact Hl |].
  destruct (byte_at b 0 =? 1).
  { destruct (request_keeps_pilot _ _ _ _ _ H) as (_ & El & _).
    rewrite El. exact Hl. }
  fold (command_target b) in H.
  destruct ((command_target b =? PGN_RM_PILOT_MODE)
            || (command_target b =? PGN_RM_LOCKED_HEADING));
    [| apply some_eq in H; subst w'; exact Hl].
  pose proof (apply_rm_effect (ptr_add b 4) (n - 4) w) as E.
  destruct (apply_rm_selector_or_button (ptr_add b 4) (n - 4) w)
    as [w1 acted].
  cbn [fst] in E. destruct E as (Eh & Eg & _ & El).
  assert (Hl1 : locked_value (locked_hdg_deg w1)).
  { destruct El as [-> | [-> | ->]];
      [exact Hl | left; reflexivity | right; left; exact Hh]. }
  destruct (command_target b =? PGN_RM_LOCKED_HEADING);
    [| apply some_eq in H; subst w'; exact Hl1].
  destruct (gf65360_extractMagHeading (ptr_add b 4) (n - 4)) as [d |] eqn:Hd;
    [| apply some_eq in H; subst w'; exact Hl1].
  destruct (gf65360_scan_raw _ _ _ _ _ Hd) as (raw & Hr & ->).
  destruct (normalize360 fuel (raw_to_deg raw)) as [h |] eqn:Hn;
    [| discriminate].
  apply some_eq in H. subst w'. cbn [set_locked locked_hdg_deg].
  right. right. exists raw. split; [exact Hr |].
  apply (normalize360_raw_any_fuel fuel); assumption.
Qed.

(** One received frame keeps the invariant. *)
Lemma loop_rx_invariant (fuel : nat) (ms : Z) (m : twai_message)
  (w w' : World) :
  is_bytes (data m) ->
  loop_rx fuel ms m w = Some w' ->
  headingRef w = REF_MAG /\ dtw_nm w = F32.zero
  /\ heading_value (hdg_deg_now w) /\ locked_value (locked_hdg_deg w)
  /\ fp_wf (grp w) ->
  headingRef w' = REF_MAG /\ dtw_nm w' = F32.zero
  /\ heading_value (hdg_deg_now w') /\ locked_value (locked_hdg_deg w')
  /\ fp_wf (grp w').
Proof.
  intros Hb H (R & D & Hh & Hl & Hg). unfold loop_rx in H.
  destruct (extd m); cbn [negb] in H;
    [| apply some_eq in H; subst w'; auto].
  destruct (extractPGN (identifier m) =? PGN_CMD_GROUP).
  { destruct (entry_keeps _ _ _ _ _ _ _ H) as (T & R').
    unfold telemetry in T.
    assert (Ehd : hdg_deg_now w' = hdg_deg_now w) by congruence.
    assert (Edt : dtw_nm w' = dtw_nm w) by congruence.
    split; [destruct R' as [R' | R']; congruence |].
    split; [congruence |]. split; [rewrite Ehd; exact Hh |].
    unfold handle_126208_entry in H.
    destruct (data_length_code m <=? 0);
      [apply some_eq in H; subst w'; auto |].
    destruct (Z.land (byte_at (data m) 0) 224 >=? 160).
    - split; [exact (handle_full_values _ _ _ _ _ _ Hh Hl H) |].
      destruct (handle_full_keeps _ _ _ _ _ _ H) as (_ & G & _).
      rewrite G. exact Hg.
    - pose proof (feed_wf (grp w) (u8 (Z.land (identifier m) 255)) (data m)
                    (data_length_code m) Hg Hb) as Hg'.
      destruct (fr_cmd (feed_126208 (grp w)
                          (u8 (Z.land (identifier m) 255)) (data m)
                          (data_length_code m))) as [c |].
      + split; [exact (handle_full_values _ _ _ _ (set_grp _ w) _ Hh Hl H) |].
        destruct (handle_full_keeps _ _ _ _ _ _ H) as (_ & G & _).
        rewrite G. exact Hg'.
      + apply some_eq in H. subst w'. split; [exact Hl | exact Hg']. }
  destruct (extractPGN (identifier m) =? PGN_ISO_REQUEST).
  { assert (Hos : exists os, w' = emit_all os w).
    { destruct (data_length_code m >=? 3);
        [exact (request_only_emits _ _ _ _ _ H) |].
      apply some_eq in H. exists []. symmetry. exact H. }
    destruct Hos as (os & ->). rewrite emit_all_eq.
    cbn [headingRef dtw_nm hdg_deg_now locked_hdg_deg grp]. auto. }
  destruct (extractPGN (identifier m) =? PGN_VESSEL_HEAD).
  { destruct (data_length_code m >=? 3);
      [| apply some_eq in H; subst w'; auto].
    apply some_eq in H. subst w'.
    cbn [set_hdg headingRef dtw_nm hdg_deg_now locked_hdg_deg grp].
    repeat split; try assumption; try apply Hg.
    destruct (negb (F32.isfinite (raw_to_deg (u16le (data m) 1))));
      [left; reflexivity |].
    right. exists (u16le (data m) 1).
    split; [apply u16le_range | reflexivity]. }
  repeat match type of H with
         | (if ?c then _ else _) = _ => destruct c
         end;
    apply some_eq in H; subst w'; auto.
Qed.

Lemma rx_reachable_values (fuel : nat) (w : World) :
  rx_reachable fuel w ->
  headingRef w = REF_MAG /\ dtw_nm w = F32.zero
  /\ heading_value (hdg_deg_now w) /\ locked_value (locked_hdg_deg w)
  /\ fp_wf (grp w).
Proof.
  intros Hr. induction Hr as [| w w' ms m Hr IH Hb E].
  - split; [reflexivity |]. split; [reflexivity |].
    split; [left; reflexivity |]. split; [left; reflexivity |].
    apply gf_reset_wf.
  - exact (loop_rx_invariant fuel ms m w w' Hb E IH).
Qed.

(** X9.  In every state reached from [setup] by received frames the
    heading reference is magnetic, the distance to the waypoint is the
    0 of its initialiser, the current heading lies in [0, 376) degrees
    (a 16-bit angle in 1e-4 rad reaches 375.5), the locked heading is
    NaN or lies in [0, 376), and the assembly buffer satisfies its
    bookkeeping invariant ([filled <= total <= 120], strictly less while
    an assembly is active). *)
Theorem receive_invariants (fuel : nat) (w : World) :
  rx_reachable fuel w ->
  headingRef w = REF_MAG
  /\ dtw_nm w = F32.zero
  /\ heading_in_range (hdg_deg_now w) = true
  /\ (F32.isnan (locked_hdg_deg w) = true
      \/ heading_in_range (locked_hdg_deg w) = true)
  /\ fp_wf (grp w).
Proof.
  intros Hr.
  destruct (rx_reachable_values fuel w Hr) as (R & D & Hh & Hl & Hg).
  split; [exact R |]. split; [exact D |].
  split; [apply heading_value_range; exact Hh |].
  split; [apply locked_value_range; exact Hl | exact Hg].
Qed.

Lemma receive_invariants_witness :
  exists w',
    loop_rx 2 0
      (mkMsg (n2k_id 2 PGN_VESSEL_HEAD 5) true 8
         [0x00; 0x5C; 0x3D; 0xFF; 0xFF; 0xFF; 0xFF; 0x01])
      initial_world = Some w'
    /\ headingRef w' = REF_MAG
    /\ heading_in_range (hdg_deg_now w') = true.
Proof.
  destruct (loop_rx 2 0
              (mkMsg (n2k_id 2 PGN_VESSEL_HEAD 5) true 8
                 [0x00; 0x5C; 0x3D; 0xFF; 0xFF; 0xFF; 0xFF; 0x01])
              initial_world) as [w' |] eqn:E;
    [| vm_compute in E; discriminate].
  exists w'. split; [reflexivity |].
  assert (Hr : rx_reachable 2 w').
  { refine (rx_frame 2 initial_world w' 0 _ (rx_setup 2) _ E).
    unfold is_bytes. cbn [data].
    repeat (apply Forall_cons; [lia |]). apply Forall_nil. }
  destruct (receive_invariants 2 w' Hr) as (R & _ & Hh & _).
  split; assumption.
Defined.

(** ** What the receive path transmits *)

Lemma forallb_app_true (A : Type) (f : A -> bool) (a b : list A) :
  forallb f a = true -> forallb f b = true -> forallb f (a ++ b) = true.
Proof. intros Ha Hb. rewrite forallb_app, Ha, Hb. reflexivity. Qed.

Lemma emits_ok (w w' : World) (codes : list Z) (modes : list PilotMode) :
  emits w w' codes modes ->
  exists os, tx w' = tx w ++ os /\ forallb rx_output_ok os = true.
Proof.
  intros (new & T & S & F & K & _). exists new. split; [exact T |].
  apply forallb_forall. intros o Ho. destruct o as [id d | d].
  - assert (Hin : In (CanTx id d) (can_frames new)).
    { unfold can_frames. apply filter_In. split; [exact Ho | reflexivity]. }
    rewrite F in Hin. apply in_flat_map in Hin.
    destruct Hin as (m & _ & Hm).
    destruct m; destruct Hm as [Hm | []]; inversion Hm; reflexivity.
  - assert (Hin : In d (st_datagrams new)).
    { unfold st_datagrams. apply in_flat_map.
      exists (StTx d). split; [exact Ho | left; reflexivity]. }
    rewrite S in Hin. apply in_flat_map in Hin.
    destruct Hin as (c & Hc & Hd).
    rewrite Forall_forall in K. specialize (K c Hc).
    assert (Ed : d = key_datagram c)
      by (destruct Hd as [Hd | [Hd | []]]; symmetry; exact Hd).
    subst d. unfold rx_output_ok. apply existsb_exists.
    exists c. split; [exact K |].
    destruct (list_eq_dec Z.eq_dec (key_datagram c) (key_datagram c));
      [reflexivity | contradiction].
Qed.

(** [n2k_send_fast] reads the clock for the sequence id only. *)
Lemma send_fast_seq_only (ms pgn : Z) (payload : list Z) (len prio : Z) :
  n2k_send_fast ms pgn payload len prio
  = n2k_send_fast (Z.shiftl (u8 (Z.land (Z.shiftr ms 5) 0x07)) 5) pgn
      payload len prio.
Proof.
  unfold n2k_send_fast. cbv zeta.
  pose proof (seq_range ms) as Hs.
  set (s := u8 (Z.land (Z.shiftr ms 5) 7)) in *.
  assert (E : u8 (Z.land (Z.shiftr (Z.shiftl s 5) 5) 7) = s).
  { rewrite Z.shiftr_shiftl_l by lia. change (5 - 5) with 0.
    rewrite Z.shiftl_0_r. change 7 with (2 ^ 3 - 1).
    rewrite land_low_mod by lia. unfold u8.
    rewrite (Z.mod_small s) by lia. apply Z.mod_small. lia. }
  rewrite E. reflexivity.
Qed.

Lemma product_frames_all :
  forallb (fun s => forallb rx_output_ok (send_126996_Product (Z.shiftl s 5)))
    (map Z.of_nat (seq 0 8)) = true.
Proof. vm_compute. reflexivity. Qed.

Lemma product_frames_ok (ms : Z) :
  forallb rx_output_ok (send_126996_Product ms) = true.
Proof.
  unfold send_126996_Product. cbv zeta. rewrite send_fast_seq_only.
  apply (forallb_range _ 8 product_frames_all
           (u8 (Z.land (Z.shiftr ms 5) 7))).
  pose proof (seq_range ms). lia.
Qed.

Lemma locked_heading_frame_ok (fuel : nat) (h : f32) (os : list output) :
  send_65360_locked_heading fuel h = Some os ->
  forallb rx_output_ok os = true.
Proof.
  unfold send_65360_locked_heading.
  destruct (F32.isnan h);
    [intros H; apply some_eq in H; subst os; reflexivity |].
  destruct (deg_to_rad1e4_u16 fuel h) as [ang |]; [| discriminate].
  intros H. apply some_eq in H. subst os.
  unfold n2k_send_single, twai_tx. change (Z.to_nat 8) with 8%nat.
  cbn [firstn forallb rx_output_ok length Nat.eqb].
  assert (Hu : forall x, byte_ok (u8 x) = true).
  { intros x. unfold byte_ok, u8.
    pose proof (Z.mod_pos_bound x 256 ltac:(lia)).
    apply andb_true_iff. split; [apply Z.leb_le | apply Z.ltb_lt]; lia. }
  rewrite !Hu. reflexivity.
Qed.

Lemma request_outputs_ok (fuel : nat) (ms target : Z) (w w' : World) :
  handle_126208_request fuel ms target w = Some w' ->
  exists os, tx w' = tx w ++ os /\ forallb rx_output_ok os = true.
Proof.
  unfold handle_126208_request.
  destruct (target =? 65379).
  { intros H. apply some_eq in H. subst w'. eexists.
    rewrite emit_all_eq. cbn [tx]. split; reflexivity. }
  destruct (target =? 65360).
  { destruct (negb (F32.isnan (locked_hdg_deg w))).
    - destruct (send_65360_locked_heading fuel (locked_hdg_deg w))
        as [os |] eqn:E; [| discriminate].
      intros H. apply some_eq in H. subst w'. exists os.
      rewrite emit_all_eq. cbn [tx].
      split; [reflexivity | exact (locked_heading_frame_ok _ _ _ E)].
    - intros H. apply some_eq in H. subst w'. exists [].
      rewrite app_nil_r. split; reflexivity. }
  destruct (target =? 126996).
  { intros H. apply some_eq in H. subst w'.
    exists (send_126996_Product ms).
    rewrite emit_all_eq. cbn [tx].
    split; [reflexivity | apply product_frames_ok]. }
  destruct (target =? 60928).
  { intros H. apply some_eq in H. subst w'. eexists.
    rewrite emit_all_eq. cbn [tx]. split; reflexivity. }
  intros H. apply some_eq in H. subst w'. exists [].
  rewrite app_nil_r. split; reflexivity.
Qed.

Lemma handle_full_outputs_ok (fuel : nat) (ms : Z) (b : list Z) (n : Z)
  (w w' : World) :
  handle_126208_full fuel ms b n w = Some w' ->
  exists os, tx w' = tx w ++ os /\ forallb rx_output_ok os = true.
Proof.
  intros H. unfold handle_126208_full in H.
  assert (Hnil : exists os, tx w = tx w ++ os
                            /\ forallb rx_output_ok os = true)
    by (exists []; rewrite app_nil_r; split; reflexivity).
  destruct (n <? 4); [apply some_eq in H; subst w'; exact Hnil |].
  destruct (byte_at b 0 =? 1);
    [exact (request_outputs_ok _ _ _ _ _ H) |].
  fold (command_target b) in H.
  destruct ((command_target b =? PGN_RM_PILOT_MODE)
            || (command_target b =? PGN_RM_LOCKED_HEADING));
    [| apply some_eq in H; subst w'; exact Hnil].
  destruct (apply_rm_emits (ptr_add b 4) (n - 4) w) as (codes & modes & E).
  apply emits_ok in E.
  destruct (apply_rm_selector_or_button (ptr_add b 4) (n - 4) w)
    as [w1 acted].
  cbn [fst] in E.
  destruct (command_target b =? PGN_RM_LOCKED_HEADING);
    [| apply some_eq in H; subst w'; exact E].
  destruct (gf65360_extractMagHeading (ptr_add b 4) (n - 4));
    [| apply some_eq in H; subst w'; exact E].
  destruct (normalize360 fuel f); [| discriminate].
  apply some_eq in H. subst w'. exact E.
Qed.

Lemma loop_rx_outputs_ok (fuel : nat) (ms : Z) (m : twai_message)
  (w w' : World) :
  loop_rx fuel ms m w = Some w' ->
  exists os, tx w' = tx w ++ os /\ forallb rx_output_ok os = true.
Proof.
  intros H. unfold loop_rx in H.
  assert (Hnil : exists os, tx w = tx w ++ os
                            /\ forallb rx_output_ok os = true)
    by (exists []; rewrite app_nil_r; split; reflexivity).
  destruct (extd m); cbn [negb] in H;
    [| apply some_eq in H; subst w'; exact Hnil].
  destruct (extractPGN (identifier m) =? PGN_CMD_GROUP).
  { unfold handle_126208_entry in H.
    destruct (data_length_code m <=? 0);
      [apply some_eq in H; subst w'; exact Hnil |].
    destruct (Z.land (byte_at (data m) 0) 224 >=? 160);
      [exact (handle_full_outputs_ok _ _ _ _ _ _ H) |].
    destruct (fr_cmd (feed_126208 (grp w)
                        (u8 (Z.land (identifier m) 255)) (data m)
                        (data_length_code m))) as [c |].
    - exact (handle_full_outputs_ok _ _ _ _ _ _ H).
    - apply some_eq in H. subst w'. exact Hnil. }
  destruct (extractPGN (identifier m) =? PGN_ISO_REQUEST).
  { destruct (data_length_code m >=? 3);
      [exact (request_outputs_ok _ _ _ _ _ H) |].
    apply some_eq in H. subst w'. exact Hnil. }
  repeat match type of H with
         | (if ?c then _ else _) = _ => destruct c
         end;
    apply some_eq in H; subst w'; exact Hnil.
Qed.

(** X10.  Whatever frames are received, everything the receive path has
    transmitted is well formed: every CAN frame has eight data bytes, each
    in 0..255, under a 29-bit identifier whose source address is 33, and
    every SeaTalk datagram is the keystroke [86 21 code ~code] of one of
    the six keys. *)
Theorem received_frames_transmit_well_formed (fuel : nat) (w : World) :
  rx_reachable fuel w -> forallb rx_output_ok (tx w) = true.
Proof.
  intros Hr. induction Hr as [| w w' ms m Hr IH Hb E]; [reflexivity |].
  destruct (loop_rx_outputs_ok fuel ms m w w' E) as (os & T & Hok).
  rewrite T. apply forallb_app_true; assumption.
Qed.

Lemma received_frames_transmit_well_formed_witness :
  exists w',
    loop_rx 2 0
      (mkMsg (n2k_id 6 PGN_ISO_REQUEST 5) true 3 [0x14; 0xF0; 0x01])
      initial_world = Some w'
    /\ forallb rx_output_ok (tx w') = true.
Proof.
  destruct (loop_rx 2 0
              (mkMsg (n2k_id 6 PGN_ISO_REQUEST 5) true 3 [0x14; 0xF0; 0x01])
              initial_world) as [w' |] eqn:E;
    [| vm_compute in E; discriminate].
  exists w'. split; [reflexivity |].
  apply (received_frames_transmit_well_formed 2).
  refine (rx_frame 2 initial_world w' 0 _ (rx_setup 2) _ E).
  unfold is_bytes. cbn [data].
  repeat (apply Forall_cons; [lia |]). apply Forall_nil.
Defined.

(** ** Headings out and back *)

Lemma u16_join (a : Z) :
  0 <= a < 65536 ->
  Z.lor (Z.land a 255) (Z.shiftl (Z.shiftr a 8) 8) = a.
Proof.
  intros Ha. change 255 with (2 ^ 8 - 1).
  rewrite land_low_mod, Z.shiftr_div_pow2, Z.shiftl_mul_pow2 by lia.
  rewrite Z.lor_comm.
  rewrite lor_disjoint_add;
    [| lia | apply Z.mod_pos_bound; lia].
  symmetry. rewrite Z.mul_comm. apply Z.div_mod. lia.
Qed.

Lemma send_127250_frame (h : f32) (ref : HeadingRef) :
  send_127250 h ref
  = [CanTx (n2k_id 2 PGN_VESSEL_HEAD SA)
       [0x00; Z.land (heading_q h) 255;
        Z.land (Z.shiftr (heading_q h) 8) 255; 0xFF; 0xFF; 0xFF; 0xFF;
        match ref with REF_TRUE => 0 | REF_MAG => 1 end]].
Proof.
  unfold send_127250, n2k_send_single, twai_tx, put_i16le. cbv zeta.
  generalize (heading_q h). intros q. destruct ref; reflexivity.
Qed.

Lemma raw_finite (raw : Z) :
  0 <= raw < 65536 -> F32.isfinite (raw_to_deg raw) = true.
Proof.
  intros Hr. destruct (normalize360_raw raw Hr) as (h & _ & _ & _ & _ & F).
  exact F.
Qed.

Lemma wrap_turn_range (raw : Z) :
  0 <= raw < 65536 -> 0 <= wrap_turn raw < 65536.
Proof.
  intros Hr. unfold wrap_turn. destruct (raw <? 62832) eqn:E; zbool; lia.
Qed.

Lemma loop_rx_heading (fuel : nat) (ms : Z) (m : twai_message) (w : World) :
  extd m = true ->
  extractPGN (identifier m) = PGN_VESSEL_HEAD ->
  3 <= data_length_code m ->
  loop_rx fuel ms m w = Some (set_hdg (raw_to_deg (u16le (data m) 1)) w).
Proof.
  intros Hx Hp Hn. unfold loop_rx. rewrite Hx, Hp. cbn [negb].
  change (PGN_VESSEL_HEAD =? PGN_CMD_GROUP) with false.
  change (PGN_VESSEL_HEAD =? PGN_ISO_REQUEST) with false.
  change (PGN_VESSEL_HEAD =? PGN_VESSEL_HEAD) with true. cbv iota.
  replace (data_length_code m >=? 3) with true
    by (symmetry; rewrite Z.geb_leb; apply Z.leb_le; exact Hn).
  rewrite (raw_finite _ (u16le_range (data m) 1)). reflexivity.
Qed.

(** X11.  The heading round trip of PGN 127250.  A received heading
    frame (three bytes or more) sets the current heading to the 16-bit
    angle of its bytes 1..2; the 127250 frame that the sketch sends for
    that heading carries the same 16-bit angle, less one turn (62832) if
    it exceeded one, and the reference flag in byte 7; and the sketch,
    receiving its own frame, ends with the heading of that angle: for an
    angle below a full turn the heading is as before. *)
Theorem heading_frame_roundtrip (fuel : nat) (ms : Z) (m : twai_message)
  (w : World) :
  let raw := u16le (data m) 1 in
  extd m = true ->
  extractPGN (identifier m) = PGN_VESSEL_HEAD ->
  3 <= data_length_code m ->
  exists w' d,
    loop_rx fuel ms m w = Some w'
    /\ hdg_deg_now w' = raw_to_deg raw
    /\ send_127250 (hdg_deg_now w') (headingRef w')
       = [CanTx (n2k_id 2 PGN_VESSEL_HEAD SA) d]
    /\ length d = 8%nat
    /\ u16le d 1 = wrap_turn raw
    /\ byte_at d 7 = match headingRef w with REF_TRUE => 0 | REF_MAG => 1 end
    /\ loop_rx fuel ms (as_received (CanTx (n2k_id 2 PGN_VESSEL_HEAD SA) d))
         w'
       = Some (set_hdg (raw_to_deg (wrap_turn raw)) w').
Proof.
  intros raw Hx Hp Hn.
  pose proof (u16le_range (data m) 1) as Hr. fold raw in Hr.
  destruct (raw_heading_facts raw Hr) as (_ & Hq & _).
  set (d := [0x00; Z.land (heading_q (raw_to_deg raw)) 255;
             Z.land (Z.shiftr (heading_q (raw_to_deg raw)) 8) 255;
             0xFF; 0xFF; 0xFF; 0xFF;
             match headingRef w with REF_TRUE => 0 | REF_MAG => 1 end]).
  assert (Ed : u16le d 1 = wrap_turn raw) by exact Hq.
  exists (set_hdg (raw_to_deg raw) w), d.
  split; [apply loop_rx_heading; assumption |].
  cbn [set_hdg hdg_deg_now headingRef].
  split; [reflexivity |].
  split; [apply send_127250_frame |].
  split; [reflexivity |].
  split; [exact Ed |].
  split; [reflexivity |].
  rewrite (loop_rx_heading fuel ms
             (as_received (CanTx (n2k_id 2 PGN_VESSEL_HEAD SA) d)) _
             eq_refl eq_refl ltac:(cbn; lia)).
  cbn [as_received data]. rewrite Ed. reflexivity.
Qed.

Lemma heading_frame_roundtrip_witness :
  exists w' d,
    loop_rx 2 0
      (mkMsg (n2k_id 2 PGN_VESSEL_HEAD 5) true 8
         [0x00; 0x5C; 0x3D; 0xFF; 0xFF; 0xFF; 0xFF; 0x01])
      initial_world = Some w'
    /\ send_127250 (hdg_deg_now w') (headingRef w')
       = [CanTx (n2k_id 2 PGN_VESSEL_HEAD SA) d]
    /\ u16le d 1 = 0x3D5C.
Proof.
  destruct (heading_frame_roundtrip 2 0
              (mkMsg (n2k_id 2 PGN_VESSEL_HEAD 5) true 8
                 [0x00; 0x5C; 0x3D; 0xFF; 0xFF; 0xFF; 0xFF; 0x01])
              initial_world)
    as (w' & d & E & _ & S & _ & U & _).
  - reflexivity.
  - vm_compute. reflexivity.
  - cbn. lia.
  - exists w', d. split; [exact E |]. split; [exact S |]. exact U.
Defined.

Lemma deg_to_rad_more (k k' : nat) (h : f32) (a : Z) :
  deg_to_rad1e4_u16 k h = Some a -> (k <= k')%nat ->
  deg_to_rad1e4_u16 k' h = Some a.
Proof.
  unfold deg_to_rad1e4_u16. intros H Hk.
  destruct (normalize360 k h) as [d |] eqn:E; [| discriminate].
  rewrite (normalize360_more k k' h d E Hk). exact H.
Qed.

Lemma in_range_not_nan (h : f32) :
  heading_in_range h = true -> F32.isnan h = false.
Proof. destruct h; [reflexivity | reflexivity | discriminate | reflexivity]. Qed.

Lemma locked_heading_frame (fuel : nat) (h : f32) (ang : Z) :
  F32.isnan h = false ->
  deg_to_rad1e4_u16 fuel h = Some ang ->
  0 <= ang < 65536 ->
  exists p,
    send_65360_locked_heading fuel h
    = Some [CanTx (n2k_id 3 PGN_RM_LOCKED_HEADING SA) p]
    /\ length p = 8%nat
    /\ u16le p 3 = ang /\ u16le p 5 = ang.
Proof.
  intros Hn Hd Ha. unfold send_65360_locked_heading. rewrite Hn, Hd.
  cbv zeta. eexists. split; [reflexivity |].
  split; [reflexivity |].
  assert (E : u16 (Z.lor (u8 (Z.land ang 255))
                     (Z.shiftl (u8 (Z.shiftr ang 8)) 8)) = ang).
  { assert (E1 : u8 (Z.land ang 255) = Z.land ang 255).
    { unfold u8. apply Z.mod_small. change 255 with (2 ^ 8 - 1).
      rewrite land_low_mod by lia. apply Z.mod_pos_bound. lia. }
    assert (E2 : u8 (Z.shiftr ang 8) = Z.shiftr ang 8).
    { unfold u8. apply Z.mod_small. rewrite Z.shiftr_div_pow2 by lia.
      Z.div_mod_to_equations. lia. }
    rewrite E1, E2, u16_join by exact Ha.
    unfold u16. apply Z.mod_small. lia. }
  split; exact E.
Qed.

Lemma heading_command_write (func raw : Z) :
  func <> 0x01 -> 0 <= raw < 65536 ->
  writes_locked_heading (heading_command func raw) 7 = true
  /\ gf65360_extractMagHeading (ptr_add (heading_command func raw) 4) (7 - 4)
     = Some (raw_to_deg raw).
Proof.
  intros Hf Hr.
  assert (Ex : gf65360_extractMagHeading
                 (ptr_add (heading_command func raw) 4) (7 - 4)
               = Some (raw_to_deg raw)).
  { unfold heading_command, gf65360_extractMagHeading, ptr_add.
    change (Z.to_nat 4) with 4%nat. cbn [skipn].
    change (Z.to_nat (7 - 4 - 2)) with 1%nat. cbn [gf65360_scan].
    change (0 <=? 7 - 4 - 3) with true. cbv iota.
    change (byte_at (6 :: ?l) 0 =? 6) with true. cbv iota zeta.
    f_equal. f_equal. unfold u16le.
    change (byte_at [6; Z.land raw 255; Z.shiftr raw 8] (0 + 1))
      with (Z.land raw 255).
    change (byte_at [6; Z.land raw 255; Z.shiftr raw 8] (0 + 1 + 1))
      with (Z.shiftr raw 8).
    rewrite u16_join by exact Hr. unfold u16. apply Z.mod_small. lia. }
  split; [| exact Ex].
  unfold writes_locked_heading. rewrite Ex.
  change (byte_at (heading_command func raw) 0) with func.
  replace (func =? 1) with false by (symmetry; apply Z.eqb_neq; exact Hf).
  reflexivity.
Qed.

(** X12.  The locked-heading round trip of PGN 65360.  A write command
    for PGN 65360 with the heading field [06 lo hi] sets the locked
    heading, whatever else its bytes do to the mode; the 65360 frame that
    the sketch then sends for its locked heading carries, in both angle
    fields (bytes 3..4 and 5..6), the same 16-bit angle, less one turn
    (62832) if it exceeded one. *)
Theorem locked_heading_roundtrip (fuel : nat) (ms func raw : Z) (w : World) :
  (2 <= fuel)%nat -> func <> 0x01 -> 0 <= raw < 65536 ->
  exists w' p,
    handle_126208_full fuel ms (heading_command func raw) 7 w = Some w'
    /\ send_65360_locked_heading fuel (locked_hdg_deg w')
       = Some [CanTx (n2k_id 3 PGN_RM_LOCKED_HEADING SA) p]
    /\ length p = 8%nat
    /\ u16le p 3 = wrap_turn raw
    /\ u16le p 5 = wrap_turn raw.
Proof.
  intros Hfu Hf Hr.
  destruct (heading_command_write func raw Hf Hr) as (Hw & Ex).
  destruct (raw_heading_facts raw Hr) as (_ & _ & h & Hn & Hin & Hd & _).
  rewrite (handle_full_heading_write fuel ms _ 7 w _ Hw Ex).
  rewrite (normalize360_more 2 fuel _ _ Hn Hfu).
  destruct (locked_heading_frame fuel h (wrap_turn raw)
              (in_range_not_nan h Hin)
              (deg_to_rad_more 2 fuel h _ Hd Hfu)
              (wrap_turn_range raw Hr)) as (p & Es & Lp & U3 & U5).
  eexists. exists p. split; [reflexivity |].
  cbn [set_locked locked_hdg_deg]. auto.
Qed.

Lemma locked_heading_roundtrip_witness :
  exists w' p,
    handle_126208_full 2 0 (heading_command 0x00 0x3D5C) 7 initial_world
    = Some w'
    /\ send_65360_locked_heading 2 (locked_hdg_deg w')
       = Some [CanTx (n2k_id 3 PGN_RM_LOCKED_HEADING SA) p]
    /\ u16le p 3 = 0x3D5C.
Proof.
  destruct (locked_heading_roundtrip 2 0 0x00 0x3D5C initial_world)
    as (w' & p & E & S & _ & U & _).
  - lia.
  - discriminate.
  - lia.
  - exists w', p. split; [exact E |]. split; [exact S | exact U].
Defined.

(** ** The status message *)

Lemma send_127237_payload (ms : Z) (mode : SteeringMode) (ref : HeadingRef)
  (h : f32) :
  let steer := match mode with
               | SM_STANDBY => 0 | SM_AUTO => 4 | SM_WIND => 4 | SM_TRACK => 5
               end in
  let refBits := match ref with REF_TRUE => 0 | REF_MAG => 1 end in
  fp_payload (map can_data (send_127237 ms mode ref h))
  = [0x00; steer + 64 * refBits]
    ++ repeat 0xFF 11
    ++ put_i16le (heading_q h)
    ++ repeat 0xFF 6.
Proof.
  intros steer refBits. subst steer refBits.
  unfold send_127237, put_i16le. cbv zeta.
  generalize (Z.land (heading_q h) 255) as lo.
  generalize (Z.land (Z.shiftr (heading_q h) 8) 255) as hi.
  intros hi lo.
  destruct mode, ref;
    match goal with
    | |- fp_payload (map can_data (n2k_send_fast _ _ ?q _ _)) = _ =>
        set (p := q);
        assert (Ep : p = [0x00; byte_at p 1] ++ repeat 0xFF 11 ++ [lo; hi]
                         ++ repeat 0xFF 6) by reflexivity;
        change 21 with (Z.of_nat (length p));
        destruct (send_fast_segments ms PGN_AP_STATUS 2 p
                    ltac:(rewrite Ep; cbn; lia))
          as (f0 & rest & E & H1 & Hs);
        rewrite E, (fp_payload_of_segments f0 rest p _ H1 Hs);
        rewrite Ep; reflexivity
    end.
Qed.

(** X13.  The status message reports the commanded heading.  After a
    write command for PGN 65360 with the heading field [06 lo hi], the
    status timer of [loop] sends the 127237 message (heading to steer:
    the locked heading) and then the 127250 frame; the 127237 message
    reassembles to 21 bytes: the steering code (0 standby, 4 auto and
    wind alike, 5 track) with the reference in bits 6..7 in byte 1, the
    same 16-bit angle in bytes 13..14, less one turn (62832) if it
    exceeded one, and 0xFF in bytes 2..12 and 15..20. *)
Theorem status_reports_commanded_heading (fuel : nat) (ms ms' func raw : Z)
  (w : World) :
  (2 <= fuel)%nat -> func <> 0x01 -> 0 <= raw < 65536 ->
  exists w' st p,
    handle_126208_full fuel ms (heading_command func raw) 7 w = Some w'
    /\ periodic_status ms' w'
       = st ++ send_127250 (hdg_deg_now w') (headingRef w')
    /\ fp_payload (map can_data st) = p
    /\ length p = 21%nat
    /\ byte_at p 1
       = match currentMode w' with
         | PM_STBY => 0 | PM_AUTO => 4 | PM_WIND => 4 | PM_TRACK => 5
         end
         + 64 * match headingRef w' with REF_TRUE => 0 | REF_MAG => 1 end
    /\ u16le p 13 = wrap_turn raw
    /\ firstn 11 (ptr_add p 2) = repeat 0xFF 11
    /\ ptr_add p 15 = repeat 0xFF 6.
Proof.
  intros Hfu Hf Hr.
  destruct (heading_command_write func raw Hf Hr) as (Hw & Ex).
  destruct (raw_heading_facts raw Hr)
    as (_ & _ & h & Hn & Hin & _ & Hq).
  rewrite (handle_full_heading_write fuel ms _ 7 w _ Hw Ex).
  rewrite (normalize360_more 2 fuel _ _ Hn Hfu).
  eexists. eexists. eexists. split; [reflexivity |].
  split; [reflexivity |].
  split; [reflexivity |].
  rewrite send_127237_payload.
  unfold heading_to_steer. cbn [set_locked locked_hdg_deg hdg_deg_now
                                 currentMode headingRef].
  rewrite (in_range_not_nan h Hin).
  split; [reflexivity |].
  split; [destruct (currentMode _), (headingRef _); reflexivity |].
  split; [exact Hq |]. split; reflexivity.
Qed.

Lemma status_reports_commanded_heading_witness :
  exists w' st p,
    handle_126208_full 2 0 (heading_command 0x00 0x3D5C) 7 initial_world
    = Some w'
    /\ periodic_status 1000 w'
       = st ++ send_127250 (hdg_deg_now w') (headingRef w')
    /\ fp_payload (map can_data st) = p
    /\ u16le p 13 = 0x3D5C.
Proof.
  destruct (status_reports_commanded_heading 2 0 1000 0x00 0x3D5C
              initial_world)
    as (w' & st & p & E & S & P & _ & _ & U & _).
  - lia.
  - discriminate.
  - lia.
  - exists w', st, p. split; [exact E |]. split; [exact S |].
    split; [exact P | exact U].
Defined.

(** ** The navigation datagram *)

Lemma nibble_range (x : Z) : 0 <= Z.land x 0x0F < 16.
Proof.
  change 0x0F with (2 ^ 4 - 1). rewrite land_low_mod by lia.
  apply Z.mod_pos_bound. lia.
Qed.

Lemma byte_ok_u8 (x : Z) : byte_ok (u8 x) = true.
Proof.
  unfold byte_ok, u8. pose proof (Z.mod_pos_bound x 256 ltac:(lia)).
  apply andb_true_iff. split; [apply Z.leb_le | apply Z.ltb_lt]; lia.
Qed.

Lemma byte_ok_land (x : Z) : byte_ok (Z.land x 0xFF) = true.
Proof.
  change 0xFF with (2 ^ 8 - 1). rewrite land_low_mod by lia.
  apply (byte_ok_u8 x).
Qed.

Ltac nibble_cases y H :=
  assert (Hc : y = 0 \/ y = 1 \/ y = 2 \/ y = 3 \/ y = 4 \/ y = 5 \/ y = 6
               \/ y = 7 \/ y = 8 \/ y = 9 \/ y = 10 \/ y = 11 \/ y = 12
               \/ y = 13 \/ y = 14 \/ y = 15) by lia;
  clear H;
  repeat (destruct Hc as [Hc | Hc]; [subst y |]); [.. | subst y].

(** The flag byte [(Y<<4)|F] of the datagram. *)
Lemma flag_byte (y : Z) (lt10 neg track : bool) :
  0 <= y < 16 ->
  let Y1 := if lt10 then Z.lor y 0x01 else y in
  let Y := if neg then Z.lor Y1 0x04 else Y1 in
  let F := if track then 0x07 else 0x05 in
  let b := u8 (Z.lor (Z.shiftl Y 4) F) in
  Z.land b 0x0F = F /\ Z.shiftr b 4 = Y
  /\ (lt10 = true -> Z.testbit Y 0 = true)
  /\ (neg = true -> Z.testbit Y 2 = true).
Proof.
  intros H. nibble_cases y H; destruct lt10, neg, track; cbv zeta;
    (split; [reflexivity |]); (split; [reflexivity |]);
    split; intros E; first [reflexivity | discriminate].
Qed.

Lemma attribute_byte (x : Z) :
  0 <= x < 16 -> Z.shiftr (u8 (Z.lor 0x60 x)) 4 = 6.
Proof. intros H. nibble_cases x H; reflexivity. Qed.

Lemma quadrant_byte (v q : Z) :
  0 <= v < 16 ->
  Z.land (u8 (Z.lor (Z.shiftl v 4) (Z.land q 0x03))) 0x0F = Z.land q 0x03
  /\ 0 <= Z.land q 0x03 < 4.
Proof.
  intros H.
  assert (Hq : 0 <= Z.land q 3 < 4).
  { change 3 with (2 ^ 2 - 1). rewrite land_low_mod by lia.
    apply Z.mod_pos_bound. lia. }
  split; [| exact Hq].
  generalize dependent (Z.land q 3). intros u Hu.
  assert (Hu4 : u = 0 \/ u = 1 \/ u = 2 \/ u = 3) by lia.
  clear Hu.
  nibble_cases v H; destruct Hu4 as [-> | [-> | [-> | ->]]]; reflexivity.
Qed.

(** X14.  Whatever the inputs (NaN and infinities included),
    [st_send_nav_0x85] writes one datagram of nine bytes, each in
    0..255: the command 0x85, the attribute nibble 6 above the high
    nibble of the cross-track error, the quadrant 0..3 in the low nibble
    of byte 3, 0x00 in byte 7, and byte 8 equal to byte 6, whose low
    nibble is 7 when tracking and 5 otherwise; byte 6 has bit 6 set when
    the cross-track error is negative and bit 4 set when the distance is
    below 10 nm. *)
Theorem nav_datagram_shape (xte brg dist : f32) (track : bool) :
  exists p,
    st_send_nav_0x85 xte brg dist track = [StTx p]
    /\ length p = 9%nat
    /\ forallb byte_ok p = true
    /\ byte_at p 0 = 0x85
    /\ Z.shiftr (byte_at p 1) 4 = 6
    /\ 0 <= Z.land (byte_at p 3) 0x0F < 4
    /\ byte_at p 7 = 0x00
    /\ byte_at p 8 = byte_at p 6
    /\ nav_F p = (if track then 0x07 else 0x05)
    /\ (F32.ltb xte (F32.of_Z 0) = true -> Z.testbit (byte_at p 6) 6 = true)
    /\ (F32.ltb dist (F32.of_Z 10) = true ->
        Z.testbit (byte_at p 6) 4 = true).
Proof.
  unfold st_send_nav_0x85. cbv zeta.
  set (X := u16 (F32.to_Z (F32.roundf
                   (F32.mul (clampf (F32.fabsf xte) _ _) _)))).
  set (D := u16 (F32.to_Z (F32.roundf (F32.mul (clampf dist _ _) _)))).
  set (q := u8 (F32.to_Z (F32.floorf _))).
  set (WV := u8 (F32.to_Z (F32.roundf _))).
  clearbody X D q WV.
  set (lt10 := F32.ltb dist (F32.of_Z 10)).
  set (neg := F32.ltb xte (F32.of_Z 0)).
  clearbody lt10 neg.
  unfold st_write_datagram. change (9 =? 0) with false. cbv iota.
  change (Z.to_nat 9) with 9%nat. cbn [firstn].
  match goal with
  | |- exists p, [StTx ?L] = _ /\ _ => exists L
  end.
  split; [reflexivity |].
  split; [reflexivity |].
  unfold nav_F.
  repeat match goal with
  | |- context [byte_at [?b0; ?b1; ?b2; ?b3; ?b4; ?b5; ?b6; ?b7; ?b8] 0] =>
      change (byte_at [b0; b1; b2; b3; b4; b5; b6; b7; b8] 0) with b0
  | |- context [byte_at [?b0; ?b1; ?b2; ?b3; ?b4; ?b5; ?b6; ?b7; ?b8] 1] =>
      change (byte_at [b0; b1; b2; b3; b4; b5; b6; b7; b8] 1) with b1
  | |- context [byte_at [?b0; ?b1; ?b2; ?b3; ?b4; ?b5; ?b6; ?b7; ?b8] 3] =>
      change (byte_at [b0; b1; b2; b3; b4; b5; b6; b7; b8] 3) with b3
  | |- context [byte_at [?b0; ?b1; ?b2; ?b3; ?b4; ?b5; ?b6; ?b7; ?b8] 6] =>
      change (byte_at [b0; b1; b2; b3; b4; b5; b6; b7; b8] 6) with b6
  | |- context [byte_at [?b0; ?b1; ?b2; ?b3; ?b4; ?b5; ?b6; ?b7; ?b8] 7] =>
      change (byte_at [b0; b1; b2; b3; b4; b5; b6; b7; b8] 7) with b7
  | |- context [byte_at [?b0; ?b1; ?b2; ?b3; ?b4; ?b5; ?b6; ?b7; ?b8] 8] =>
      change (byte_at [b0; b1; b2; b3; b4; b5; b6; b7; b8] 8) with b8
  end.
  pose proof (flag_byte (Z.land D 15) lt10 neg track (nibble_range D))
    as HF. cbv zeta in HF. destruct HF as (F1 & F2 & F3 & F4).
  set (fb := u8 (Z.lor (Z.shiftl _ 4) (if track then 7 else 5))) in *.
  split.
  { assert (Hfb : byte_ok fb = true) by apply byte_ok_u8.
    cbn [forallb]. rewrite !byte_ok_u8, !byte_ok_land, Hfb. reflexivity. }
  split; [reflexivity |].
  split; [apply attribute_byte, nibble_range |].
  split.
  { destruct (quadrant_byte (Z.land WV 15) q (nibble_range WV)) as (E & R).
    rewrite E. exact R. }
  split; [reflexivity |]. split; [reflexivity |].
  split; [exact F1 |].
  split.
  - intros Hn. specialize (F4 Hn). rewrite <- F2 in F4.
    rewrite Z.shiftr_spec in F4 by lia. exact F4.
  - intros Hl. specialize (F3 Hl). rewrite <- F2 in F3.
    rewrite Z.shiftr_spec in F3 by lia. exact F3.
Qed.

(** Comparisons of binary32 values against the constants of the
    datagram. *)
Lemma fabsf_not_negative (x : f32) :
  F32.ltb (F32.fabsf x) (F32.of_Z 0) = false.
Proof. destruct x as [s | s | | s m e]; reflexivity. Qed.

Lemma above_range_not_below (x : f32) :
  F32.gtb x (F32.of_ratio 4095 10) = true ->
  F32.ltb x (F32.of_Z 0) = false /\ F32.ltb x (F32.of_Z 10) = false.
Proof.
  unfold F32.gtb, F32.ltb.
  change (F32.of_ratio 4095 10) with (S754_finite false 13418496 (-15)).
  change (F32.of_Z 0) with (S754_zero false).
  change (F32.of_Z 10) with (S754_finite false 10485760 (-20)).
  destruct x as [s | s | | s m e]; try discriminate.
  - destruct s; [discriminate |]. intros _. split; reflexivity.
  - destruct s; [discriminate |]. unfold SFltb, SFcompare.
    destruct (Z.compare_spec (-15) e) as [He | He | He];
      try discriminate; intros _;
      (split; [reflexivity |]);
      destruct (Z.compare_spec e (-20)) as [He' | He' | He'];
      try reflexivity; lia.
Qed.

Lemma negative_below_ten (x : f32) :
  F32.ltb x (F32.of_Z 0) = true -> F32.ltb x (F32.of_Z 10) = true.
Proof.
  unfold F32.ltb.
  change (F32.of_Z 0) with (S754_zero false).
  change (F32.of_Z 10) with (S754_finite false 10485760 (-20)).
  destruct x as [s | s | | s m e]; try discriminate;
    destruct s; try discriminate; reflexivity.
Qed.

(** X15.  The fields of the navigation datagram saturate.  A
    cross-track error beyond 40.95 nm in either direction is sent as
    4095 (bytes 1..2 are 6F FF); a distance beyond 409.5 nm is sent as
    4095 (high nibble of byte 4 and byte 5 all ones); a negative
    distance is sent as 0 with the below-10 flag (bit 4 of byte 6). *)
Theorem nav_fields_saturate (xte brg dist : f32) (track : bool) :
  (F32.gtb (F32.fabsf xte) (F32.of_ratio 4095 100) = true ->
   exists p, st_send_nav_0x85 xte brg dist track = [StTx p]
             /\ nav_xte p = 4095
             /\ byte_at p 1 = 0x6F /\ byte_at p 2 = 0xFF)
  /\ (F32.gtb dist (F32.of_ratio 4095 10) = true ->
      exists p, st_send_nav_0x85 xte brg dist track = [StTx p]
                /\ nav_distance_Z_ZZ p = 4095
                /\ nav_distance_ZZ_Z p = 4095
                /\ Z.shiftr (byte_at p 4) 4 = 0x0F /\ byte_at p 5 = 0xFF)
  /\ (F32.ltb dist (F32.of_Z 0) = true ->
      exists p, st_send_nav_0x85 xte brg dist track = [StTx p]
                /\ nav_distance_Z_ZZ p = 0
                /\ nav_distance_ZZ_Z p = 0
                /\ Z.testbit (byte_at p 6) 4 = true).
Proof.
  split; [| split].
  - intros Hx. unfold st_send_nav_0x85. cbv zeta.
    assert (Ec : clampf (F32.fabsf xte) (F32.of_Z 0) (F32.of_ratio 4095 100)
                 = F32.of_ratio 4095 100)
      by (unfold clampf; rewrite fabsf_not_negative, Hx; reflexivity).
    rewrite Ec.
    change (u16 (F32.to_Z (F32.roundf
                   (F32.mul (F32.of_ratio 4095 100) (F32.of_Z 100)))))
      with 4095.
    unfold st_write_datagram. change (9 =? 0) with false. cbv iota.
    change (Z.to_nat 9) with 9%nat. cbn [firstn].
    eexists. split; [reflexivity |]. repeat split.
  - intros Hd. destruct (above_range_not_below dist Hd) as (H0 & H10).
    unfold st_send_nav_0x85. cbv zeta.
    assert (Ec : clampf dist (F32.of_Z 0) (F32.of_ratio 4095 10)
                 = F32.of_ratio 4095 10)
      by (unfold clampf; rewrite H0, Hd; reflexivity).
    rewrite Ec, H10.
    change (u16 (F32.to_Z (F32.roundf
                   (F32.mul (F32.of_ratio 4095 10) (F32.of_Z 10)))))
      with 4095.
    unfold st_write_datagram. change (9 =? 0) with false. cbv iota.
    change (Z.to_nat 9) with 9%nat. cbn [firstn].
    eexists. split; [reflexivity |].
    unfold nav_distance_Z_ZZ, nav_distance_ZZ_Z.
    repeat match goal with
    | |- context [byte_at [?b0; ?b1; ?b2; ?b3; ?b4; ?b5; ?b6; ?b7; ?b8] 4] =>
        change (byte_at [b0; b1; b2; b3; b4; b5; b6; b7; b8] 4) with b4
    | |- context [byte_at [?b0; ?b1; ?b2; ?b3; ?b4; ?b5; ?b6; ?b7; ?b8] 5] =>
        change (byte_at [b0; b1; b2; b3; b4; b5; b6; b7; b8] 5) with b5
    end.
    change (Z.land (Z.shiftr 4095 8) 15) with 15.
    change (Z.land (Z.shiftr 4095 4) 255) with 255.
    match goal with
    | |- context [Z.land (Z.shiftr ?WV 4) 15] =>
        pose proof (nibble_range (Z.shiftr WV 4)) as Hw;
        generalize dependent (Z.land (Z.shiftr WV 4) 15)
    end.
    intros wv Hw. nibble_cases wv Hw; repeat split.
  - intros Hd. pose proof (negative_below_ten dist Hd) as H10.
    unfold st_send_nav_0x85. cbv zeta.
    assert (Ec : clampf dist (F32.of_Z 0) (F32.of_ratio 4095 10)
                 = F32.of_Z 0)
      by (unfold clampf; rewrite Hd; reflexivity).
    rewrite Ec, H10.
    change (u16 (F32.to_Z (F32.roundf
                   (F32.mul (F32.of_Z 0) (F32.of_Z 100)))))
      with 0.
    unfold st_write_datagram. change (9 =? 0) with false. cbv iota.
    change (Z.to_nat 9) with 9%nat. cbn [firstn].
    eexists. split; [reflexivity |].
    unfold nav_distance_Z_ZZ, nav_distance_ZZ_Z.
    repeat match goal with
    | |- context [byte_at [?b0; ?b1; ?b2; ?b3; ?b4; ?b5; ?b6; ?b7; ?b8] 4] =>
        change (byte_at [b0; b1; b2; b3; b4; b5; b6; b7; b8] 4) with b4
    | |- context [byte_at [?b0; ?b1; ?b2; ?b3; ?b4; ?b5; ?b6; ?b7; ?b8] 5] =>
        change (byte_at [b0; b1; b2; b3; b4; b5; b6; b7; b8] 5) with b5
    | |- context [byte_at [?b0; ?b1; ?b2; ?b3; ?b4; ?b5; ?b6; ?b7; ?b8] 6] =>
        change (byte_at [b0; b1; b2; b3; b4; b5; b6; b7; b8] 6) with b6
    end.
    change (Z.land (Z.shiftr 0 8) 15) with 0.
    change (Z.land (Z.shiftr 0 4) 255) with 0.
    change (Z.land 0 15) with 0.
    match goal with
    | |- context [Z.land (Z.shiftr ?WV 4) 15] =>
        pose proof (nibble_range (Z.shiftr WV 4)) as Hw;
        generalize dependent (Z.land (Z.shiftr WV 4) 15)
    end.
    intros wv Hw.
    destruct (F32.ltb xte (F32.of_Z 0)), track;
      nibble_cases wv Hw; repeat split.
Qed.

Lemma nav_fields_saturate_witness :
  exists p,
    st_send_nav_0x85 (F32.of_Z (-50)) (F32.of_Z 0) (F32.of_Z 500) false
    = [StTx p]
    /\ nav_xte p = 4095.
Proof.
  destruct (proj1 (nav_fields_saturate (F32.of_Z (-50)) (F32.of_Z 0)
                     (F32.of_Z 500) false) eq_refl)
    as (p & E & X & _).
  exists p. split; [exact E | exact X].
Defined.

(** ** The NAME of the address claim *)

Lemma lor_low_high (lo hi k : Z) :
  0 <= k -> 0 <= lo < 2 ^ k -> Z.lor lo (hi * 2 ^ k) = lo + hi * 2 ^ k.
Proof.
  intros Hk Hlo. rewrite Z.lor_comm, lor_disjoint_add by assumption. lia.
Qed.

Lemma packNAME_sum (unique mfg dev_inst func_inst func dev_class ind_gr : Z)
  (aac : bool) :
  packNAME unique mfg dev_inst func_inst func dev_class ind_gr aac
  = unique mod 2 ^ 21 + (mfg mod 2 ^ 11) * 2 ^ 21
    + (dev_inst mod 2 ^ 3) * 2 ^ 32 + (func_inst mod 2 ^ 5) * 2 ^ 35
    + (func mod 2 ^ 8) * 2 ^ 40 + 1 * 2 ^ 48
    + (dev_class mod 2 ^ 7) * 2 ^ 49 + (ind_gr mod 2 ^ 3) * 2 ^ 60
    + (if aac then 1 else 0) * 2 ^ 63.
Proof.
  unfold packNAME. cbv zeta.
  change (Z.land unique 0x1FFFFF) with (Z.land unique (2 ^ 21 - 1)).
  change (Z.land mfg 0x07FF) with (Z.land mfg (2 ^ 11 - 1)).
  change (Z.land dev_inst 0x07) with (Z.land dev_inst (2 ^ 3 - 1)).
  change (Z.land func_inst 0x1F) with (Z.land func_inst (2 ^ 5 - 1)).
  change (Z.land func 0xFF) with (Z.land func (2 ^ 8 - 1)).
  change (Z.land dev_class 0x7F) with (Z.land dev_class (2 ^ 7 - 1)).
  change (Z.land ind_gr 0x07) with (Z.land ind_gr (2 ^ 3 - 1)).
  rewrite !land_low_mod by lia.
  pose proof (Z.mod_pos_bound unique (2 ^ 21) ltac:(lia)) as Ha.
  pose proof (Z.mod_pos_bound mfg (2 ^ 11) ltac:(lia)) as Hb.
  pose proof (Z.mod_pos_bound dev_inst (2 ^ 3) ltac:(lia)) as Hc.
  pose proof (Z.mod_pos_bound func_inst (2 ^ 5) ltac:(lia)) as Hd.
  pose proof (Z.mod_pos_bound func (2 ^ 8) ltac:(lia)) as He.
  pose proof (Z.mod_pos_bound dev_class (2 ^ 7) ltac:(lia)) as Hf.
  pose proof (Z.mod_pos_bound ind_gr (2 ^ 3) ltac:(lia)) as Hg.
  generalize dependent (unique mod 2 ^ 21). intros a Ha.
  generalize dependent (mfg mod 2 ^ 11). intros b Hb.
  generalize dependent (dev_inst mod 2 ^ 3). intros c Hc.
  generalize dependent (func_inst mod 2 ^ 5). intros d Hd.
  generalize dependent (func mod 2 ^ 8). intros e He.
  generalize dependent (dev_class mod 2 ^ 7). intros f Hf.
  generalize dependent (ind_gr mod 2 ^ 3). intros g Hg.
  set (h := if aac then 1 else 0).
  assert (Hh : 0 <= h < 2) by (unfold h; destruct aac; lia).
  clearbody h.
  rewrite !Z.shiftl_mul_pow2 by lia. unfold u64.
  change 18446744073709551616 with (2 ^ 64).
  rewrite (Z.mod_small (a * 2 ^ 0)), (Z.mod_small (b * 2 ^ 21)),
    (Z.mod_small (c * 2 ^ 32)), (Z.mod_small (d * 2 ^ 35)),
    (Z.mod_small (e * 2 ^ 40)), (Z.mod_small (1 * 2 ^ 48)),
    (Z.mod_small (f * 2 ^ 49)), (Z.mod_small (0 * 2 ^ 56)),
    (Z.mod_small (g * 2 ^ 60)), (Z.mod_small (h * 2 ^ 63)) by lia.
  rewrite Z.lor_0_l. change (0 * 2 ^ 56) with 0.
  replace (a * 2 ^ 0) with a by lia.
  rewrite (lor_low_high a b 21) by lia.
  rewrite (lor_low_high _ c 32) by lia.
  rewrite (lor_low_high _ d 35) by lia.
  rewrite (lor_low_high _ e 40) by lia.
  rewrite (lor_low_high _ 1 48) by lia.
  rewrite (lor_low_high _ f 49) by lia.
  rewrite Z.lor_0_r.
  rewrite (lor_low_high _ g 60) by lia.
  rewrite (lor_low_high _ h 63) by lia.
  reflexivity.
Qed.

Section NameFields.

Variables a b c d e f g h : Z.
Hypothesis Ha : 0 <= a < 2 ^ 21.
Hypothesis Hb : 0 <= b < 2 ^ 11.
Hypothesis Hc : 0 <= c < 2 ^ 3.
Hypothesis Hd : 0 <= d < 2 ^ 5.
Hypothesis He : 0 <= e < 2 ^ 8.
Hypothesis Hf : 0 <= f < 2 ^ 7.
Hypothesis Hg : 0 <= g < 2 ^ 3.
Hypothesis Hh : 0 <= h < 2.

Local Abbreviation nm :=
  (a + b * 2 ^ 21 + c * 2 ^ 32 + d * 2 ^ 35 + e * 2 ^ 40 + 1 * 2 ^ 48
   + f * 2 ^ 49 + g * 2 ^ 60 + h * 2 ^ 63).

Ltac name_arith :=
  unfold name_field;
  rewrite ?Z.shiftr_div_pow2, ?land_low_mod by lia;
  change (2 ^ 63) with 9223372036854775808;
  change (2 ^ 60) with 1152921504606846976;
  change (2 ^ 56) with 72057594037927936;
  change (2 ^ 49) with 562949953421312;
  change (2 ^ 48) with 281474976710656;
  change (2 ^ 40) with 1099511627776;
  change (2 ^ 35) with 34359738368;
  change (2 ^ 32) with 4294967296;
  change (2 ^ 21) with 2097152;
  change (2 ^ 11) with 2048; change (2 ^ 8) with 256;
  change (2 ^ 7) with 128; change (2 ^ 5) with 32;
  change (2 ^ 4) with 16; change (2 ^ 3) with 8;
  change (2 ^ 1) with 2; change (2 ^ 0) with 1;
  Z.div_mod_to_equations; lia.

Lemma nm_range : 0 <= nm < 2 ^ 64.
Proof. lia. Qed.

Lemma nm_unique : name_field nm 0 21 = a.
Proof. name_arith. Qed.

Lemma nm_mfg : name_field nm 21 11 = b.
Proof. name_arith. Qed.

Lemma nm_dev_inst : name_field nm 32 3 = c.
Proof. name_arith. Qed.

Lemma nm_func_inst : name_field nm 35 5 = d.
Proof. name_arith. Qed.

Lemma nm_func : name_field nm 40 8 = e.
Proof. name_arith. Qed.

Lemma nm_bit48 : name_field nm 48 1 = 1.
Proof. name_arith. Qed.

Lemma nm_dev_class : name_field nm 49 7 = f.
Proof. name_arith. Qed.

Lemma nm_reserved : name_field nm 56 4 = 0.
Proof. name_arith. Qed.

Lemma nm_ind_gr : name_field nm 60 3 = g.
Proof. name_arith. Qed.

Lemma nm_aac : name_field nm 63 1 = h.
Proof. name_arith. Qed.

End NameFields.

Lemma name_bytes_value (n : Z) :
  0 <= n < 2 ^ 64 -> le_value (name_bytes n) = n.
Proof.
  intros Hn. unfold name_bytes. cbn [map le_value]. unfold u8.
  change 0xFF with (2 ^ 8 - 1).
  rewrite !land_low_mod, !Z.shiftr_div_pow2 by lia.
  change (2 ^ 8) with 256. rewrite !Z.mod_mod by lia.
  change (2 ^ (8 * 0)) with 1. change (2 ^ (8 * 1)) with 256.
  change (2 ^ (8 * 2)) with 65536. change (2 ^ (8 * 3)) with 16777216.
  change (2 ^ (8 * 4)) with 4294967296.
  change (2 ^ (8 * 5)) with 1099511627776.
  change (2 ^ (8 * 6)) with 281474976710656.
  change (2 ^ (8 * 7)) with 72057594037927936.
  change (2 ^ 64) with 18446744073709551616 in Hn.
  Z.div_mod_to_equations. lia.
Qed.

Lemma name_bytes_ok (n : Z) :
  length (name_bytes n) = 8%nat /\ forallb byte_ok (name_bytes n) = true.
Proof.
  split; [reflexivity |]. unfold name_bytes. cbn [map forallb].
  rewrite !byte_ok_u8. reflexivity.
Qed.

(** X16.  The NAME of the address claim.  [buildNAME] packs its fields
    without overlap: the value fits 64 bits, every field reads back as
    the configured value reduced to the width of the field (unique
    number 21 bits at bit 0, manufacturer 11 at 21, device instance 3 at
    32, function instance 5 at 35, function 8 at 40, the constant 1 at
    bit 48, device class 7 at 49, the reserved 4 bits at 56 zero,
    industry group 3 at 60, the arbitrary-address flag at 63), and the
    eight bytes that [send_60928_AddressClaim] sends are the value in
    little-endian order. *)
Theorem name_fields_roundtrip
  (unique mfg dev_inst func_inst func dev_class ind_gr : Z) (aac : bool) :
  let nm := packNAME unique mfg dev_inst func_inst func dev_class ind_gr aac in
  0 <= nm < 2 ^ 64
  /\ name_field nm 0 21 = unique mod 2 ^ 21
  /\ name_field nm 21 11 = mfg mod 2 ^ 11
  /\ name_field nm 32 3 = dev_inst mod 2 ^ 3
  /\ name_field nm 35 5 = func_inst mod 2 ^ 5
  /\ name_field nm 40 8 = func mod 2 ^ 8
  /\ name_field nm 48 1 = 1
  /\ name_field nm 49 7 = dev_class mod 2 ^ 7
  /\ name_field nm 56 4 = 0
  /\ name_field nm 60 3 = ind_gr mod 2 ^ 3
  /\ name_field nm 63 1 = (if aac then 1 else 0)
  /\ length (name_bytes nm) = 8%nat
  /\ forallb byte_ok (name_bytes nm) = true
  /\ le_value (name_bytes nm) = nm
  /\ buildNAME
     = packNAME N2K_UNIQUE N2K_MFG N2K_DEV_INST N2K_FUNC_INST N2K_FUNC
         N2K_DEV_CLASS N2K_IND_GR N2K_AAC
  /\ send_60928_AddressClaim
     = [CanTx (n2k_id 6 PGN_ADDR_CLAIM SA) (name_bytes buildNAME)].
Proof.
  intros nm. unfold nm. rewrite packNAME_sum.
  pose proof (Z.mod_pos_bound unique (2 ^ 21) ltac:(lia)) as Ha.
  pose proof (Z.mod_pos_bound mfg (2 ^ 11) ltac:(lia)) as Hb.
  pose proof (Z.mod_pos_bound dev_inst (2 ^ 3) ltac:(lia)) as Hc.
  pose proof (Z.mod_pos_bound func_inst (2 ^ 5) ltac:(lia)) as Hd.
  pose proof (Z.mod_pos_bound func (2 ^ 8) ltac:(lia)) as He.
  pose proof (Z.mod_pos_bound dev_class (2 ^ 7) ltac:(lia)) as Hf.
  pose proof (Z.mod_pos_bound ind_gr (2 ^ 3) ltac:(lia)) as Hg.
  assert (Hh : 0 <= (if aac then 1 else 0) < 2) by (destruct aac; lia).
  split; [apply nm_range; assumption |].
  split; [apply nm_unique; assumption |].
  split; [apply nm_mfg; assumption |].
  split; [apply nm_dev_inst; assumption |].
  split; [apply nm_func_inst; assumption |].
  split; [apply nm_func; assumption |].
  split; [apply nm_bit48; assumption |].
  split; [apply nm_dev_class; assumption |].
  split; [apply nm_reserved; assumption |].
  split; [apply nm_ind_gr; assumption |].
  split; [apply nm_aac; assumption |].
  split; [apply name_bytes_ok |].
  split; [apply name_bytes_ok |].
  split; [apply name_bytes_value; apply nm_range; assumption |].
  split; reflexivity.
Qed.

(** ** The heading field of a command *)

Lemma gf65360_scan_first (k : nat) (b : list Z) (n : Z) :
  forall i,
    0 <= i -> n - 2 - i <= Z.of_nat k ->
    match gf65360_scan k b n i with
    | Some d =>
        exists i', i <= i' <= n - 3 /\ byte_at b i' = 0x06
                   /\ (forall j, i <= j < i' -> byte_at b j <> 0x06)
                   /\ d = raw_to_deg (u16le b (i' + 1))
    | None => forall j, i <= j <= n - 3 -> byte_at b j <> 0x06
    end.
Proof.
  induction k as [| k IH]; intros i Hi Hk.
  - cbn [gf65360_scan]. intros j Hj. simpl in Hk. lia.
  - cbn [gf65360_scan].
    destruct (i <=? n - 3) eqn:Ei; zbool; [| intros j Hj; lia].
    destruct (byte_at b i =? 6) eqn:E6; zbool.
    + exists i. split; [lia |]. split; [exact E6 |].
      split; [intros j Hj; lia | reflexivity].
    + specialize (IH (i + 1) ltac:(lia) ltac:(lia)).
      destruct (gf65360_scan k b n (i + 1)) as [d |].
      * destruct IH as (i' & Hi' & H6 & Hfirst & Hd).
        exists i'. split; [lia |]. split; [exact H6 |].
        split; [| exact Hd].
        intros j Hj. destruct (Z.eq_dec j i) as [-> | Hne];
          [exact E6 | apply Hfirst; lia].
      * intros j Hj. destruct (Z.eq_dec j i) as [-> | Hne];
          [exact E6 | apply IH; lia].
Qed.

(** X17.  [gf65360_extractMagHeading] takes the first byte 0x06 among the
    positions 0..n-3 as the heading marker, whatever precedes or follows
    it, and converts the two bytes after it; it fails exactly when none of
    those positions holds 0x06 (in particular when fewer than three bytes
    are given). *)
Theorem heading_field_is_first_marker (b : list Z) (n : Z) :
  match gf65360_extractMagHeading b n with
  | Some d =>
      exists i, 0 <= i <= n - 3 /\ byte_at b i = 0x06
                /\ (forall j, 0 <= j < i -> byte_at b j <> 0x06)
                /\ d = raw_to_deg (u16le b (i + 1))
  | None => forall j, 0 <= j <= n - 3 -> byte_at b j <> 0x06
  end.
Proof.
  unfold gf65360_extractMagHeading.
  apply gf65360_scan_first; lia.
Qed.

(** ** The wrap loops end *)

Lemma wrap_full_turn_infinity (k : nat) :
  wrap_full_turn k (S754_infinity false) = None.
Proof. induction k as [| k IH]; [reflexivity | exact IH]. Qed.

Lemma wrap_negative_infinity (k : nat) :
  wrap_negative k (S754_infinity true) = None.
Proof. induction k as [| k IH]; [reflexivity | exact IH]. Qed.

Lemma run_rx_values (fuel : nat) (ms : Z) (frames : list twai_message) :
  (2 <= fuel)%nat ->
  forall w,
    heading_value (hdg_deg_now w) -> locked_value (locked_hdg_deg w) ->
    exists w', run_rx fuel ms frames w = Some w'
               /\ heading_value (hdg_deg_now w')
               /\ locked_value (locked_hdg_deg w').
Proof.
  intros Hf. induction frames as [| m rest IH]; intros w Hh Hl.
  - exists w. split; [reflexivity | auto].
  - cbn [run_rx].
    destruct (loop_rx_returns fuel ms m w Hf Hh Hl) as (w1 & E & Hh1 & Hl1).
    rewrite E. apply IH; assumption.
Qed.

(** X18.  The two [while] loops that bring a heading into [0, 360) end
    in every state the sketch reaches.  With two rounds of fuel for each
    loop, every sequence of received frames is handled from [setup] to
    the end, and in the state reached the locked-heading frame of the
    one-second timer is built as well (nothing in Standby or without a
    locked heading, one 65360 frame otherwise).  The loops do not end on
    an infinite heading, whatever the fuel: the guarantee rests on the
    headings being made from 16-bit angles only. *)
Theorem wrap_loops_end (fuel : nat) (ms : Z) (frames : list twai_message) :
  (2 <= fuel)%nat ->
  (exists w os,
     run_rx fuel ms frames initial_world = Some w
     /\ periodic_locked_heading fuel w = Some os
     /\ (length os <= 1)%nat
     /\ (currentMode w = PM_STBY \/ F32.isnan (locked_hdg_deg w) = true ->
         os = []))
  /\ (forall k, deg_to_rad1e4_u16 k (S754_infinity false) = None)
  /\ (forall k, deg_to_rad1e4_u16 k (S754_infinity true) = None).
Proof.
  intros Hf. split.
  - destruct (run_rx_values fuel ms frames Hf initial_world)
      as (w & E & Hh & Hl); [left; reflexivity | left; reflexivity |].
    exists w. unfold periodic_locked_heading.
    destruct (currentMode w) eqn:Em; cbn [PilotMode_eqb negb andb].
    + exists []. repeat split; auto.
    + destruct (F32.isnan (locked_hdg_deg w)) eqn:En; cbn [negb].
      * exists []. repeat split; auto.
      * unfold send_65360_locked_heading, deg_to_rad1e4_u16. rewrite En.
        destruct (normalize360_locked_value fuel _ Hf Hl En) as (h & ->).
        eexists. split; [exact E |]. split; [reflexivity |].
        split; [cbn; lia |]. intros [H | H]; discriminate.
    + destruct (F32.isnan (locked_hdg_deg w)) eqn:En; cbn [negb].
      * exists []. repeat split; auto.
      * unfold send_65360_locked_heading, deg_to_rad1e4_u16. rewrite En.
        destruct (normalize360_locked_value fuel _ Hf Hl En) as (h & ->).
        eexists. split; [exact E |]. split; [reflexivity |].
        split; [cbn; lia |]. intros [H | H]; discriminate.
    + destruct (F32.isnan (locked_hdg_deg w)) eqn:En; cbn [negb].
      * exists []. repeat split; auto.
      * unfold send_65360_locked_heading, deg_to_rad1e4_u16. rewrite En.
        destruct (normalize360_locked_value fuel _ Hf Hl En) as (h & ->).
        eexists. split; [exact E |]. split; [reflexivity |].
        split; [cbn; lia |]. intros [H | H]; discriminate.
  - split; intros k; unfold deg_to_rad1e4_u16, normalize360.
    + destruct k as [| k]; [reflexivity |].
      cbn [wrap_negative].
      change (F32.ltb (S754_infinity false) (F32.of_Z 0)) with false.
      cbv iota. rewrite wrap_full_turn_infinity. reflexivity.
    + rewrite wrap_negative_infinity. reflexivity.
Qed.

Lemma wrap_loops_end_witness :
  (2 <= 2)%nat
  /\ exists w os,
       run_rx 2 0
         [mkMsg (n2k_id 3 PGN_CMD_GROUP 5) true 7
            (heading_command 0xA0 0xF000);
          mkMsg (n2k_id 3 PGN_CMD_GROUP 5) true 7
            (selector_command 0xA0 0x40)]
         initial_world = Some w
       /\ periodic_locked_heading 2 w = Some os.
Proof.
  assert (H : (2 <= 2)%nat) by lia.
  split; [exact H |].
  destruct (proj1 (wrap_loops_end 2 0
                     [mkMsg (n2k_id 3 PGN_CMD_GROUP 5) true 7
                        (heading_command 0xA0 0xF000);
                      mkMsg (n2k_id 3 PGN_CMD_GROUP 5) true 7
                        (selector_command 0xA0 0x40)] H))
    as (w & os & E & P & _).
  exists w, os. split; [exact E | exact P].
Defined.

(** ** What the periodic frames report *)

(** X19.  The navigation datagram of the one-second timer always
    reports the distance to the waypoint as zero: no received frame
    writes the distance, so in every state reached from [setup] the
    datagram has the distance nibbles and byte 5 zero, with the below-10
    flag (bit 4 of byte 6); its low flag nibble is 7 in Track mode and 5
    in the other modes. *)
Theorem nav_reports_zero_distance (fuel : nat) (w : World) :
  rx_reachable fuel w ->
  exists p,
    periodic_nav w = [StTx p]
    /\ length p = 9%nat
    /\ nav_distance_Z_ZZ p = 0
    /\ nav_distance_ZZ_Z p = 0
    /\ Z.testbit (byte_at p 6) 4 = true
    /\ nav_F p = match currentMode w with PM_TRACK => 0x07 | _ => 0x05 end.
Proof.
  intros Hr. destruct (rx_reachable_values fuel w Hr) as (_ & D & _).
  unfold periodic_nav. rewrite D.
  unfold st_send_nav_0x85. cbv zeta.
  change (F32.ltb F32.zero (F32.of_Z 10)) with true. cbv iota.
  change (clampf F32.zero (F32.of_Z 0) (F32.of_ratio 4095 10))
    with F32.zero.
  change (u16 (F32.to_Z (F32.roundf (F32.mul F32.zero (F32.of_Z 100)))))
    with 0.
  unfold st_write_datagram. change (9 =? 0) with false. cbv iota.
  change (Z.to_nat 9) with 9%nat. cbn [firstn].
  eexists. split; [reflexivity |]. split; [reflexivity |].
  unfold nav_distance_Z_ZZ, nav_distance_ZZ_Z, nav_F.
  repeat match goal with
  | |- context [byte_at [?b0; ?b1; ?b2; ?b3; ?b4; ?b5; ?b6; ?b7; ?b8] 4] =>
      change (byte_at [b0; b1; b2; b3; b4; b5; b6; b7; b8] 4) with b4
  | |- context [byte_at [?b0; ?b1; ?b2; ?b3; ?b4; ?b5; ?b6; ?b7; ?b8] 5] =>
      change (byte_at [b0; b1; b2; b3; b4; b5; b6; b7; b8] 5) with b5
  | |- context [byte_at [?b0; ?b1; ?b2; ?b3; ?b4; ?b5; ?b6; ?b7; ?b8] 6] =>
      change (byte_at [b0; b1; b2; b3; b4; b5; b6; b7; b8] 6) with b6
  end.
  change (Z.land (Z.shiftr 0 8) 15) with 0.
  change (Z.land (Z.shiftr 0 4) 255) with 0.
  change (Z.land 0 15) with 0.
  match goal with
  | |- context [Z.land (Z.shiftr ?WV 4) 15] =>
      pose proof (nibble_range (Z.shiftr WV 4)) as Hw;
      generalize dependent (Z.land (Z.shiftr WV 4) 15)
  end.
  intros wv Hw.
  destruct (F32.ltb (xte_nm w) (F32.of_Z 0)), (currentMode w);
    cbn [PilotMode_eqb]; nibble_cases wv Hw; repeat split.
Qed.

Lemma nav_reports_zero_distance_witness :
  exists p,
    periodic_nav initial_world = [StTx p]
    /\ nav_distance_Z_ZZ p = 0.
Proof.
  destruct (nav_reports_zero_distance 2 initial_world (rx_setup 2))
    as (p & E & _ & Z0 & _).
  exists p. split; [exact E | exact Z0].
Defined.

(** X20.  The two mode reports.  The 65379 frame tells the four modes
    apart (different modes give different frames), and its byte 6 and
    bytes 2..3 name the mode; the steering code of the 127237 status
    does not: Auto and Wind are sent alike. *)
Theorem mode_reports (ms : Z) (ref : HeadingRef) (h : f32) :
  (forall m m', send_65379_mode m = send_65379_mode m' -> m = m')
  /\ (forall m,
        exists d,
          send_65379_mode m = [CanTx (n2k_id 3 PGN_RM_PILOT_MODE SA) d]
          /\ length d = 8%nat
          /\ byte_at d 6 = rmModeDataByte m
          /\ u16le d 2 = rmModeField2 m
          /\ u16le d 0 = 1851)
  /\ send_127237 ms SM_AUTO ref h = send_127237 ms SM_WIND ref h.
Proof.
  split; [| split].
  - intros m m' H. destruct m, m'; try reflexivity; discriminate.
  - intros m. eexists. split; [reflexivity |].
    destruct m; repeat split.
  - reflexivity.
Qed.

(** ** Answers to ISO requests *)

(** The product information reassembles to the metadata, whatever the
    clock. *)
Lemma product_frames (ms : Z) :
  exists fs,
    send_126996_Product ms
    = map (CanTx (n2k_id 6 PGN_PRODUCT_INFO SA)) fs
    /\ length fs = 20%nat
    /\ Forall (fun f => length f = 8%nat) fs
    /\ fp_payload fs = product_information.
Proof.
  unfold send_126996_Product. cbv zeta.
  match goal with
  | |- context [n2k_send_fast ms _ ?q _ _] => set (p := q)
  end.
  assert (Ep : p = product_information) by (vm_compute; reflexivity).
  assert (Hl : Z.of_nat (length p) = 134) by (rewrite Ep; reflexivity).
  change 134 with (Z.of_nat (length product_information)).
  rewrite <- Ep.
  destruct (send_fast_split ms PGN_PRODUCT_INFO 6 p ltac:(lia))
    as (fs & E & Hn & Hall & _ & _).
  destruct (send_fast_segments ms PGN_PRODUCT_INFO 6 p ltac:(lia))
    as (f0 & rest & E' & H1 & Hs).
  rewrite E, can_data_CanTx in E'.
  rewrite Hl in Hn. change (134 / 7) with 19 in Hn.
  eexists. split; [exact E |].
  split; [cbn [length]; lia |].
  split; [constructor; [apply head_length | exact Hall] |].
  rewrite E'.
  exact (fp_payload_of_segments f0 rest p _ H1 Hs).
Qed.

Lemma locked_heading_request (fuel : nat) (h : f32) (ang : Z) :
  F32.isnan h = false ->
  deg_to_rad1e4_u16 fuel h = Some ang ->
  0 <= ang < 65536
  /\ send_65360_locked_heading fuel h = Some [locked_heading_frame_of ang].
Proof.
  intros Hn Hd.
  assert (Ha : 0 <= ang < 65536).
  { unfold deg_to_rad1e4_u16 in Hd.
    destruct (normalize360 fuel h); [| discriminate].
    cbv zeta in Hd. apply some_eq in Hd. subst ang.
    unfold u16. apply Z.mod_pos_bound. lia. }
  split; [exact Ha |].
  unfold send_65360_locked_heading. rewrite Hn, Hd. cbv zeta.
  unfold n2k_send_single, twai_tx, locked_heading_frame_of.
  change (Z.to_nat 8) with 8%nat. cbn [firstn].
  assert (E1 : u8 (Z.land ang 255) = ang mod 256).
  { change 255 with (2 ^ 8 - 1). rewrite land_low_mod by lia.
    unfold u8. change (2 ^ 8) with 256. apply Z.mod_mod. lia. }
  assert (E2 : u8 (Z.shiftr ang 8) = ang / 256).
  { rewrite Z.shiftr_div_pow2 by lia. change (2 ^ 8) with 256.
    unfold u8. apply Z.mod_small. Z.div_mod_to_equations. lia. }
  rewrite E1, E2. reflexivity.
Qed.

(** *** The receive path transmits four PGNs only *)

Lemma emits_sends_only (w w' : World) (codes : list Z)
  (modes : list PilotMode) :
  emits w w' codes modes ->
  exists os, tx w' = tx w ++ os
             /\ forallb (sends_only answered_pgns) os = true.
Proof.
  intros (new & T & _ & F & _ & _). exists new. split; [exact T |].
  apply forallb_forall. intros o Ho. destruct o as [id d | d];
    [| reflexivity].
  assert (Hin : In (CanTx id d) (can_frames new)).
  { unfold can_frames. apply filter_In. split; [exact Ho | reflexivity]. }
  rewrite F in Hin. apply in_flat_map in Hin.
  destruct Hin as (m & _ & Hm).
  destruct m; destruct Hm as [Hm | []]; inversion Hm; reflexivity.
Qed.

Lemma product_sends_only (ms : Z) :
  forallb (sends_only answered_pgns) (send_126996_Product ms) = true.
Proof.
  destruct (product_frames ms) as (fs & E & _). rewrite E.
  apply forallb_forall. intros o Ho. apply in_map_iff in Ho.
  destruct Ho as (f & <- & _). reflexivity.
Qed.

Lemma request_sends_only (fuel : nat) (ms target : Z) (w w' : World) :
  handle_126208_request fuel ms target w = Some w' ->
  exists os, tx w' = tx w ++ os
             /\ forallb (sends_only answered_pgns) os = true.
Proof.
  unfold handle_126208_request.
  destruct (target =? 65379).
  { intros H. apply some_eq in H. subst w'. eexists.
    rewrite emit_all_eq. cbn [tx]. split; reflexivity. }
  destruct (target =? 65360).
  { destruct (negb (F32.isnan (locked_hdg_deg w))).
    - unfold send_65360_locked_heading.
      destruct (F32.isnan (locked_hdg_deg w)).
      + intros H. apply some_eq in H. subst w'. exists [].
        rewrite emit_all_eq. cbn [tx]. split; reflexivity.
      + destruct (deg_to_rad1e4_u16 fuel (locked_hdg_deg w));
          [| discriminate].
        cbv zeta. intros H. apply some_eq in H. subst w'. eexists.
        rewrite emit_all_eq. cbn [tx]. split; reflexivity.
    - intros H. apply some_eq in H. subst w'. exists [].
      rewrite app_nil_r. split; reflexivity. }
  destruct (target =? 126996).
  { intros H. apply some_eq in H. subst w'.
    exists (send_126996_Product ms).
    rewrite emit_all_eq. cbn [tx].
    split; [reflexivity | apply product_sends_only]. }
  destruct (target =? 60928).
  { intros H. apply some_eq in H. subst w'. eexists.
    rewrite emit_all_eq. cbn [tx]. split; reflexivity. }
  intros H. apply some_eq in H. subst w'. exists [].
  rewrite app_nil_r. split; reflexivity.
Qed.

Lemma handle_full_sends_only (fuel : nat) (ms : Z) (b : list Z) (n : Z)
  (w w' : World) :
  handle_126208_full fuel ms b n w = Some w' ->
  exists os, tx w' = tx w ++ os
             /\ forallb (sends_only answered_pgns) os = true.
Proof.
  intros H. unfold handle_126208_full in H.
  assert (Hnil : exists os, tx w = tx w ++ os
                            /\ forallb (sends_only answered_pgns) os = true)
    by (exists []; rewrite app_nil_r; split; reflexivity).
  destruct (n <? 4); [apply some_eq in H; subst w'; exact Hnil |].
  destruct (byte_at b 0 =? 1);
    [exact (request_sends_only _ _ _ _ _ H) |].
  fold (command_target b) in H.
  destruct ((command_target b =? PGN_RM_PILOT_MODE)
            || (command_target b =? PGN_RM_LOCKED_HEADING));
    [| apply some_eq in H; subst w'; exact Hnil].
  destruct (apply_rm_emits (ptr_add b 4) (n - 4) w) as (codes & modes & E).
  apply emits_sends_only in E.
  destruct (apply_rm_selector_or_button (ptr_add b 4) (n - 4) w)
    as [w1 acted].
  cbn [fst] in E.
  destruct (command_target b =? PGN_RM_LOCKED_HEADING);
    [| apply some_eq in H; subst w'; exact E].
  destruct (gf65360_extractMagHeading (ptr_add b 4) (n - 4));
    [| apply some_eq in H; subst w'; exact E].
  destruct (normalize360 fuel f); [| discriminate].
  apply some_eq in H. subst w'. exact E.
Qed.

Lemma loop_rx_sends_only (fuel : nat) (ms : Z) (m : twai_message)
  (w w' : World) :
  loop_rx fuel ms m w = Some w' ->
  exists os, tx w' = tx w ++ os
             /\ forallb (sends_only answered_pgns) os = true.
Proof.
  intros H. unfold loop_rx in H.
  assert (Hnil : exists os, tx w = tx w ++ os
                            /\ forallb (sends_only answered_pgns) os = true)
    by (exists []; rewrite app_nil_r; split; reflexivity).
  destruct (extd m); cbn [negb] in H;
    [| apply some_eq in H; subst w'; exact Hnil].
  destruct (extractPGN (identifier m) =? PGN_CMD_GROUP).
  { unfold handle_126208_entry in H.
    destruct (data_length_code m <=? 0);
      [apply some_eq in H; subst w'; exact Hnil |].
    destruct (Z.land (byte_at (data m) 0) 224 >=? 160);
      [exact (handle_full_sends_only _ _ _ _ _ _ H) |].
    destruct (fr_cmd (feed_126208 (grp w)
                        (u8 (Z.land (identifier m) 255)) (data m)
                        (data_length_code m))) as [c |].
    - exact (handle_full_sends_only _ _ _ _ _ _ H).
    - apply some_eq in H. subst w'. exact Hnil. }
  destruct (extractPGN (identifier m) =? PGN_ISO_REQUEST).
  { destruct (data_length_code m >=? 3);
      [exact (request_sends_only _ _ _ _ _ H) |].
    apply some_eq in H. subst w'. exact Hnil. }
  repeat match type of H with
         | (if ?c then _ else _) = _ => destruct c
         end;
    apply some_eq in H; subst w'; exact Hnil.
Qed.

Lemma pgn_list_frames_all :
  forallb (fun s =>
             forallb (sends_only [PGN_PGN_LIST])
               (send_126464_PGN_List (Z.shiftl s 5) (Z.shiftl s 5)))
    (map Z.of_nat (seq 0 8)) = true.
Proof. vm_compute. reflexivity. Qed.

Lemma pgn_list_frames (ms1 ms2 : Z) :
  forallb (sends_only [PGN_PGN_LIST]) (send_126464_PGN_List ms1 ms2) = true.
Proof.
  pose proof (forallb_range _ 8 pgn_list_frames_all
                (u8 (Z.land (Z.shiftr ms1 5) 7))
                ltac:(pose proof (seq_range ms1); lia)) as H1.
  pose proof (forallb_range _ 8 pgn_list_frames_all
                (u8 (Z.land (Z.shiftr ms2 5) 7))
                ltac:(pose proof (seq_range ms2); lia)) as H2.
  cbv beta in H1, H2. unfold send_126464_PGN_List in *. cbv zeta in *.
  rewrite forallb_app in H1, H2 |- *.
  apply andb_true_iff in H1, H2. destruct H1 as [H1 _], H2 as [_ H2].
  rewrite (send_fast_seq_only ms1), (send_fast_seq_only ms2), H1, H2.
  reflexivity.
Qed.

(** C4 (as amended).  An ISO request (PGN 59904, at least three data
    bytes) is handed to [handle_126208_request] with the requested PGN
    read from its first three bytes, and for every state:
    - PGN 60928: one address-claim frame carrying the eight bytes of the
      NAME, low byte first;
    - PGN 126996: a fast packet of twenty frames of eight bytes whose
      payload is the product information: the NMEA 2000 version, the
      product code, the model id, the software version, the model version
      and the serial number, each text zero-padded to 32 bytes, the
      certification level and the load equivalency;
    - PGN 65379: one 65379 frame of eight 0xFF bytes;
    - PGN 65360: nothing while the locked heading is NaN; otherwise one
      65360 frame with the locked heading, in 1e-4 rad, in both of its
      angle fields, and in every state the receive path reaches the
      conversion to 1e-4 rad has a result;
    - every other PGN, the supported-PGNs PGN 126464 included: no output,
      no change, no error.
    No received frame makes the sketch transmit the PGN lists: whatever
    the receive path transmits on the CAN bus has PGN 65379, 65360, 126996
    or 60928, while every frame of the lists has PGN 126464. *)
Theorem iso_request_handling (fuel : nat) (ms : Z) (w : World) :
  (forall m,
      extd m = true -> extractPGN (identifier m) = PGN_ISO_REQUEST ->
      3 <= data_length_code m ->
      loop_rx fuel ms m w
      = handle_126208_request fuel ms
          (Z.lor (Z.lor (byte_at (data m) 0)
                        (u32 (Z.shiftl (byte_at (data m) 1) 8)))
                 (u32 (Z.shiftl (byte_at (data m) 2) 16))) w)
  /\ handle_126208_request fuel ms PGN_ADDR_CLAIM w
     = Some (emit (CanTx (n2k_id 6 PGN_ADDR_CLAIM SA)
                     (map (fun i => Z.shiftr buildNAME (8 * i) mod 256)
                        [0; 1; 2; 3; 4; 5; 6; 7])) w)
  /\ (exists fs,
        handle_126208_request fuel ms PGN_PRODUCT_INFO w
        = Some (emit_all (map (CanTx (n2k_id 6 PGN_PRODUCT_INFO SA)) fs) w)
        /\ length fs = 20%nat
        /\ Forall (fun f => length f = 8%nat) fs
        /\ fp_payload fs = product_information)
  /\ handle_126208_request fuel ms PGN_RM_PILOT_MODE w
     = Some (emit (CanTx (n2k_id 3 PGN_RM_PILOT_MODE SA) (repeat 0xFF 8)) w)
  /\ (F32.isnan (locked_hdg_deg w) = true ->
      handle_126208_request fuel ms PGN_RM_LOCKED_HEADING w = Some w)
  /\ (forall ang,
        F32.isnan (locked_hdg_deg w) = false ->
        deg_to_rad1e4_u16 fuel (locked_hdg_deg w) = Some ang ->
        0 <= ang < 65536
        /\ handle_126208_request fuel ms PGN_RM_LOCKED_HEADING w
           = Some (emit (locked_heading_frame_of ang) w))
  /\ (rx_reachable fuel w -> (2 <= fuel)%nat ->
      F32.isnan (locked_hdg_deg w) = false ->
      exists ang, deg_to_rad1e4_u16 fuel (locked_hdg_deg w) = Some ang)
  /\ handle_126208_request fuel ms PGN_PGN_LIST w = Some w
  /\ (forall req,
        req <> PGN_ADDR_CLAIM -> req <> PGN_PRODUCT_INFO ->
        req <> PGN_RM_PILOT_MODE -> req <> PGN_RM_LOCKED_HEADING ->
        handle_126208_request fuel ms req w = Some w)
  /\ (forall m w',
        loop_rx fuel ms m w = Some w' ->
        exists os, tx w' = tx w ++ os
                   /\ forallb (sends_only answered_pgns) os = true)
  /\ (forall ms1 ms2,
        send_126464_PGN_List ms1 ms2 <> []
        /\ forallb (sends_only [PGN_PGN_LIST]) (send_126464_PGN_List ms1 ms2)
           = true)
  /\ existsb (Z.eqb PGN_PGN_LIST) answered_pgns = false.
Proof.
  split; [| split; [| split; [| split; [| split; [| split; [| split;
    [| split; [| split; [| split; [| split]]]]]]]]]].
  - intros m He Hp Hn. unfold loop_rx. rewrite He, Hp. cbn [negb].
    change (PGN_ISO_REQUEST =? PGN_CMD_GROUP) with false.
    change (PGN_ISO_REQUEST =? PGN_ISO_REQUEST) with true. cbv iota.
    replace (data_length_code m >=? 3) with true; [reflexivity |].
    symmetry. rewrite Z.geb_leb. apply Z.leb_le. exact Hn.
  - reflexivity.
  - destruct (product_frames ms) as (fs & E & Hl & Hf & Hp).
    exists fs. rewrite <- E. split; [reflexivity |]. auto.
  - reflexivity.
  - intros Hn. unfold handle_126208_request.
    change (PGN_RM_LOCKED_HEADING =? 65379) with false.
    change (PGN_RM_LOCKED_HEADING =? 65360) with true. cbv iota.
    rewrite Hn. reflexivity.
  - intros ang Hn Hd.
    destruct (locked_heading_request fuel _ ang Hn Hd) as (Ha & Es).
    split; [exact Ha |]. unfold handle_126208_request.
    change (PGN_RM_LOCKED_HEADING =? 65379) with false.
    change (PGN_RM_LOCKED_HEADING =? 65360) with true. cbv iota.
    rewrite Hn, Es. reflexivity.
  - intros Hr Hf Hn.
    destruct (rx_reachable_values fuel w Hr) as (_ & _ & _ & Hl & _).
    destruct (normalize360_locked_value fuel _ Hf Hl Hn) as (h & Hh).
    unfold deg_to_rad1e4_u16. rewrite Hh. eexists. reflexivity.
  - reflexivity.
  - intros req H1 H2 H3 H4. apply request_unknown; assumption.
  - intros m w' E. exact (loop_rx_sends_only fuel ms m w w' E).
  - intros ms1 ms2. split; [| apply pgn_list_frames].
    unfold send_126464_PGN_List. cbv zeta.
    rewrite (send_fast_seq_only ms1).
    intros H. apply app_eq_nil in H. destruct H as [H _].
    revert H.
    generalize (seq_range ms1). generalize (u8 (Z.land (Z.shiftr ms1 5) 7)).
    intros s Hs.
    assert (Hc : s = 0 \/ s = 1 \/ s = 2 \/ s = 3 \/ s = 4 \/ s = 5 \/ s = 6
                 \/ s = 7) by lia.
    repeat destruct Hc as [-> | Hc]; try subst s; vm_compute; discriminate.
  - reflexivity.
Qed.

Lemma iso_request_handling_witness :
  loop_rx 2 0 (mkMsg (n2k_id 6 PGN_ISO_REQUEST 5) true 3
                 [0x50; 0xFF; 0x00; 0xFF; 0xFF; 0xFF; 0xFF; 0xFF])
    (set_locked (raw_to_deg 0x3D5C) initial_world)
  = Some (emit (CanTx (n2k_id 3 PGN_RM_LOCKED_HEADING SA)
                  [59; 7; 255; 92; 61; 92; 61; 255])
            (set_locked (raw_to_deg 0x3D5C) initial_world)).
Proof.
  destruct (iso_request_handling 2 0
              (set_locked (raw_to_deg 0x3D5C) initial_world))
    as (Hl & _ & _ & _ & _ & Ha & _).
  rewrite Hl; [| reflexivity | reflexivity | cbn; lia].
  destruct (Ha 0x3D5C) as (_ & E);
    [vm_compute; reflexivity | vm_compute; reflexivity |].
  exact E.
Defined.

(** C4 as stated fails: an ISO request for PGN 126464 is ignored, nothing
    is transmitted, although the PGN lists that [setup] sends are not
    empty. *)
Lemma pgn_list_request_ignored :
  loop_rx 2 0 (mkMsg (n2k_id 6 PGN_ISO_REQUEST 5) true 3
                 [0x00; 0xEE; 0x01; 0xFF; 0xFF; 0xFF; 0xFF; 0xFF])
    initial_world
  = Some initial_world
  /\ tx initial_world = []
  /\ send_126464_PGN_List 0 0 <> [].
Proof.
  split; [vm_compute; reflexivity |]. split; [reflexivity |].
  vm_compute. discriminate.
Qed.
